(** * Expense tracker: the normaliser, the timeframe filter, the analyser
      and the natural-language parser

    A shallow embedding of [analysis.py] and of the table helpers of
    [app.py].  Python values are modelled as follows.

    - [str] is [string]: a sequence of bytes.  The character tests
      ([lower], [strip], [\d], [title]) are the ASCII ones; the bytes of a
      UTF-8 encoded character are carried through unchanged.
    - [float] is the binary64 primitive [float] of the kernel, so NaN,
      the infinities and rounding are those of the program.
    - A [pandas] timestamp or a [datetime] is a calendar date with a time
      of day; NaT is [None].
    - A [DataFrame] is the list of its rows, in index order.
    - The wall clock, the file system and the string parsers of [pandas]
      are arguments of the functions that consult them. *)

From Stdlib Require Import Bool Arith ZArith List Ascii String Lia.
From Stdlib Require Import Floats DecimalString.
From Stdlib Require Import Permutation Sorted.
From Stdlib Require Uint63.
Import ListNotations.

Local Open Scope string_scope.
Local Open Scope Z_scope.

(** ** Exceptions *)

Module Py.

Inductive exn := ValueError | IndexError | OverflowError.

(** The outcome of a call: a returned value, or an exception that
    propagates to the caller. *)
Inductive outcome (A : Type) : Type :=
| Returned (a : A)
| Raised (e : exn).

Arguments Returned {A} a.
Arguments Raised {A} e.

Definition bind {A B} (m : outcome A) (k : A -> outcome B) : outcome B :=
  match m with
  | Returned a => k a
  | Raised e => Raised e
  end.

(** [try: m  except: h] with a bare [except]. *)
Definition try_except {A} (m : outcome A) (handler : A) : A :=
  match m with
  | Returned a => a
  | Raised _ => handler
  end.

End Py.

Import Py.

Notation "x <- m ;; k" := (bind m (fun x => k))
  (at level 61, m at next level, right associativity).

(** ** Strings *)

Module Str.

Definition code (c : ascii) : N := N_of_ascii c.

Definition is_digit (c : ascii) : bool :=
  ((48 <=? code c) && (code c <=? 57))%N.

Definition is_upper (c : ascii) : bool :=
  ((65 <=? code c) && (code c <=? 90))%N.

Definition is_lower (c : ascii) : bool :=
  ((97 <=? code c) && (code c <=? 122))%N.

(** [str.isspace] on the ASCII range: tab, line feed, vertical tab, form
    feed, carriage return, the four separators 0x1c-0x1f and the space. *)
Definition is_space (c : ascii) : bool :=
  (((9 <=? code c) && (code c <=? 13))
   || ((28 <=? code c) && (code c <=? 31))
   || (code c =? 32))%N.

Definition lower_char (c : ascii) : ascii :=
  if is_upper c then ascii_of_N (code c + 32) else c.

Definition upper_char (c : ascii) : ascii :=
  if is_lower c then ascii_of_N (code c - 32) else c.

(** [s.lower()] *)
Fixpoint lower (s : string) : string :=
  match s with
  | EmptyString => EmptyString
  | String c r => String (lower_char c) (lower r)
  end.

Fixpoint lstrip (s : string) : string :=
  match s with
  | EmptyString => EmptyString
  | String c r => if is_space c then lstrip r else s
  end.

(** Every character of [s] passes the test [p]. *)
Fixpoint all (p : ascii -> bool) (s : string) : bool :=
  match s with
  | EmptyString => true
  | String c r => p c && all p r
  end.

Definition all_space (s : string) : bool := all is_space s.

Fixpoint rstrip (s : string) : string :=
  match s with
  | EmptyString => EmptyString
  | String c r => if all_space s then EmptyString else String c (rstrip r)
  end.

(** [s.strip()] *)
Definition strip (s : string) : string := rstrip (lstrip s).

(** [s.title()]: a cased character is upper-cased when the previous
    character is not cased, and lower-cased otherwise. *)
Fixpoint title_from (prev_cased : bool) (s : string) : string :=
  match s with
  | EmptyString => EmptyString
  | String c r =>
      if is_upper c || is_lower c
      then String (if prev_cased then lower_char c else upper_char c)
                  (title_from true r)
      else String c (title_from false r)
  end.

Definition title (s : string) : string := title_from false s.

(** [needle in s] *)
Fixpoint contains (needle s : string) : bool :=
  prefix needle s ||
  match s with
  | EmptyString => false
  | String _ r => contains needle r
  end.

(** The longest prefix of digits, and what follows it. *)
Fixpoint span_digits (s : string) : string * string :=
  match s with
  | String c r =>
      if is_digit c
      then let (ds, rest) := span_digits r in (String c ds, rest)
      else (EmptyString, s)
  | EmptyString => (EmptyString, EmptyString)
  end.

Definition all_digits (s : string) : bool := all is_digit s.

(** [len(s) == 0], the falsity of a string. *)
Definition is_empty (s : string) : bool :=
  match s with EmptyString => true | _ => false end.

(** The value of a string of decimal digits, most significant first. *)
Fixpoint digits_value_from (acc : Z) (s : string) : Z :=
  match s with
  | EmptyString => acc
  | String c r => digits_value_from (10 * acc + (Z.of_N (code c) - 48)) r
  end.

Definition digits_value (s : string) : Z := digits_value_from 0 s.

(** [str(n)] for an integer. *)
Definition of_Z (n : Z) : string := NilZero.string_of_int (Z.to_int n).

(** [sep.join(ls)] *)
Definition join (sep : string) (ls : list string) : string := concat sep ls.

End Str.

(** ** Floating-point numbers *)

Module Num.

Local Open Scope float_scope.

(** Python's [x >= y], [x <= y], [x > y] and [x < y] on floats. *)
Definition ge (x y : float) : bool := y <=? x.
Definition le (x y : float) : bool := x <=? y.
Definition gt (x y : float) : bool := y <? x.
Definition lt (x y : float) : bool := x <? y.

Definition signed (neg : bool) (x : float) : float := if neg then - x else x.

(** The binary64 number nearest to [n / d] (ties to even), for [0 <= n]
    and [0 < d]: the quotient is computed with more than 53 bits and the
    position of the remainder, then rounded once. *)
Definition of_ratio (n d : Z) : float :=
  match n with
  | Z0 => zero
  | _ =>
      let '(mz, ez, lz) := SFdiv_core_binary prec emax n 0 d 0 in
      SF2Prim (binary_round_aux prec emax false mz ez lz)
  end.

(** The binary64 number nearest to [n * 10 ^ e10]. *)
Definition of_decimal (n e10 : Z) : float :=
  if (0 <=? e10)%Z then of_ratio (n * 10 ^ e10) 1
  else of_ratio n (10 ^ (- e10)).

(** Single underscores are allowed between two digits of a numeric literal
    and are dropped; any other underscore makes the literal invalid. *)
Fixpoint drop_underscores (prev_digit : bool) (s : string) : option string :=
  match s with
  | EmptyString => Some EmptyString
  | String c r =>
      if Ascii.eqb c "_"
      then match r with
           | String c' _ =>
               if prev_digit && Str.is_digit c' then drop_underscores false r
               else None
           | EmptyString => None
           end
      else option_map (String c) (drop_underscores (Str.is_digit c) r)
  end.

(** An optional sign in front of [s]: whether it is a minus, and what
    follows it. *)
Definition split_sign (s : string) : bool * string :=
  match s with
  | String c r =>
      if Ascii.eqb c "-" then (true, r)
      else if Ascii.eqb c "+" then (false, r)
      else (false, s)
  | EmptyString => (false, s)
  end.

(** The exponent part of a decimal literal: nothing, or [e] or [E], an
    optional sign and digits. *)
Definition parse_exponent (s : string) : option Z :=
  match s with
  | EmptyString => Some 0%Z
  | String c r =>
      if Ascii.eqb c "e" || Ascii.eqb c "E"
      then
        let '(neg, ds) := split_sign r in
        if Str.is_empty ds || negb (Str.all_digits ds) then None
        else Some (if neg then (- Str.digits_value ds)%Z else Str.digits_value ds)
      else None
  end.

(** A decimal literal, digits with an optional point among them and an
    optional exponent: the coefficient without its point, and the power of
    ten it is scaled by. *)
Definition parse_decimal (s : string) : option (Z * Z) :=
  let (ip, r1) := Str.span_digits s in
  let (fp, r2) :=
    match r1 with
    | String c r => if Ascii.eqb c "." then Str.span_digits r else (EmptyString, r1)
    | EmptyString => (EmptyString, r1)
    end in
  if Str.is_empty ip && Str.is_empty fp then None
  else
    match parse_exponent r2 with
    | Some e => Some (Str.digits_value (ip ++ fp), (e - Z.of_nat (String.length fp))%Z)
    | None => None
    end.

(** [float(s)] for a string: surrounding white space is ignored, then an
    optional sign, then [inf], [infinity], [nan] (in any case) or a decimal
    literal.  Anything else raises [ValueError]. *)
Definition float_of_str (s : string) : outcome float :=
  let '(neg, body) := split_sign (Str.strip s) in
  let name := Str.lower body in
  if (name =? "inf")%string || (name =? "infinity")%string
  then Returned (signed neg infinity)
  else if (name =? "nan")%string then Returned nan
  else
    match drop_underscores false body with
    | Some digits =>
        match parse_decimal digits with
        | Some (n, e10) => Returned (signed neg (of_decimal n e10))
        | None => Raised ValueError
        end
    | None => Raised ValueError
    end.

(** [round(x * 10)] to the nearest integer, ties to even, for the finite
    positive number [m * 2 ^ e]. *)
Definition tenths (m : positive) (e : Z) : Z :=
  match e with
  | Zneg p =>
      let num := (Zpos m * 10)%Z in
      let den := (2 ^ Zpos p)%Z in
      let q := (num / den)%Z in
      let r := (num mod den)%Z in
      match (2 * r ?= den)%Z with
      | Lt => q
      | Gt => (q + 1)%Z
      | Eq => if Z.even q then q else (q + 1)%Z
      end
  | _ => (Zpos m * 2 ^ e * 10)%Z
  end.

Definition fixed1 (neg : bool) (t : Z) : string :=
  ((if neg then "-" else "") ++ Str.of_Z (t / 10) ++ "." ++ Str.of_Z (t mod 10))%string.

(** [f"{x:.1f}"] *)
Definition fmt_1f (x : float) : string :=
  match Prim2SF x with
  | S754_nan => "nan"
  | S754_infinity s => if s then "-inf" else "inf"
  | S754_zero s => fixed1 s 0
  | S754_finite s m e => fixed1 s (tenths m e)
  end.

(** [Series.fillna(0)] on one cell. *)
Definition fillna0 (x : float) : float := if is_nan x then 0 else x.

(** [Series.sum()]: NaN cells are skipped, the others are added up from
    zero in index order.  On long columns [pandas] may group the additions
    differently, which can change the last bits of the sum; the statements
    below speak of the sum the analyser computes and do not rely on the
    order. *)
Definition series_sum (xs : list float) : float :=
  fold_left (fun acc x => if is_nan x then acc else acc + x) xs 0.

End Num.

(** ** Calendar dates and times *)

Module Time.

(** A naive timestamp.  [tod] is the time elapsed since midnight, in
    nanoseconds. *)
Record datetime := mk_datetime {
  year : Z;
  month : Z;
  day : Z;
  tod : Z
}.

Definition day_length : Z := 86400 * 1000000000.

Definition is_leap (y : Z) : bool :=
  (y mod 4 =? 0) && (negb (y mod 100 =? 0) || (y mod 400 =? 0)).

Definition days_in_month (y m : Z) : Z :=
  if m =? 2 then (if is_leap y then 29 else 28)
  else if (m =? 4) || (m =? 6) || (m =? 9) || (m =? 11) then 30
  else 31.

(** The dates [datetime] can hold: years 1 to 9999. *)
Definition valid_date (y m d : Z) : bool :=
  (1 <=? y) && (y <=? 9999) && (1 <=? m) && (m <=? 12)
  && (1 <=? d) && (d <=? days_in_month y m).

Definition valid (t : datetime) : bool :=
  valid_date (year t) (month t) (day t)
  && (0 <=? tod t) && (tod t <? day_length).

(** Chronological order is the lexicographic order of the fields. *)
Definition compare (a b : datetime) : comparison :=
  match year a ?= year b with
  | Eq =>
      match month a ?= month b with
      | Eq =>
          match day a ?= day b with
          | Eq => tod a ?= tod b
          | c => c
          end
      | c => c
      end
  | c => c
  end.

Definition leb (a b : datetime) : bool :=
  match compare a b with Gt => false | _ => true end.

(** [t.replace(day=d)] and [t.replace(month=m, day=d)] *)
Definition replace_day (t : datetime) (d : Z) : datetime :=
  mk_datetime (year t) (month t) d (tod t).

Definition replace_month_day (t : datetime) (m d : Z) : datetime :=
  mk_datetime (year t) m d (tod t).

(** [t - pd.DateOffset(months=n)]: the month moves back by [n], the day
    is cut down to the length of the month reached, the time of day
    stays. *)
Definition sub_months (t : datetime) (n : Z) : datetime :=
  let k := year t * 12 + (month t - 1) - n in
  let y := k / 12 in
  let m := k mod 12 + 1 in
  mk_datetime y m (Z.min (day t) (days_in_month y m)) (tod t).

(** [t + pd.offsets.MonthEnd(0)]: a timestamp that is not on the last day
    of its month rolls forward to it, the time of day stays. *)
Definition month_end_0 (t : datetime) : datetime :=
  if day t =? days_in_month (year t) (month t) then t
  else replace_day t (days_in_month (year t) (month t)).

(** [t - timedelta(days=1)]; the day before 0001-01-01 cannot be
    represented. *)
Definition sub_one_day (t : datetime) : outcome datetime :=
  if 1 <? day t then Returned (replace_day t (day t - 1))
  else if 1 <? month t
  then Returned (mk_datetime (year t) (month t - 1)
                             (days_in_month (year t) (month t - 1)) (tod t))
  else if 1 <? year t then Returned (mk_datetime (year t - 1) 12 31 (tod t))
  else Raised OverflowError.

(** [date.toordinal()]: the number of the day, counting 0001-01-01 as
    day 1. *)
Definition days_before_year (y : Z) : Z :=
  (y - 1) * 365 + (y - 1) / 4 - (y - 1) / 100 + (y - 1) / 400.

Definition days_before_month (y m : Z) : Z :=
  (if m <=? 1 then 0 else if m =? 2 then 31 else if m =? 3 then 59
   else if m =? 4 then 90 else if m =? 5 then 120 else if m =? 6 then 151
   else if m =? 7 then 181 else if m =? 8 then 212 else if m =? 9 then 243
   else if m =? 10 then 273 else if m =? 11 then 304 else 334)
  + (if (2 <? m) && is_leap y then 1 else 0).

Definition toordinal (t : datetime) : Z :=
  days_before_year (year t) + days_before_month (year t) (month t) + day t.

(** The shape [\d{4}-\d{2}-\d{2}] of a ten-character string. *)
Definition iso_shape (s : string) : bool :=
  match s with
  | String y1 (String y2 (String y3 (String y4 (String h1
    (String m1 (String m2 (String h2 (String d1 (String d2 EmptyString))))))))) =>
      Str.is_digit y1 && Str.is_digit y2 && Str.is_digit y3 && Str.is_digit y4
      && Ascii.eqb h1 "-" && Str.is_digit m1 && Str.is_digit m2
      && Ascii.eqb h2 "-" && Str.is_digit d1 && Str.is_digit d2
  | _ => false
  end.

(** [datetime.fromisoformat(s)] on the date-only form [YYYY-MM-DD]: midnight
    of that day, or [ValueError] when the fields name no calendar day.  The
    forms with a time part are not modelled. *)
Definition fromisoformat (s : string) : outcome datetime :=
  if iso_shape s then
    let y := Str.digits_value (substring 0 4 s) in
    let m := Str.digits_value (substring 5 2 s) in
    let d := Str.digits_value (substring 8 2 s) in
    if valid_date y m d then Returned (mk_datetime y m d 0)
    else Raised ValueError
  else Raised ValueError.

End Time.

(** ** Rows and tables *)

Module Frame.

Import Time.

(** The amount and the date of a raw row as the caller hands them over: a
    number or a timestamp already, the text of one, or nothing.  The
    category is text or nothing (the store declares it TEXT). *)
Inductive amount_cell := ANone | ANum (x : float) | AStr (s : string).
Inductive date_cell := DNone | DStamp (t : datetime) | DStr (s : string).

Record raw_row := mk_raw {
  raw_id : Z;
  raw_amount : amount_cell;
  raw_category : option string;
  raw_date : date_cell
}.

(** A row of a [DataFrame] with the columns [id], [amount], [category] and
    [date].  A null category is [None]; NaT is [None]; a missing amount is
    NaN. *)
Record row := mk_row {
  id : Z;
  amount : float;
  category : option string;
  date : option datetime
}.

Definition DataFrame := list row.

(** [df.empty] *)
Definition empty (df : DataFrame) : bool :=
  match df with [] => true | _ => false end.

Section Pandas.

(** What [pandas] makes of the text of a number, and of the cell at a given
    position of a column of dates (the format may be inferred from the
    other cells of the column). *)
Variable str_to_numeric : string -> option float.
Variable column_to_datetime : list date_cell -> nat -> option datetime.

(** [pd.to_numeric(col, errors="coerce")] on one cell *)
Definition to_numeric (c : amount_cell) : float :=
  match c with
  | ANone => nan
  | ANum x => x
  | AStr s =>
      match str_to_numeric s with
      | Some x => x
      | None => nan
      end
  end.

(** [pd.to_datetime(col, errors="coerce")] on the cell at position [i] *)
Definition to_datetime (col : list date_cell) (i : nat) : option datetime :=
  match nth_error col i with
  | Some DNone => None
  | Some (DStamp t) => Some t
  | Some (DStr _) => column_to_datetime col i
  | None => None
  end.

(** [col.fillna("")] on one cell *)
Definition fillna_empty (c : option string) : option string :=
  match c with
  | None => Some EmptyString
  | Some s => Some s
  end.

(** [col.str.lower()] and [col.str.strip()] on one cell: a null stays
    null. *)
Definition str_lower (c : option string) : option string := option_map Str.lower c.
Definition str_strip (c : option string) : option string := option_map Str.strip c.

(** The rows of [pd.DataFrame(rows, columns=[...])] after the three column
    assignments, given what each assignment does to a cell. *)
Fixpoint assign_columns (f_amount : amount_cell -> float)
    (f_date : nat -> option datetime)
    (f_category : option string -> option string)
    (i : nat) (rows : list raw_row) : DataFrame :=
  match rows with
  | [] => []
  | r :: rest =>
      mk_row (raw_id r) (f_amount (raw_amount r))
             (f_category (raw_category r)) (f_date i)
      :: assign_columns f_amount f_date f_category (S i) rest
  end.

End Pandas.

(** [df.groupby("category")]: the distinct non-null keys, in ascending
    order. *)
Fixpoint insert_key (k : string) (keys : list string) : list string :=
  match keys with
  | [] => [k]
  | k' :: rest =>
      match String.compare k k' with
      | Lt => k :: keys
      | Eq => keys
      | Gt => k' :: insert_key k rest
      end
  end.

Definition group_keys (df : DataFrame) : list string :=
  fold_right
    (fun r keys => match category r with
                   | Some k => insert_key k keys
                   | None => keys
                   end)
    [] df.

Definition in_group (k : string) (r : row) : bool :=
  match category r with
  | Some k' => String.eqb k' k
  | None => false
  end.

(** [df.groupby("category")["amount"].sum()] *)
Definition groupby_sum (df : DataFrame) : list (string * float) :=
  map (fun k => (k, Num.series_sum (map amount (filter (in_group k) df))))
      (group_keys df).

(** [s.sort_values(ascending=False)]: larger sums first, NaN sums last,
    equal sums in the order of the groups (what the sort of [pandas] gives
    on the short series it sorts by insertion). *)
Definition precedes (x y : float) : bool :=
  if is_nan y then true
  else if is_nan x then false
  else Num.ge x y.

Fixpoint insert_desc (e : string * float) (l : list (string * float))
  : list (string * float) :=
  match l with
  | [] => [e]
  | e' :: rest =>
      if precedes (snd e) (snd e') then e :: l
      else e' :: insert_desc e rest
  end.

Definition sort_values_desc (s : list (string * float)) : list (string * float) :=
  fold_right insert_desc [] s.

End Frame.

(** ** analysis.py *)

Module Analysis.

Import Time Frame.

Local Open Scope float_scope.

Definition newline : string := String "010"%char EmptyString.

(** [dict.get(key, default)] for a dictionary with string keys *)
Fixpoint dict_get (d : list (string * string)) (key default : string) : string :=
  match d with
  | [] => default
  | (k, v) :: rest => if String.eqb k key then v else dict_get rest key default
  end.

Fixpoint ends_with_slash (s : string) : bool :=
  match s with
  | EmptyString => false
  | String c EmptyString => Ascii.eqb c "/"
  | String _ r => ends_with_slash r
  end.

(** [os.path.join(a, b)] *)
Definition path_join (a b : string) : string :=
  match b with
  | String "/" _ => b
  | _ => if Str.is_empty a || ends_with_slash a then a ++ b else a ++ "/" ++ b
  end.

Record analysis := mk_analysis {
  suggestion : string;
  top_category : option string;
  percent_of_total : float;
  total : float;
  count : Z;
  image_path : string
}.

Section Environment.

(** The directory of the illustrations and the files that exist. *)
Variable AWARENESS_DIR : string.
Variable path_exists : string -> bool.

Variable str_to_numeric : string -> option float.
Variable column_to_datetime : list date_cell -> nat -> option datetime.

Definition load_awareness_filename (category : string) : string :=
  let mapping :=
    [ ("food", "food.png");
      ("shopping", "shopping.png");
      ("travel", "travel.png");
      ("bills", "bills.png") ] in
  let fname := dict_get mapping (Str.lower category) "default.png" in
  let path := path_join AWARENESS_DIR fname in
  if path_exists path then path else path_join AWARENESS_DIR "default.png".

(** An absent [rows] is treated like the empty list. *)
Definition rows_to_df (rows : list raw_row) : DataFrame :=
  match rows with
  | [] => []
  | _ =>
      assign_columns
        (fun c => Num.fillna0 (to_numeric str_to_numeric c))
        (to_datetime column_to_datetime (map raw_date rows))
        (fun c => str_strip (str_lower (fillna_empty c)))
        0 rows
  end.

Definition tips : list (string * string) :=
  [ ("food", "Try reducing takeout and cook at home more often.");
    ("shopping", "Use a wishlist and buy only after 48 hours.");
    ("travel", "Look for discount deals or plan trips off-season.");
    ("bills", "Review subscriptions and remove unused services.") ].

Definition analyze_spending (rows : list raw_row) (timeframe : string)
  : outcome analysis :=
  let df := rows_to_df rows in
  let default_image := path_join AWARENESS_DIR "default.png" in
  if empty df
  then Returned (mk_analysis "No expenses yet." None 0 0 0 default_image)
  else
    let total := Num.series_sum (map amount df) in
    let count := Z.of_nat (List.length df) in
    if Num.le total 0
    then Returned (mk_analysis "No expenses added in this timeframe."
                               None 0 total count default_image)
    else
      let cat_totals := sort_values_desc (groupby_sum df) in
      match cat_totals with
      | [] => Raised IndexError
      | (top_cat, top_amt) :: _ =>
          let percent := (top_amt / total) * 100 in
          let severity :=
            if Num.ge percent 40
            then "🚨 You spent " ++ Num.fmt_1f percent ++ "% on **"
                 ++ Str.title top_cat ++ "**."
            else if Num.ge percent 25
            then "⚠️ " ++ Str.title top_cat ++ " makes up "
                 ++ Num.fmt_1f percent ++ "% of your spending."
            else "✅ Your spending is well balanced." in
          let tip := "💡 Tip: " ++ dict_get tips top_cat "Track recurring expenses." in
          Returned (mk_analysis (Str.join newline [severity; tip])
                                (Some top_cat) percent total count
                                (load_awareness_filename top_cat))
      end.

End Environment.

(** *** The natural-language parser *)

(** [re.search(r"(\d+(?:\.\d+)?)", text)]: the match that starts at the
    first digit of [s], a digit. *)
Definition amount_at (s : string) : string :=
  let (ip, r1) := Str.span_digits s in
  match r1 with
  | String c r2 =>
      if Ascii.eqb c "."
      then let (fp, _) := Str.span_digits r2 in
           if Str.is_empty fp then ip else ip ++ "." ++ fp
      else ip
  | EmptyString => ip
  end.

Fixpoint search_amount (text : string) : option string :=
  match text with
  | EmptyString => None
  | String c r => if Str.is_digit c then Some (amount_at text) else search_amount r
  end.

(** [re.search(r"(\d{4}-\d{2}-\d{2})", text)]: the leftmost match. *)
Fixpoint search_date (text : string) : option string :=
  if iso_shape (substring 0 10 text) then Some (substring 0 10 text)
  else
    match text with
    | EmptyString => None
    | String _ r => search_date r
    end.

Definition categories : list string := ["food"; "shopping"; "travel"; "bills"].

(** The loop over [categories]: the first one that occurs in [text]. *)
Fixpoint detect_category (cs : list string) (text : string) : option string :=
  match cs with
  | [] => None
  | c :: rest => if Str.contains c text then Some c else detect_category rest text
  end.

(** [now] is what [datetime.now()] returns during the call. *)
Definition parse_nl_expense (now : datetime) (text : string)
  : outcome (option (float * string * datetime)) :=
  if Str.is_empty text || Str.is_empty (Str.strip text) then Returned None
  else
    let text := Str.strip (Str.lower text) in
    match search_amount text with
    | None => Returned None
    | Some amount_match =>
        amount <- Num.float_of_str amount_match ;;
        match detect_category categories text with
        | None => Returned None
        | Some cat =>
            dt <- (if Str.contains "today" text then Returned now
                   else if Str.contains "yesterday" text then sub_one_day now
                   else
                     match search_date text with
                     | Some date_match =>
                         Returned (try_except (fromisoformat date_match) now)
                     | None => Returned now
                     end) ;;
            Returned (Some (amount, cat, dt))
        end
    end.

End Analysis.

(** ** app.py *)

Module App.

Import Time Frame.

Section Pandas.

Variable str_to_numeric : string -> option float.
Variable column_to_datetime_mixed : list date_cell -> nat -> option datetime.

Definition df_from_rows (rows : list raw_row) : DataFrame :=
  match rows with
  | [] => []
  | _ =>
      assign_columns
        (to_numeric str_to_numeric)
        (to_datetime column_to_datetime_mixed (map raw_date rows))
        (fun c => str_strip (str_lower c))
        0 rows
  end.

End Pandas.

(** [col >= start] and [col <= end] on one cell: false on NaT. *)
Definition date_ge (d : option datetime) (start : datetime) : bool :=
  match d with
  | Some t => leb start t
  | None => false
  end.

Definition date_le (d : option datetime) (stop : datetime) : bool :=
  match d with
  | Some t => leb t stop
  | None => false
  end.

(** [now] is what [pd.Timestamp.now()] returns during the call. *)
Definition filter_by_timeframe (now : datetime) (df : DataFrame)
    (timeframe : string) : DataFrame :=
  if empty df then df
  else if String.eqb timeframe "This Month" then
    let start := replace_day now 1 in
    filter (fun r => date_ge (date r) start) df
  else if String.eqb timeframe "Last Month" then
    let prev := sub_months now 1 in
    let start := replace_day prev 1 in
    let stop := month_end_0 (replace_day prev 1) in
    filter (fun r => date_ge (date r) start && date_le (date r) stop) df
  else if String.eqb timeframe "Last 3 Months" then
    let start := replace_day (sub_months now 3) 1 in
    filter (fun r => date_ge (date r) start) df
  else if String.eqb timeframe "This Year" then
    let start := replace_month_day now 1 1 in
    filter (fun r => date_ge (date r) start) df
  else if String.eqb timeframe "All Time" then df
  else df.

End App.

(** ** The vocabulary of the statements *)

Module Spec.

Import Time Frame Analysis App.

(** [m] occurs in [s] as a substring. *)
Definition occurs (m s : string) : Prop :=
  exists pre post, s = pre ++ m ++ post.

(** A non-empty run of decimal digits. *)
Definition digits (s : string) : Prop :=
  s <> EmptyString /\ Str.all_digits s = true.

(** The decimal-number pattern: digits, then optionally a point and
    digits. *)
Definition amount_pattern (m : string) : Prop :=
  digits m \/ exists ip fp, digits ip /\ digits fp /\ m = ip ++ "." ++ fp.

(** [m] is the leftmost substring of [s] of the shape YYYY-MM-DD. *)
Definition first_date_match (s m : string) : Prop :=
  exists pre post,
    s = pre ++ m ++ post /\ iso_shape m = true /\
    forall pre' m' post',
      s = pre' ++ m' ++ post' -> iso_shape m' = true ->
      (String.length pre <= String.length pre')%nat.

(** The text the parser works on: lower-cased, then trimmed. *)
Definition normalized (text : string) : string := Str.strip (Str.lower text).

(** A parsed expense is well formed: the amount is a number, the category
    is one of the vocabulary and the date is a calendar date. *)
Definition well_formed (e : float * string * datetime) : Prop :=
  let '(a, c, d) := e in
  is_nan a = false /\ In c categories /\ valid d = true.

(** The three severity messages and the tip of a suggestion. *)
Definition alarm_line (top_cat : string) (percent : float) : string :=
  "🚨 You spent " ++ Num.fmt_1f percent ++ "% on **" ++ Str.title top_cat ++ "**.".

Definition warning_line (top_cat : string) (percent : float) : string :=
  "⚠️ " ++ Str.title top_cat ++ " makes up " ++ Num.fmt_1f percent
  ++ "% of your spending.".

Definition balanced_line : string := "✅ Your spending is well balanced.".

Definition tip_line (top_cat : string) : string :=
  "💡 Tip: " ++ dict_get tips top_cat "Track recurring expenses.".

(** The total the analyser computes for [rows]: the sum of the amounts of
    the normalised table. *)
Definition table_total (str_to_numeric : string -> option float)
    (column_to_datetime : list date_cell -> nat -> option datetime)
    (rows : list raw_row) : float :=
  Num.series_sum (map amount (rows_to_df str_to_numeric column_to_datetime rows)).

(** The midnight that starts a calendar day. *)
Definition midnight (y m d : Z) : datetime := mk_datetime y m d 0.

(** The month before the month of [t]. *)
Definition previous_month (t : datetime) : Z * Z :=
  if month t =? 1 then (year t - 1, 12) else (year t, month t - 1).

(** The four windows that have a start. *)
Definition bounded_timeframes : list string :=
  ["This Month"; "Last Month"; "Last 3 Months"; "This Year"].

(** The window of "This Month" as the specification words it: from the
    first day of the current month through now. *)
Definition in_this_month (now : datetime) (r : row) : Prop :=
  exists d, date r = Some d /\
    leb (midnight (year now) (month now) 1) d = true /\ leb d now = true.

(** The window of "Last Month" as the specification words it: a calendar
    day of the previous month, from the first through the last. *)
Definition in_last_month (now : datetime) (r : row) : Prop :=
  exists d, date r = Some d /\
    (year d, month d) = previous_month now /\
    1 <= day d <= days_in_month (year d) (month d).

End Spec.

(** ** A concrete environment for the examples *)

Module Demo.

Import Time Frame.

Definition awareness_dir : string := "/srv/expense-tracker/awareness".

Definition every_file_exists (path : string) : bool := true.

(** Text is read as a number the way [float] reads it. *)
Definition numeric_of_text (s : string) : option float :=
  match Num.float_of_str s with
  | Returned x => Some x
  | Raised _ => None
  end.

(** Text is read as a date when it is a date in ISO form. *)
Definition datetime_of_text (col : list date_cell) (i : nat) : option datetime :=
  match nth_error col i with
  | Some (DStr s) =>
      match fromisoformat s with
      | Returned t => Some t
      | Raised _ => None
      end
  | _ => None
  end.

(** Noon of 3 November 2026. *)
Definition clock : datetime := mk_datetime 2026 11 3 (12 * 3600 * 1000000000).

Definition at_time (y m d h : Z) : option datetime :=
  Some (mk_datetime y m d (h * 3600 * 1000000000)).

(** Expenses saved with a date only are dated at midnight. *)
Definition first_of_november : row := mk_row 1 120 (Some "food") (at_time 2026 11 1 0).
Definition christmas : row := mk_row 2 80 (Some "travel") (at_time 2026 12 25 0).
Definition first_of_october : row := mk_row 3 45 (Some "bills") (at_time 2026 10 1 0).
Definition halloween_evening : row := mk_row 4 30 (Some "food") (at_time 2026 10 31 18).

Definition undated : row := mk_row 5 15 (Some "shopping") None.

Definition expenses : DataFrame :=
  [christmas; first_of_november; undated; halloween_evening; first_of_october].

(** 60 spent on food and 40 on shopping. *)
Definition food_and_shopping : list raw_row :=
  [ mk_raw 1 (ANum 60) (Some "Food") (DStr "2026-11-01");
    mk_raw 2 (ANum 40) (Some "shopping") (DStr "2026-11-02") ].

(** A row whose amount is no number and whose category is missing. *)
Definition malformed : list raw_row :=
  [ mk_raw 1 (AStr "abc") None (DStr "2026-11-01") ].

End Demo.

(** ** db.py *)

Module Db.

Import Frame.

Local Open Scope float_scope.

(** What the [sqlite3] module raises: a missing table, a violated NOT NULL
    constraint, a row id sequence that is used up. *)
Inductive sqlite_error := OperationalError | IntegrityError | FullError.

Inductive result (A : Type) : Type :=
| Ok (a : A)
| Failed (e : sqlite_error).

Arguments Ok {A} a.
Arguments Failed {A} e.

(** A row of the table [expenses]. *)
Record expense := mk_expense {
  id : Z;
  amount : float;
  category : string;
  date : string
}.

(** The tables of the database file once [expenses] is created: its rows,
    oldest first, and the entry of [expenses] in [sqlite_sequence], which
    is absent until the first insertion. *)
Record tables := mk_tables {
  expenses : list expense;
  sequence : option Z
}.

(** The database file; [None] while it has no table [expenses]. *)
Definition database := option tables.

Definition new_file : database := None.

(** CREATE TABLE IF NOT EXISTS *)
Definition init_db (db : database) : database :=
  match db with
  | None => Some (mk_tables [] None)
  | Some t => Some t
  end.

(** The largest row id an INTEGER PRIMARY KEY can take. *)
Definition max_rowid : Z := 9223372036854775807.

Definition largest_rowid (rows : list expense) : Z :=
  fold_right (fun e m => Z.max (id e) m) 0%Z rows.

(** AUTOINCREMENT: one more than the largest row id the table holds or
    has held since the sequence was last reset. *)
Definition largest_ever (t : tables) : Z :=
  Z.max (largest_rowid (expenses t))
        (match sequence t with Some s => s | None => 0%Z end).

(** A REAL column keeps a number, with the sign of a zero dropped. *)
Definition real (x : float) : float := if x =? 0 then 0 else x.

(** INSERT INTO expenses (amount, category, date) VALUES (?, ?, ?).  NaN
    is bound as NULL, which the column [amount] refuses. *)
Definition add_expense (db : database) (amount : float) (category date : string)
  : result database :=
  match db with
  | None => Failed OperationalError
  | Some t =>
      if (largest_ever t =? max_rowid)%Z then Failed FullError
      else if is_nan amount then Failed IntegrityError
      else
        let rowid := (largest_ever t + 1)%Z in
        Ok (Some (mk_tables
                    (expenses t ++ [mk_expense rowid (real amount) category date])
                    (Some rowid)))
  end.

(** ORDER BY date DESC: the text of the dates is compared byte by byte;
    rows with the same date stay in the order of their insertion. *)
Fixpoint insert_by_date (e : expense) (sorted : list expense) : list expense :=
  match sorted with
  | [] => [e]
  | e' :: rest =>
      if String.leb (date e') (date e) then e :: sorted
      else e' :: insert_by_date e rest
  end.

Definition order_by_date_desc (rows : list expense) : list expense :=
  fold_right insert_by_date [] rows.

(** A fetched row, the tuple [(id, amount, category, date)]. *)
Definition fetched (e : expense) : raw_row :=
  mk_raw (id e) (ANum (amount e)) (Some (category e)) (DStr (date e)).

(** SELECT id, amount, category, date FROM expenses ORDER BY date DESC *)
Definition get_expenses (db : database) : result (list raw_row) :=
  match db with
  | None => Failed OperationalError
  | Some t => Ok (map fetched (order_by_date_desc (expenses t)))
  end.

(** DELETE FROM expenses, then DELETE FROM sqlite_sequence WHERE
    name='expenses', committed together. *)
Definition clear_all (db : database) : result database :=
  match db with
  | None => Failed OperationalError
  | Some _ => Ok (Some (mk_tables [] None))
  end.

(** The databases the program can come to hold: a new file, and what
    [init_db], [add_expense] and [clear_all] make of one. *)
Inductive reachable : database -> Prop :=
| reach_new : reachable new_file
| reach_init db : reachable db -> reachable (init_db db)
| reach_add db amount category date db' :
    reachable db -> add_expense db amount category date = Ok db' ->
    reachable db'
| reach_clear db db' :
    reachable db -> clear_all db = Ok db' -> reachable db'.

End Db.

(** ** app.py: the page *)

Module Page.

Import Time Frame Analysis App.

Local Open Scope float_scope.

(** [df.to_records(index=False)] *)
Definition to_records (df : DataFrame) : list raw_row :=
  map (fun r => mk_raw (Frame.id r) (ANum (Frame.amount r)) (Frame.category r)
                       (match Frame.date r with
                        | Some t => DStamp t
                        | None => DNone
                        end))
      df.

Section Environment.

Variable AWARENESS_DIR : string.
Variable path_exists : string -> bool.
Variable str_to_numeric : string -> option float.
Variable column_to_datetime : list date_cell -> nat -> option datetime.
Variable column_to_datetime_mixed : list date_cell -> nat -> option datetime.

(** The summary of the page: the stored rows are normalised, filtered by
    the chosen timeframe and handed to the analyser as records. *)
Definition analysis (now : datetime) (rows : list raw_row) (tf : string)
  : outcome Analysis.analysis :=
  let df := df_from_rows str_to_numeric column_to_datetime_mixed rows in
  let df_filtered := filter_by_timeframe now df tf in
  analyze_spending AWARENESS_DIR path_exists str_to_numeric column_to_datetime
    (to_records df_filtered) tf.

End Environment.

(** Two and four decimal digits, padded with zeros. *)
Definition digit (n : Z) : ascii := ascii_of_N (48 + Z.to_N (n mod 10)).

Definition pad2 (n : Z) : string :=
  String (digit (n / 10)) (String (digit n) EmptyString).

Definition pad4 (n : Z) : string :=
  String (digit (n / 1000)) (String (digit (n / 100)) (pad2 n)).

(** [d.isoformat()] for a date *)
Definition date_isoformat (y m d : Z) : string :=
  pad4 y ++ "-" ++ pad2 m ++ "-" ++ pad2 d.

(** [dt.isoformat()] for a [datetime]: the microseconds are written when
    they are not zero. *)
Definition isoformat (t : datetime) : string :=
  let seconds := (tod t / 1000000000)%Z in
  let micro := ((tod t / 1000) mod 1000000)%Z in
  date_isoformat (year t) (month t) (day t) ++ "T"
  ++ pad2 (seconds / 3600) ++ ":" ++ pad2 ((seconds / 60) mod 60) ++ ":"
  ++ pad2 (seconds mod 60)
  ++ (if (micro =? 0)%Z then ""
      else "." ++ pad2 (micro / 10000) ++ pad4 micro).

(** What pressing a button of the page comes to: the database after the
    insertion, a message of refusal with the database as it was, or an
    exception. *)
Inductive event :=
| Saved (db : Db.database)
| Refused (message : string)
| ParserRaised (e : Py.exn)
| StoreRaised (e : Db.sqlite_error).

Definition stored (r : Db.result Db.database) : event :=
  match r with
  | Db.Ok db => Saved db
  | Db.Failed e => StoreRaised e
  end.

(** The button "Parse & Add from text". *)
Definition quick_add (db : Db.database) (now : datetime) (nl_input : string)
  : event :=
  match parse_nl_expense now nl_input with
  | Raised e => ParserRaised e
  | Returned None => Refused "Could not parse text. Try: 200 food today"
  | Returned (Some (amt, cat, dt)) =>
      stored (Db.add_expense db amt (Str.lower cat) (isoformat dt))
  end.

(** The form "Add Expense": an amount, one of the four categories and a
    day. *)
Definition save_form (db : Db.database) (amt : float) (cat : string)
    (y m d : Z) : event :=
  if Num.gt amt 0
  then stored (Db.add_expense db amt (Str.lower cat) (date_isoformat y m d))
  else Refused "Enter valid amount.".

End Page.

(** ** The charts *)

Module Charts.

Import Py Time Frame.

Local Open Scope float_scope.

(** A month of the calendar, [pd.Period(freq="M")]: the months are counted
    from January of year 0. *)
Definition period := Z.

(** [t.to_period("M")] *)
Definition to_period (t : datetime) : period := (year t * 12 + (month t - 1))%Z.

(** [str(p)] for a month: [YYYY-MM] *)
Definition period_str (p : period) : string :=
  Page.pad4 (p / 12) ++ "-" ++ Page.pad2 (p mod 12 + 1).

(** [pd.period_range(a, b, freq="M")]: the months from [a] to [b], both
    included. *)
Definition period_range (a b : period) : list period :=
  map (fun i => (a + Z.of_nat i)%Z) (seq 0 (Z.to_nat (b - a + 1))).

(** What a chart function puts on its figure, as far as the data goes: a
    message, the points it gives to [ax.plot], or the series it gives to
    [agg.plot(kind="bar")].  The drawing itself, which [matplotlib] does,
    is not modelled. *)
Inductive figure :=
| Message (text : string)
| LinePlot (labels : list string) (values : list float)
| BarPlot (labels : list string) (heights : list float).

(** [t - pd.Timedelta(days=n)]: [n] days back, one day at a time; the time
    of day stays. *)
Fixpoint sub_days (n : nat) (t : datetime) : outcome datetime :=
  match n with
  | O => Returned t
  | S k => t' <- sub_one_day t ;; sub_days k t'
  end.

Section Pandas.

Variable str_to_numeric : string -> option float.
Variable column_to_datetime : list date_cell -> nat -> option datetime.

(** The text [col.astype(str)] puts in place of a null cell. *)
Variable null_text : string.

Definition astype_str (c : option string) : string :=
  match c with
  | Some s => s
  | None => null_text
  end.

Definition rows_to_df (rows : list raw_row) : DataFrame :=
  match rows with
  | [] => []
  | _ =>
      assign_columns
        (fun c => Num.fillna0 (to_numeric str_to_numeric c))
        (to_datetime column_to_datetime (map raw_date rows))
        (fun c => Some (Str.strip (Str.lower (astype_str c))))
        0 rows
  end.

(** [df["month"] >= p]: a row without a date has no month and fails the
    test. *)
Definition month_ge (p : period) (r : row) : bool :=
  match date r with
  | Some t => (p <=? to_period t)%Z
  | None => false
  end.

Definition in_month (p : period) (r : row) : bool :=
  match date r with
  | Some t => (to_period t =? p)%Z
  | None => false
  end.

(** [df.groupby("month")]: the distinct months, in ascending order. *)
Fixpoint insert_month (p : period) (keys : list period) : list period :=
  match keys with
  | [] => [p]
  | q :: rest =>
      match (p ?= q)%Z with
      | Lt => p :: keys
      | Eq => keys
      | Gt => q :: insert_month p rest
      end
  end.

Definition month_keys (df : DataFrame) : list period :=
  fold_right
    (fun r keys => match date r with
                   | Some t => insert_month (to_period t) keys
                   | None => keys
                   end)
    [] df.

(** [df.groupby("month")["amount"].sum()] *)
Definition groupby_month_sum (df : DataFrame) : list (period * float) :=
  map (fun p => (p, Num.series_sum (map amount (filter (in_month p) df))))
      (month_keys df).

(** [agg.reindex(months, fill_value=fill)] *)
Definition reindex (months : list period) (fill : float)
    (agg : list (period * float)) : list (period * float) :=
  map (fun p => (p, match find (fun kv => (fst kv =? p)%Z) agg with
                    | Some kv => snd kv
                    | None => fill
                    end))
      months.

(** The monthly sums of the last twelve months.  The function reads the
    clock twice; [now] stands for both readings. *)
Definition line_chart (now : datetime) (rows : list raw_row) : figure :=
  let df := rows_to_df rows in
  if empty df then Message "No data"
  else
    let last12 := to_period (sub_months now 11) in
    let df := filter (month_ge last12) df in
    let agg := groupby_month_sum df in
    let months := period_range last12 (to_period now) in
    let agg := reindex months 0 agg in
    LinePlot (map (fun kv => period_str (fst kv)) agg) (map snd agg).

(** The rows of the last 90 days, grouped by category, the largest sum
    first.  [now] is what [pd.Timestamp.now()] returns. *)
Definition bar_chart (now : datetime) (rows : list raw_row) : outcome figure :=
  let df := rows_to_df rows in
  if empty df then Returned (Message "No data")
  else
    cutoff <- sub_days 90 now ;;
    let df := filter (fun r => App.date_ge (date r) cutoff) df in
    if empty df then Returned (Message "No recent spending")
    else
      let agg := sort_values_desc (groupby_sum df) in
      Returned (BarPlot (map fst agg) (map snd agg)).

(** The trend chart of the page: the table of the page, filtered by the
    timeframe chosen, is handed to [line_chart] as records. *)
Definition page_line_chart
    (column_to_datetime_mixed : list date_cell -> nat -> option datetime)
    (now : datetime) (rows : list raw_row) (timeframe : string) : figure :=
  let df := App.df_from_rows str_to_numeric column_to_datetime_mixed rows in
  let df_filtered := App.filter_by_timeframe now df timeframe in
  line_chart now (Page.to_records df_filtered).

End Pandas.

End Charts.

(** ** More examples *)

Module Examples.

Import Time Frame.

(** A store with one expense, after the page was opened and "200 food
    today" was added at noon of 3 November 2026. *)
Definition ledger : Db.database :=
  Some (Db.mk_tables [Db.mk_expense 1 200 "food" "2026-11-03T12:00:00"] (Some 1)).

(** The analysis of 60 on food and 40 on shopping. *)
Definition food_and_shopping_analysis : Analysis.analysis :=
  Analysis.mk_analysis
    (Str.join Analysis.newline
       [ "🚨 You spent 60.0% on **Food**.";
         "💡 Tip: Try reducing takeout and cook at home more often." ])
    (Some "food") 60 100 2 "/srv/expense-tracker/awareness/food.png".

End Examples.

(** * Properties *)

(** ** Comparisons of binary64 numbers *)

Module NumFacts.

Import Num.

Local Open Scope float_scope.

Ltac sf_order :=
  repeat match goal with
         | |- context [Pos.compare_cont Eq ?a ?b] =>
             change (Pos.compare_cont Eq a b) with (Pos.compare a b)
         | H : context [Pos.compare_cont Eq ?a ?b] |- _ =>
             change (Pos.compare_cont Eq a b) with (Pos.compare a b) in H
         end;
  repeat match goal with
         | H : context [Z.compare ?a ?b] |- _ =>
             destruct (Z.compare_spec a b); simpl in H; try discriminate H
         | H : context [Pos.compare ?a ?b] |- _ =>
             destruct (Pos.compare_spec a b); simpl in H; try discriminate H
         | |- context [Z.compare ?a ?b] =>
             destruct (Z.compare_spec a b); simpl
         | |- context [Pos.compare ?a ?b] =>
             destruct (Pos.compare_spec a b); simpl
         end;
  try reflexivity; try discriminate; try lia.

Lemma SFltb_SFleb_false (x y : spec_float) :
  SFltb x y = true -> SFleb y x = false.
Proof.
  unfold SFltb, SFleb.
  destruct x as [sx|sx| |sx mx ex], y as [sy|sy| |sy my ey];
    try destruct sx; try destruct sy; simpl; intros H;
    try discriminate H; try reflexivity; sf_order.
Qed.

Lemma SFltb_SFleb_trans (x y z : spec_float) :
  SFltb x y = true -> SFleb y z = true -> SFleb z x = false.
Proof.
  unfold SFltb, SFleb.
  destruct x as [sx|sx| |sx mx ex], y as [sy|sy| |sy my ey],
           z as [sz|sz| |sz mz ez];
    try destruct sx; try destruct sy; try destruct sz; simpl; intros H1 H2;
    try discriminate H1; try discriminate H2; try reflexivity; sf_order.
Qed.

(** [x < y] excludes [y <= x]. *)
Lemma lt_not_ge (x y : float) : lt x y = true -> ge x y = false.
Proof.
  unfold lt, ge. rewrite ltb_spec, leb_spec. apply SFltb_SFleb_false.
Qed.

(** [x < y] and [y <= z] exclude [z <= x]. *)
Lemma lt_le_not_ge (x y z : float) :
  lt x y = true -> le y z = true -> ge x z = false.
Proof.
  unfold lt, le, ge. rewrite ltb_spec, !leb_spec. apply SFltb_SFleb_trans.
Qed.

(** [x > y] excludes [x <= y]. *)
Lemma gt_not_le (x y : float) : gt x y = true -> le x y = false.
Proof.
  unfold gt, le. rewrite ltb_spec, leb_spec. apply SFltb_SFleb_false.
Qed.

(** *** Rounding keeps the sign *)

(** A number that is zero or more: a zero, a positive finite number or
    the positive infinity. *)
Abbreviation from_zero x := (SFleb (S754_zero false) x = true).

Lemma shr_1_nonneg (mrs : shr_record) :
  (0 <= shr_m mrs)%Z -> (0 <= shr_m (shr_1 mrs))%Z.
Proof.
  destruct mrs as [[|p|p] r s]; simpl; try lia; destruct p; simpl; lia.
Qed.

Lemma iter_shr_1_nonneg (p : positive) (mrs : shr_record) :
  (0 <= shr_m mrs)%Z -> (0 <= shr_m (iter_pos shr_1 p mrs))%Z.
Proof.
  revert mrs; induction p as [p IH|p IH|]; intros mrs H; simpl;
    auto using shr_1_nonneg.
Qed.

Lemma shr_fexp_nonneg (m e : Z) (l : location) :
  (0 <= m)%Z -> (0 <= shr_m (fst (shr_fexp prec emax m e l)))%Z.
Proof.
  intros H. unfold shr_fexp, shr.
  assert (Hm : shr_m (shr_record_of_loc m l) = m) by (destruct l as [|[]]; reflexivity).
  destruct (fexp prec emax (Zdigits2 m + e) - e)%Z; simpl; try lia.
  apply iter_shr_1_nonneg. lia.
Qed.

Lemma round_nearest_even_nonneg (m : Z) (l : location) :
  (0 <= m)%Z -> (0 <= round_nearest_even m l)%Z.
Proof.
  intros H. destruct l as [|[]]; simpl; try lia. destruct (Z.even m); lia.
Qed.

Lemma binary_round_aux_nonneg (m e : Z) (l : location) :
  (0 <= m)%Z -> from_zero (binary_round_aux prec emax false m e l).
Proof.
  intros H. unfold binary_round_aux.
  pose proof (shr_fexp_nonneg m e l H) as H1.
  destruct (shr_fexp prec emax m e l) as [mrs1 e1]. simpl in H1.
  pose proof (round_nearest_even_nonneg _ (loc_of_shr_record mrs1) H1) as H2.
  pose proof (shr_fexp_nonneg _ e1 loc_Exact H2) as H3.
  destruct (shr_fexp prec emax _ e1 loc_Exact) as [mrs2 e2]. simpl in H3.
  destruct (shr_m mrs2); [reflexivity| |lia].
  destruct (e2 <=? emax - prec)%Z; reflexivity.
Qed.

Lemma binary_round_nonneg (m : positive) (e : Z) :
  from_zero (binary_round prec emax false m e).
Proof.
  unfold binary_round. destruct (shl_align m e _) as [mz ez].
  apply binary_round_aux_nonneg. lia.
Qed.

Lemma binary_normalize_nonneg (m e : Z) :
  (0 <= m)%Z -> from_zero (binary_normalize prec emax m e false).
Proof.
  destruct m; simpl; intros H; [reflexivity|apply binary_round_nonneg|lia].
Qed.

Lemma SFldexp_nonneg (x : spec_float) (e : Z) :
  from_zero x -> from_zero (SFldexp prec emax x e).
Proof.
  destruct x as [s|s| |[] m ex]; simpl; intros H; try exact H; try discriminate H.
  apply binary_round_nonneg.
Qed.

Lemma SF2Prim_nonneg (x : spec_float) :
  from_zero x -> from_zero (Prim2SF (SF2Prim x)).
Proof.
  destruct x as [[]|[]| |[] m e]; intros H; try discriminate H;
    try (vm_compute; reflexivity).
  unfold SF2Prim, Z.ldexp.
  rewrite ldshiftexp_spec. apply SFldexp_nonneg.
  rewrite of_uint63_spec. apply binary_normalize_nonneg.
  apply Uint63.to_Z_bounded.
Qed.

(** Reading a decimal literal without a sign gives zero or more. *)
Lemma of_ratio_nonneg (n d : Z) :
  (0 <= n)%Z -> (0 < d)%Z -> le 0 (of_ratio n d) = true.
Proof.
  intros Hn Hd. unfold le. rewrite leb_spec.
  change (Prim2SF 0) with (S754_zero false).
  destruct n as [|p|p]; [vm_compute; reflexivity| |lia].
  unfold of_ratio, SFdiv_core_binary.
  set (e' := Z.min _ _). set (m' := match (0 - 0 - e')%Z with Z0 => _ | _ => _ end).
  assert (Hm : (0 <= m')%Z).
  { unfold m'. destruct (0 - 0 - e')%Z; try lia. apply Z.shiftl_nonneg. lia. }
  pose proof (Z.div_pos m' d Hm Hd) as Hq. unfold Z.div in Hq.
  destruct (Z.div_eucl m' d) as [q r]. simpl in Hq.
  apply SF2Prim_nonneg, binary_round_aux_nonneg. exact Hq.
Qed.

Lemma of_decimal_nonneg (n e10 : Z) :
  (0 <= n)%Z -> le 0 (of_decimal n e10) = true.
Proof.
  intros Hn. unfold of_decimal.
  assert (Hpow : forall k, (0 <= k -> 0 < 10 ^ k)%Z)
    by (intros k Hk; apply Z.pow_pos_nonneg; lia).
  destruct (Z.leb_spec 0 e10) as [He|He]; apply of_ratio_nonneg.
  - specialize (Hpow e10 He). nia.
  - lia.
  - exact Hn.
  - apply Hpow. lia.
Qed.

(** A number that is zero or more is not NaN. *)
Lemma le_0_not_nan (x : float) : le 0 x = true -> is_nan x = false.
Proof.
  unfold le, is_nan. rewrite leb_spec, eqb_spec.
  change (Prim2SF 0) with (S754_zero false).
  unfold SFleb, SFeqb.
  destruct (Prim2SF x) as [s|[]| |[] m e]; simpl; try discriminate;
    try reflexivity.
  intros _. now rewrite Z.compare_refl, Pos.compare_cont_refl.
Qed.

End NumFacts.

(** ** The normaliser and the analyser *)

Module AnalysisFacts.

Import Time Frame Analysis Spec.

Local Open Scope float_scope.

Lemma insert_key_not_nil (k : string) (keys : list string) :
  insert_key k keys <> [].
Proof.
  destruct keys as [|k' rest]; simpl; [discriminate|].
  destruct (String.compare k k'); discriminate.
Qed.

Lemma insert_desc_not_nil e l : insert_desc e l <> [].
Proof.
  destruct l as [|e' rest]; simpl; [discriminate|].
  destruct (precedes (snd e) (snd e')); discriminate.
Qed.

Lemma sort_values_desc_nil s : sort_values_desc s = [] -> s = [].
Proof.
  destruct s as [|e rest]; [reflexivity|].
  unfold sort_values_desc; simpl. intros H.
  now apply insert_desc_not_nil in H.
Qed.

Lemma group_keys_nil df :
  group_keys df = [] -> Forall (fun r => category r = None) df.
Proof.
  induction df as [|r rest IH]; simpl; intros H; [constructor|].
  destruct (category r) as [k|] eqn:Hk.
  - now apply insert_key_not_nil in H.
  - constructor; auto.
Qed.

Section Columns.

Variables (f_amount : amount_cell -> float)
          (f_date : nat -> option datetime)
          (f_category : option string -> option string).

Lemma assign_columns_length i rows :
  List.length (assign_columns f_amount f_date f_category i rows)
  = List.length rows.
Proof.
  revert i; induction rows as [|r rest IH]; intros i; simpl; congruence.
Qed.

(** Each row of the table comes from the raw row at its position. *)
Lemma assign_columns_In i rows r :
  In r (assign_columns f_amount f_date f_category i rows) ->
  exists raw, In raw rows /\
    amount r = f_amount (raw_amount raw) /\
    category r = f_category (raw_category raw) /\
    id r = raw_id raw.
Proof.
  revert i; induction rows as [|x rest IH]; intros i; simpl; [tauto|].
  intros [<-|H].
  - exists x; simpl; auto.
  - destruct (IH _ H) as (raw & Hin & Hrest). exists raw; auto.
Qed.

End Columns.

Section Environment.

Variable str_to_numeric : string -> option float.
Variable column_to_datetime : list date_cell -> nat -> option datetime.

Abbreviation rows_to_df := (rows_to_df str_to_numeric column_to_datetime).
Abbreviation table_total := (table_total str_to_numeric column_to_datetime).

Lemma rows_to_df_length rows :
  List.length (rows_to_df rows) = List.length rows.
Proof.
  destruct rows as [|r rest]; [reflexivity|].
  unfold Analysis.rows_to_df. apply assign_columns_length.
Qed.

Lemma rows_to_df_In rows r :
  In r (rows_to_df rows) ->
  exists raw, In raw rows /\
    amount r = Num.fillna0 (to_numeric str_to_numeric (raw_amount raw)) /\
    category r = str_strip (str_lower (fillna_empty (raw_category raw))) /\
    id r = raw_id raw.
Proof.
  destruct rows as [|x rest]; [simpl; tauto|].
  unfold Analysis.rows_to_df. apply assign_columns_In.
Qed.

Lemma rows_to_df_category rows r :
  In r (rows_to_df rows) -> exists k, category r = Some k.
Proof.
  intros H. apply rows_to_df_In in H. destruct H as (raw & _ & _ & Hc & _).
  rewrite Hc. destruct (raw_category raw); simpl; eauto.
Qed.

(** The grouped sums of a normalised table are empty only for the empty
    table, so the analyser always finds a first group. *)
Lemma cat_totals_not_nil rows :
  rows <> [] -> sort_values_desc (groupby_sum (rows_to_df rows)) <> [].
Proof.
  intros Hne Hnil. apply sort_values_desc_nil in Hnil.
  unfold groupby_sum in Hnil. apply map_eq_nil in Hnil.
  apply group_keys_nil in Hnil.
  destruct (rows_to_df rows) as [|r rest] eqn:Hdf.
  - apply (f_equal (@List.length _)) in Hdf. rewrite rows_to_df_length in Hdf.
    destruct rows; [congruence|discriminate].
  - destruct (rows_to_df_category rows r) as [k Hk].
    + rewrite Hdf; now left.
    + inversion Hnil; congruence.
Qed.

Lemma empty_rows_to_df rows : empty (rows_to_df rows) = true <-> rows = [].
Proof.
  generalize (rows_to_df_length rows).
  destruct (rows_to_df rows), rows; simpl; intros H; split; intros E;
    try reflexivity; try discriminate.
Qed.

Variable AWARENESS_DIR : string.
Variable path_exists : string -> bool.

Abbreviation analyze_spending :=
  (analyze_spending AWARENESS_DIR path_exists str_to_numeric column_to_datetime).

(** C9: the analysis of a row set is the same whatever timeframe string is
    passed along with it; the analyser does not read that argument. *)
Theorem analyze_spending_ignores_timeframe (rows : list raw_row) (t1 t2 : string) :
  analyze_spending rows t1 = analyze_spending rows t2.
Proof.
  unfold Analysis.analyze_spending.
  destruct (empty (rows_to_df rows)); [reflexivity|].
  destruct (Num.le _ 0); reflexivity.
Qed.

(** C3: when the table has no row, or its amounts total zero or less, the
    analysis is returned with no top category and a percentage of zero;
    and for a table with rows whose total is zero or less the suggestion is
    the no-expenses-in-this-timeframe message while the count is the number
    of rows. *)
Theorem analyze_spending_no_data (rows : list raw_row) (timeframe : string) :
  rows = [] \/ Num.le (table_total rows) 0 = true ->
  exists res,
    analyze_spending rows timeframe = Returned res /\
    top_category res = None /\
    percent_of_total res = 0 /\
    (rows <> [] ->
     suggestion res = "No expenses added in this timeframe." /\
     count res = Z.of_nat (List.length rows)).
Proof.
  intros H. unfold Analysis.analyze_spending.
  destruct (empty (rows_to_df rows)) eqn:He.
  - apply empty_rows_to_df in He.
    eexists; split; [reflexivity|]. simpl. repeat split; congruence.
  - destruct H as [->|Hle]; [discriminate He|].
    unfold Spec.table_total in Hle. rewrite Hle.
    eexists; split; [reflexivity|]. simpl.
    rewrite rows_to_df_length. auto.
Qed.

(** A total above zero needs rows, and is not zero or less. *)
Lemma positive_total rows :
  Num.gt (table_total rows) 0 = true ->
  empty (rows_to_df rows) = false /\ Num.le (table_total rows) 0 = false.
Proof using str_to_numeric column_to_datetime.
  intros H. split.
  - destruct (empty (rows_to_df rows)) eqn:He; [|reflexivity].
    apply empty_rows_to_df in He. subst rows. vm_compute in H. discriminate.
  - now apply NumFacts.gt_not_le.
Qed.


(** C2, as amended: a table whose category sums are food 60 and shopping
    40, with total 100, is analysed to top category food, a percentage of
    60.0 (the share of the top category, not of the other one) and a
    suggestion that opens with the alarm message. *)
Theorem analyze_spending_food_60_shopping_40
    (rows : list raw_row) (timeframe : string) :
  groupby_sum (rows_to_df rows) = [("food", 60); ("shopping", 40)] ->
  table_total rows = 100 ->
  exists res,
    analyze_spending rows timeframe = Returned res /\
    top_category res = Some "food" /\
    percent_of_total res = 60 /\
    suggestion res =
      Str.join newline
        [ "🚨 You spent 60.0% on **Food**.";
          "💡 Tip: Try reducing takeout and cook at home more often." ].
Proof.
  intros Hgroups Htotal.
  unfold Analysis.analyze_spending, Spec.table_total in *.
  destruct (empty (rows_to_df rows)) eqn:He.
  - destruct (rows_to_df rows); [discriminate Hgroups|discriminate He].
  - rewrite Htotal, Hgroups.
    change (Num.le 100 0) with false. cbv iota.
    change (sort_values_desc [("food", 60); ("shopping", 40)])
      with [("food", 60); ("shopping", 40)].
    cbv iota beta.
    change (60 / 100 * 100) with 60.
    change (Num.ge 60 40) with true. cbv iota.
    eexists; split; [reflexivity|].
    cbn [top_category percent_of_total suggestion].
    repeat split; reflexivity.
Qed.

End Environment.

Lemma food_and_shopping_sums :
  groupby_sum (rows_to_df Demo.numeric_of_text Demo.datetime_of_text
                 Demo.food_and_shopping)
    = [("food", 60); ("shopping", 40)] /\
  table_total Demo.numeric_of_text Demo.datetime_of_text Demo.food_and_shopping
    = 100.
Proof. split; vm_compute; reflexivity. Qed.

Lemma float_60_is_not_40 : 60 <> 40.
Proof.
  intros E. apply (f_equal (fun x => PrimFloat.eqb x 40)) in E.
  vm_compute in E. discriminate E.
Qed.

(** C2 fails as stated: for the table of 60 on food and 40 on shopping the
    percentage returned is 60.0, not 40.0. *)
Lemma analyze_spending_percent_is_not_40 :
  groupby_sum (rows_to_df Demo.numeric_of_text Demo.datetime_of_text
                 Demo.food_and_shopping)
    = [("food", 60); ("shopping", 40)] /\
  table_total Demo.numeric_of_text Demo.datetime_of_text Demo.food_and_shopping
    = 100 /\
  exists res,
    analyze_spending Demo.awareness_dir Demo.every_file_exists
      Demo.numeric_of_text Demo.datetime_of_text
      Demo.food_and_shopping "This Month" = Returned res /\
    percent_of_total res = 60 /\
    percent_of_total res <> 40.
Proof.
  destruct food_and_shopping_sums as [Hg Ht].
  split; [exact Hg|]. split; [exact Ht|].
  eexists. split; [vm_compute; reflexivity|].
  split; [reflexivity|]. exact float_60_is_not_40.
Qed.

Lemma analyze_spending_food_60_shopping_40_witness :
  exists res,
    analyze_spending Demo.awareness_dir Demo.every_file_exists
      Demo.numeric_of_text Demo.datetime_of_text
      Demo.food_and_shopping "This Month" = Returned res /\
    top_category res = Some "food" /\
    percent_of_total res = 60 /\
    suggestion res =
      Str.join newline
        [ "🚨 You spent 60.0% on **Food**.";
          "💡 Tip: Try reducing takeout and cook at home more often." ].
Proof.
  apply (analyze_spending_food_60_shopping_40
           Demo.numeric_of_text Demo.datetime_of_text
           Demo.awareness_dir Demo.every_file_exists
           Demo.food_and_shopping "This Month").
  - vm_compute; reflexivity.
  - vm_compute; reflexivity.
Defined.

Lemma analyze_spending_no_data_witness :
  exists res,
    analyze_spending Demo.awareness_dir Demo.every_file_exists
      Demo.numeric_of_text Demo.datetime_of_text
      Demo.malformed "This Month" = Returned res /\
    top_category res = None /\
    percent_of_total res = 0 /\
    (Demo.malformed <> [] ->
     suggestion res = "No expenses added in this timeframe." /\
     count res = Z.of_nat (List.length Demo.malformed)).
Proof.
  apply (analyze_spending_no_data
           Demo.numeric_of_text Demo.datetime_of_text
           Demo.awareness_dir Demo.every_file_exists
           Demo.malformed "This Month").
  right. vm_compute. reflexivity.
Defined.


End AnalysisFacts.

(** ** The timeframe filter and the normaliser of app.py *)

Module AppFacts.

Import Time Frame App Spec.

(** [leb] spelled out on the fields. *)
Lemma leb_fields (a b : datetime) :
  leb a b = true <->
  year a < year b \/
  (year a = year b /\
   (month a < month b \/
    (month a = month b /\
     (day a < day b \/ (day a = day b /\ tod a <= tod b))))).
Proof.
  unfold leb, compare.
  destruct (Z.compare_spec (year a) (year b));
    destruct (Z.compare_spec (month a) (month b));
    destruct (Z.compare_spec (day a) (day b));
    destruct (Z.compare_spec (tod a) (tod b));
    split; intros Hx; try reflexivity; try discriminate Hx; lia.
Qed.

Lemma valid_fields (t : datetime) :
  valid t = true ->
  1 <= year t <= 9999 /\ 1 <= month t <= 12 /\
  1 <= day t <= days_in_month (year t) (month t) /\
  0 <= tod t < day_length.
Proof.
  unfold valid, valid_date. rewrite !andb_true_iff. lia.
Qed.

Lemma days_in_month_bounds (y m : Z) : 28 <= days_in_month y m <= 31.
Proof.
  unfold days_in_month.
  destruct (m =? 2); [destruct (is_leap y); lia|].
  destruct ((m =? 4) || (m =? 6) || (m =? 9) || (m =? 11)); lia.
Qed.

(** One month back from a valid timestamp is the previous month. *)
Lemma sub_months_1_fields (t : datetime) :
  1 <= month t <= 12 ->
  (year (sub_months t 1), month (sub_months t 1)) = previous_month t.
Proof.
  intros Hm. unfold sub_months, previous_month. simpl.
  destruct (Z.eqb_spec (month t) 1) as [E|E]; f_equal;
    Z.to_euclidean_division_equations; lia.
Qed.

Lemma month_end_0_first (y m t : Z) :
  month_end_0 (mk_datetime y m 1 t) = mk_datetime y m (days_in_month y m) t.
Proof.
  unfold month_end_0, replace_day. cbn [year month day tod].
  pose proof (days_in_month_bounds y m).
  destruct (Z.eqb_spec 1 (days_in_month y m)); [lia|reflexivity].
Qed.

(** What the two month windows of the filter keep, in terms of the
    bounds the code computes. *)
Lemma this_month_keeps now df r :
  In r (filter_by_timeframe now df "This Month") <->
  In r df /\ date_ge (date r) (replace_day now 1) = true.
Proof.
  unfold filter_by_timeframe. simpl.
  destruct df as [|x rest]; simpl empty; cbv iota.
  - simpl; tauto.
  - apply filter_In.
Qed.

Lemma last_month_keeps now df r :
  In r (filter_by_timeframe now df "Last Month") <->
  In r df /\
  date_ge (date r) (replace_day (sub_months now 1) 1) = true /\
  date_le (date r) (month_end_0 (replace_day (sub_months now 1) 1)) = true.
Proof.
  unfold filter_by_timeframe. simpl.
  destruct df as [|x rest]; simpl empty; cbv iota.
  - simpl; tauto.
  - rewrite filter_In, andb_true_iff. tauto.
Qed.

(** C8: under each of the four windows that have a start, a row whose date
    is the null marker is absent from the output; under "All Time" the
    table is returned as it is. *)
Theorem filter_by_timeframe_null_dates (now : datetime) (df : DataFrame)
    (timeframe : string) :
  (In timeframe bounded_timeframes ->
   forall r, In r df -> date r = None ->
             ~ In r (filter_by_timeframe now df timeframe)) /\
  filter_by_timeframe now df "All Time" = df.
Proof.
  split.
  - intros Htf r _ Hnull Hin.
    unfold filter_by_timeframe in Hin. simpl in Htf.
    destruct Htf as [<-|[<-|[<-|[<-|[]]]]]; simpl in Hin;
      (destruct df as [|x rest]; [exact Hin|]);
      change (empty (x :: rest)) with false in Hin; cbv iota in Hin;
      apply filter_In in Hin; destruct Hin as [_ Hkeep];
      rewrite Hnull in Hkeep; discriminate Hkeep.
  - unfold filter_by_timeframe. destruct (empty df); reflexivity.
Qed.

(** C1, as amended: "This Month" keeps only rows dated on or after the
    first day of the current month and keeps every row dated on or after
    its second day, later than now included; "Last Month" keeps only rows
    dated on a calendar day of the previous month and keeps every row
    dated from its second day to the day before its last. *)
Theorem filter_by_timeframe_month_windows (now : datetime) (df : DataFrame)
    (r : row) :
  valid now = true ->
  (In r (filter_by_timeframe now df "This Month") ->
   In r df /\
   exists d, date r = Some d /\
             leb (midnight (year now) (month now) 1) d = true) /\
  (forall d, In r df -> date r = Some d ->
             leb (midnight (year now) (month now) 2) d = true ->
             In r (filter_by_timeframe now df "This Month")) /\
  (In r (filter_by_timeframe now df "Last Month") ->
   In r df /\ in_last_month now r) /\
  (forall d, In r df -> date r = Some d ->
             (year d, month d) = previous_month now ->
             2 <= day d <= days_in_month (year d) (month d) - 1 ->
             In r (filter_by_timeframe now df "Last Month")).
Proof.
  intros Hvalid. apply valid_fields in Hvalid.
  destruct Hvalid as (_ & Hmonth & _ & Htod).
  pose proof (sub_months_1_fields now Hmonth) as Hprev.
  unfold in_last_month. rewrite <- Hprev. clear Hprev.
  assert (Hwin : forall x, In x (filter_by_timeframe now df "Last Month") <->
            In x df /\
            date_ge (date x) (replace_day (sub_months now 1) 1) = true /\
            date_le (date x) (month_end_0 (replace_day (sub_months now 1) 1)) = true)
    by (intros x; apply last_month_keeps).
  revert Hwin. generalize (sub_months now 1). intros prev Hwin.
  repeat split.
  - now apply this_month_keeps in H.
  - apply this_month_keeps in H. destruct H as [_ H].
    destruct (date r) as [d|]; [|discriminate H]. exists d; split; [reflexivity|].
    simpl in H. apply leb_fields in H. apply leb_fields. simpl in *. lia.
  - intros d Hin Hd Hge. apply this_month_keeps. split; [exact Hin|].
    rewrite Hd. simpl. apply leb_fields in Hge. apply leb_fields. simpl in *. lia.
  - now apply Hwin in H.
  - apply Hwin in H. destruct H as (_ & Hge & Hle).
    destruct (date r) as [d|] eqn:Hd; [|discriminate Hge].
    exists d; split; [reflexivity|].
    unfold replace_day in Hge, Hle. rewrite month_end_0_first in Hle.
    simpl in Hge, Hle. apply leb_fields in Hge, Hle. simpl in Hge, Hle.
    assert (year d = year prev /\ month d = month prev) as [Ey Em] by lia.
    rewrite Ey, Em. split; [reflexivity|]. lia.
  - intros d Hin Hd Hym Hday. apply Hwin. split; [exact Hin|].
    rewrite Hd. unfold replace_day. rewrite month_end_0_first. simpl.
    injection Hym as Ey Em. rewrite <- Ey, <- Em.
    split; apply leb_fields; simpl; lia.
Qed.

Lemma filter_by_timeframe_null_dates_witness :
  In "Last Month" bounded_timeframes /\
  In Demo.undated Demo.expenses /\
  date Demo.undated = None /\
  ~ In Demo.undated (filter_by_timeframe Demo.clock Demo.expenses "Last Month") /\
  filter_by_timeframe Demo.clock Demo.expenses "All Time" = Demo.expenses.
Proof.
  assert (Htf : In "Last Month" bounded_timeframes) by (simpl; tauto).
  assert (Hin : In Demo.undated Demo.expenses) by (simpl; tauto).
  destruct (filter_by_timeframe_null_dates Demo.clock Demo.expenses "Last Month")
    as [Hnull Hall].
  repeat split; try assumption.
  exact (Hnull Htf Demo.undated Hin eq_refl).
Defined.

Lemma filter_by_timeframe_month_windows_witness :
  valid Demo.clock = true /\
  (In Demo.christmas (filter_by_timeframe Demo.clock Demo.expenses "This Month") ->
   In Demo.christmas Demo.expenses /\
   exists d, date Demo.christmas = Some d /\
             leb (midnight (year Demo.clock) (month Demo.clock) 1) d = true).
Proof.
  split; [reflexivity|].
  exact (proj1 (filter_by_timeframe_month_windows
                  Demo.clock Demo.expenses Demo.christmas eq_refl)).
Defined.

(** What the filter returns for the example table at noon of 3 November
    2026. *)
Lemma expenses_this_month :
  filter_by_timeframe Demo.clock Demo.expenses "This Month" = [Demo.christmas].
Proof. reflexivity. Qed.

Lemma expenses_last_month :
  filter_by_timeframe Demo.clock Demo.expenses "Last Month" = [].
Proof. reflexivity. Qed.

(** C1 fails as stated.  At noon of 3 November 2026, "This Month" keeps a
    row dated 25 December, later than now, and drops the row dated 1
    November at midnight, which is in the stated window; "Last Month" drops
    the rows dated 1 October at midnight and 31 October at six in the
    evening, which are calendar days of the previous month. *)
Lemma filter_by_timeframe_windows_differ :
  (In Demo.christmas (filter_by_timeframe Demo.clock Demo.expenses "This Month")
   /\ ~ in_this_month Demo.clock Demo.christmas)
  /\ (in_this_month Demo.clock Demo.first_of_november
      /\ In Demo.first_of_november Demo.expenses
      /\ ~ In Demo.first_of_november
             (filter_by_timeframe Demo.clock Demo.expenses "This Month"))
  /\ (in_last_month Demo.clock Demo.halloween_evening
      /\ In Demo.halloween_evening Demo.expenses
      /\ ~ In Demo.halloween_evening
             (filter_by_timeframe Demo.clock Demo.expenses "Last Month"))
  /\ ~ (forall r, In r (filter_by_timeframe Demo.clock Demo.expenses "This Month")
                  <-> In r Demo.expenses /\ in_this_month Demo.clock r)
  /\ ~ (forall r, In r (filter_by_timeframe Demo.clock Demo.expenses "Last Month")
                  <-> In r Demo.expenses /\ in_last_month Demo.clock r).
Proof.
  assert (Hfuture : ~ in_this_month Demo.clock Demo.christmas).
  { intros (d & Hd & _ & Hle). injection Hd as <-. discriminate Hle. }
  assert (Hfirst : in_this_month Demo.clock Demo.first_of_november).
  { eexists; split; [reflexivity|]. split; reflexivity. }
  assert (Heve : in_last_month Demo.clock Demo.halloween_evening).
  { eexists; split; [reflexivity|]. split; [reflexivity|]. vm_compute.
    split; discriminate. }
  rewrite expenses_this_month, expenses_last_month.
  repeat split; try assumption.
  - now left.
  - simpl; tauto.
  - intros [E|[]]. discriminate E.
  - simpl; tauto.
  - intros H; exact H.
  - intros H. apply Hfuture. apply (H Demo.christmas). now left.
  - intros H. apply (H Demo.halloween_evening). split; [simpl; tauto|exact Heve].
Qed.

Section Pandas.

Variable str_to_numeric : string -> option float.
Variable column_to_datetime : list date_cell -> nat -> option datetime.

Lemma fillna0_not_nan (x : float) : is_nan (Num.fillna0 x) = false.
Proof.
  unfold Num.fillna0. destruct (is_nan x) eqn:E; [reflexivity|exact E].
Qed.


End Pandas.


End AppFacts.

(** ** Strings: substrings, trimming and the character classes *)

Module StrFacts.

Import Str Spec.

Lemma append_nil_r (s : string) : s ++ "" = s.
Proof. induction s as [|c r IH]; simpl; congruence. Qed.

Lemma append_assoc (a b c : string) : (a ++ b) ++ c = a ++ (b ++ c).
Proof. induction a as [|x r IH]; simpl; congruence. Qed.

Lemma length_append (a b : string) :
  String.length (a ++ b) = (String.length a + String.length b)%nat.
Proof. induction a as [|x r IH]; simpl; congruence. Qed.

(** Two splittings of a string at the same position are the same. *)
Lemma append_inj_length (a b a' b' : string) :
  a ++ b = a' ++ b' -> String.length a = String.length a' ->
  a = a' /\ b = b'.
Proof.
  revert a'; induction a as [|x r IH]; intros [|x' r']; simpl;
    intros E L; try discriminate L.
  - auto.
  - injection E as -> E. injection L as L.
    destruct (IH _ E L) as [-> ->]. auto.
Qed.

Lemma prefix_append (m post : string) : prefix m (m ++ post) = true.
Proof.
  induction m as [|c r IH]; simpl; [now destruct post|].
  destruct (ascii_dec c c); [exact IH|congruence].
Qed.

Lemma prefix_split (m s : string) :
  prefix m s = true -> exists post, s = m ++ post.
Proof.
  revert s; induction m as [|c r IH]; intros s; simpl.
  - intros _. exists s. now destruct s.
  - destruct s as [|c' r']; simpl; [discriminate|].
    destruct (ascii_dec c c') as [<-|]; [|discriminate].
    intros H. destruct (IH _ H) as [post ->]. now exists post.
Qed.

Lemma occurs_cons (m s : string) (c : ascii) :
  occurs m s -> occurs m (String c s).
Proof. intros (pre & post & ->). now exists (String c pre), post. Qed.

Lemma contains_cons (m r : string) (c : ascii) :
  contains m (String c r) = prefix m (String c r) || contains m r.
Proof. reflexivity. Qed.

Lemma contains_prefix (m s : string) : prefix m s = true -> contains m s = true.
Proof.
  intros H. destruct s.
  - change (contains m "") with (prefix m "" || false). now rewrite H.
  - now rewrite contains_cons, H.
Qed.

(** [contains] decides [occurs]. *)
Lemma contains_occurs (m s : string) : contains m s = true <-> occurs m s.
Proof.
  split.
  - induction s as [|c r IH].
    + change (contains m "") with (prefix m "" || false).
      rewrite orb_false_r. intros H.
      destruct (prefix_split _ _ H) as [post E]. now exists "", post.
    + rewrite contains_cons, orb_true_iff. intros [H|H].
      * destruct (prefix_split _ _ H) as [post E]. now exists "", post.
      * apply occurs_cons; auto.
  - intros (pre & post & ->). induction pre as [|c r IH].
    + change ("" ++ m ++ post) with (m ++ post).
      apply contains_prefix, prefix_append.
    + change (String c r ++ m ++ post) with (String c (r ++ m ++ post)).
      rewrite contains_cons, IH. apply orb_true_r.
Qed.

Lemma contains_false (m s : string) : contains m s = false <-> ~ occurs m s.
Proof.
  rewrite <- contains_occurs. destruct (contains m s); split; congruence.
Qed.

(** *** Character classes *)

Lemma is_digit_cases (c : ascii) :
  is_digit c = true ->
  In c ["0"; "1"; "2"; "3"; "4"; "5"; "6"; "7"; "8"; "9"]%char.
Proof.
  destruct c as [[] [] [] [] [] [] [] []]; intros H;
    try discriminate H; simpl; tauto.
Qed.

Ltac digit_cases c H :=
  let D := fresh "D" in
  pose proof (is_digit_cases c H) as D; simpl in D;
  repeat (destruct D as [<-|D]); [..|contradiction].

Lemma digit_not_space (c : ascii) : is_digit c = true -> is_space c = false.
Proof. intros H. digit_cases c H; reflexivity. Qed.

Lemma digit_value_bounds (c : ascii) :
  is_digit c = true -> 0 <= Z.of_N (code c) - 48 <= 9.
Proof. intros H. digit_cases c H; vm_compute; split; discriminate. Qed.

Lemma lower_char_digit (c : ascii) : is_digit (lower_char c) = is_digit c.
Proof. destruct c as [[] [] [] [] [] [] [] []]; reflexivity. Qed.

Lemma space_not_digit (c : ascii) : is_space c = true -> is_digit c = false.
Proof.
  intros H. destruct (is_digit c) eqn:E; [|reflexivity].
  apply digit_not_space in E. congruence.
Qed.

(** *** [all] *)

Lemma all_append (p : ascii -> bool) (a b : string) :
  all p (a ++ b) = all p a && all p b.
Proof.
  induction a as [|c r IH]; simpl; [reflexivity|].
  rewrite IH. apply andb_assoc.
Qed.

Lemma all_impl (p q : ascii -> bool) (s : string) :
  (forall c, p c = true -> q c = true) -> all p s = true -> all q s = true.
Proof.
  intros Hpq. induction s as [|c r IH]; simpl; [reflexivity|].
  rewrite !andb_true_iff. intros [H1 H2]. auto.
Qed.

(** *** Trimming *)

Lemma all_space_cons (c : ascii) (r : string) :
  all_space (String c r) = is_space c && all_space r.
Proof. reflexivity. Qed.

Lemma rstrip_cons (c : ascii) (r : string) :
  rstrip (String c r)
  = if all_space (String c r) then "" else String c (rstrip r).
Proof. reflexivity. Qed.

Lemma lstrip_all_space (s : string) : all_space s = true -> lstrip s = "".
Proof.
  induction s as [|c r IH]; [reflexivity|].
  rewrite all_space_cons, andb_true_iff. intros [Hc Hr].
  simpl. rewrite Hc. auto.
Qed.

Lemma rstrip_all_space (s : string) : all_space s = true -> rstrip s = "".
Proof.
  destruct s as [|c r]; [reflexivity|]. intros H. now rewrite rstrip_cons, H.
Qed.

(** The trimmed string is empty exactly when there is nothing but white
    space. *)
Lemma is_empty_strip (s : string) : is_empty (strip s) = all_space s.
Proof.
  unfold strip. induction s as [|c r IH]; [reflexivity|].
  rewrite all_space_cons. simpl lstrip.
  destruct (is_space c) eqn:Hc; [exact IH|].
  rewrite rstrip_cons, all_space_cons, Hc. reflexivity.
Qed.

Lemma empty_or_blank (s : string) :
  is_empty s || is_empty (strip s) = all_space s.
Proof.
  rewrite is_empty_strip. destruct s; reflexivity.
Qed.

Lemma lstrip_append (a b : string) :
  lstrip (a ++ b) = if all_space a then lstrip b else lstrip a ++ b.
Proof.
  induction a as [|c r IH]; [reflexivity|].
  rewrite all_space_cons. simpl. destruct (is_space c); [exact IH|reflexivity].
Qed.

Lemma rstrip_append (a b : string) :
  rstrip (a ++ b) = if all_space b then rstrip a else a ++ rstrip b.
Proof.
  induction a as [|c r IH].
  - simpl append. destruct (all_space b) eqn:Hb; [|reflexivity].
    now apply rstrip_all_space.
  - change (String c r ++ b) with (String c (r ++ b)).
    rewrite !rstrip_cons, IH, !all_space_cons.
    unfold all_space at 1. rewrite all_append. fold (all_space r) (all_space b).
    destruct (all_space b); [|now rewrite !andb_false_r].
    now rewrite andb_true_r.
Qed.

(** What trimming removes is at the two ends. *)
Lemma lstrip_suffix (s : string) : exists a, s = a ++ lstrip s.
Proof.
  induction s as [|c r [a IH]]; [now exists ""|].
  simpl. destruct (is_space c).
  - exists (String c a). simpl. congruence.
  - now exists "".
Qed.

Lemma rstrip_prefix (s : string) : exists b, s = rstrip s ++ b.
Proof.
  induction s as [|c r [b IH]]; [now exists ""|].
  rewrite rstrip_cons. destruct (all_space (String c r)).
  - now exists (String c r).
  - exists b. simpl. congruence.
Qed.

Lemma occurs_in_strip (m s : string) : occurs m (strip s) -> occurs m s.
Proof.
  intros (pre & post & E). unfold strip in E.
  destruct (lstrip_suffix s) as [a Ha].
  destruct (rstrip_prefix (lstrip s)) as [b Hb].
  exists (a ++ pre), (post ++ b).
  rewrite Ha, Hb, E. now rewrite !append_assoc.
Qed.

(** A string without white space is not trimmed and, unless it is empty,
    is not blank. *)
Lemma no_space_lstrip (m : string) :
  all (fun c => negb (is_space c)) m = true -> lstrip m = m.
Proof.
  destruct m as [|c r]; [reflexivity|]. simpl.
  rewrite andb_true_iff, negb_true_iff. now intros [-> _].
Qed.

Lemma no_space_not_blank (m : string) :
  m <> "" -> all (fun c => negb (is_space c)) m = true -> all_space m = false.
Proof.
  destruct m as [|c r]; [congruence|]. intros _. simpl.
  rewrite andb_true_iff, negb_true_iff. intros [Hc _].
  now rewrite all_space_cons, Hc.
Qed.

Lemma no_space_rstrip (m : string) :
  all (fun c => negb (is_space c)) m = true -> rstrip m = m.
Proof.
  induction m as [|c r IH]; [reflexivity|]. intros H.
  assert (Hne : String c r <> "") by discriminate.
  rewrite rstrip_cons, (no_space_not_blank _ Hne H).
  simpl in H. apply andb_true_iff in H. now rewrite IH.
Qed.

(** A substring without white space survives trimming. *)
Lemma occurs_strip (m s : string) :
  m <> "" -> all (fun c => negb (is_space c)) m = true ->
  (occurs m (strip s) <-> occurs m s).
Proof.
  intros Hne Hm. split; [apply occurs_in_strip|].
  pose proof (no_space_not_blank m Hne Hm) as Hblank.
  intros (pre & post & ->). unfold strip.
  assert (Hl : exists p, lstrip (pre ++ m ++ post) = p ++ m ++ post).
  { rewrite lstrip_append. destruct (all_space pre).
    - exists "". rewrite lstrip_append, Hblank, no_space_lstrip; auto.
    - now exists (lstrip pre). }
  destruct Hl as [p ->].
  rewrite rstrip_append.
  unfold all_space at 1. rewrite all_append. fold (all_space m) (all_space post).
  rewrite Hblank. simpl andb. cbv iota.
  rewrite rstrip_append. destruct (all_space post).
  - exists p, "". now rewrite no_space_rstrip, append_nil_r.
  - now exists p, (rstrip post).
Qed.

End StrFacts.

(** ** The natural-language parser *)

Module ParserFacts.

Import Str Time Analysis Spec StrFacts.

(** *** The amount pattern *)

Lemma span_digits_cons (c : ascii) (r : string) :
  span_digits (String c r)
  = if is_digit c
    then (String c (fst (span_digits r)), snd (span_digits r))
    else ("", String c r).
Proof. simpl. destruct (is_digit c); [|reflexivity]. now destruct (span_digits r). Qed.

(** [span_digits] splits the string, the first part is made of digits and
    the second part does not start with one. *)
Lemma span_digits_spec (s : string) :
  s = fst (span_digits s) ++ snd (span_digits s) /\
  all_digits (fst (span_digits s)) = true /\
  match snd (span_digits s) with
  | String c _ => is_digit c = false
  | EmptyString => True
  end.
Proof.
  induction s as [|c r (IH1 & IH2 & IH3)]; [simpl; auto|].
  rewrite span_digits_cons. destruct (is_digit c) eqn:Hc; simpl.
  - repeat split; [congruence| |exact IH3].
    unfold all_digits in *. simpl. now rewrite Hc.
  - auto.
Qed.

Lemma span_digits_append (ip rest : string) :
  all_digits ip = true ->
  span_digits (ip ++ rest)
  = (ip ++ fst (span_digits rest), snd (span_digits rest)).
Proof.
  unfold all_digits. induction ip as [|c r IH]; simpl append.
  - intros _. now destruct (span_digits rest).
  - simpl all. rewrite andb_true_iff. intros [Hc Hr].
    rewrite span_digits_cons, Hc, (IH Hr). reflexivity.
Qed.

Lemma span_digits_all (ip : string) :
  all_digits ip = true -> span_digits ip = (ip, "").
Proof.
  intros H. rewrite <- (append_nil_r ip) at 1.
  rewrite (span_digits_append ip "" H). simpl. now rewrite append_nil_r.
Qed.

Lemma amount_pattern_first (m : string) :
  amount_pattern m -> exists c r, m = String c r /\ is_digit c = true.
Proof.
  assert (Hd : forall x, digits x -> exists c r, x = String c r /\ is_digit c = true).
  { intros [|c r] [Hne Hall]; [congruence|]. exists c, r. split; [reflexivity|].
    unfold all_digits in Hall. simpl in Hall. now apply andb_true_iff in Hall. }
  intros [H|(ip & fp & Hip & _ & ->)]; [now apply Hd|].
  destruct (Hd _ Hip) as (c & r & -> & Hc). now exists c, (r ++ "." ++ fp).
Qed.

(** The match that starts at a digit has the amount pattern and is a
    prefix of the string. *)
Lemma amount_at_spec (c : ascii) (r : string) :
  is_digit c = true ->
  amount_pattern (amount_at (String c r)) /\
  exists post, String c r = amount_at (String c r) ++ post.
Proof.
  intros Hc. unfold amount_at.
  destruct (span_digits_spec (String c r)) as (Hs & Hall & _).
  assert (Hne : fst (span_digits (String c r)) <> "")
    by (rewrite span_digits_cons, Hc; discriminate).
  destruct (span_digits (String c r)) as [ip r1]. simpl in Hs, Hall, Hne.
  assert (Hip : digits ip) by (split; assumption).
  destruct r1 as [|c1 r2]; [split; [now left|now exists ""]|].
  destruct (Ascii.eqb_spec c1 ".") as [->|_]; [|split; [now left|eauto]].
  destruct (span_digits_spec r2) as (Hs2 & Hall2 & _).
  destruct (span_digits r2) as [fp r3]. simpl in Hs2, Hall2.
  destruct fp as [|f fp']; simpl is_empty; cbv iota.
  - split; [now left|eauto].
  - split.
    + right. exists ip, (String f fp'). repeat split; auto. discriminate.
    + exists r3. rewrite Hs, Hs2. rewrite !append_assoc. reflexivity.
Qed.

Lemma search_amount_some (s m : string) :
  search_amount s = Some m -> amount_pattern m /\ occurs m s.
Proof.
  induction s as [|c r IH]; simpl; [discriminate|].
  destruct (is_digit c) eqn:Hc.
  - intros E. injection E as <-.
    destruct (amount_at_spec c r Hc) as [Hp [post Hpost]].
    split; [exact Hp|]. exists "", post. exact Hpost.
  - intros E. destruct (IH E) as [Hp Ho]. split; [exact Hp|].
    now apply occurs_cons.
Qed.

(** The search fails exactly on the strings without a digit. *)
Lemma search_amount_none (s : string) :
  search_amount s = None <-> all (fun c => negb (is_digit c)) s = true.
Proof.
  induction s as [|c r IH]; simpl; [tauto|].
  destruct (is_digit c); simpl; [split; discriminate|exact IH].
Qed.

Lemma search_amount_none_iff (s : string) :
  search_amount s = None <-> ~ exists m, amount_pattern m /\ occurs m s.
Proof.
  split.
  - intros Hnone (m & Hp & pre & post & ->).
    apply search_amount_none in Hnone.
    destruct (amount_pattern_first m Hp) as (c & r & -> & Hc).
    rewrite !all_append in Hnone. simpl in Hnone. rewrite Hc in Hnone.
    simpl in Hnone. now rewrite andb_false_r in Hnone.
  - intros Hno. destruct (search_amount s) as [m|] eqn:E; [|reflexivity].
    exfalso. apply Hno. exists m. now apply search_amount_some.
Qed.

(** Lower-casing and trimming neither add nor remove digits. *)
Lemma no_digit_lower (s : string) :
  all (fun c => negb (is_digit c)) (lower s)
  = all (fun c => negb (is_digit c)) s.
Proof.
  induction s as [|c r IH]; [reflexivity|]. simpl.
  now rewrite lower_char_digit, IH.
Qed.

Lemma no_digit_lstrip (s : string) :
  all (fun c => negb (is_digit c)) (lstrip s)
  = all (fun c => negb (is_digit c)) s.
Proof.
  induction s as [|c r IH]; [reflexivity|]. simpl.
  destruct (is_space c) eqn:Hc; [|reflexivity].
  now rewrite IH, (space_not_digit c Hc).
Qed.

Lemma blank_no_digit (s : string) :
  all_space s = true -> all (fun c => negb (is_digit c)) s = true.
Proof.
  apply all_impl. intros c Hc. now rewrite (space_not_digit c Hc).
Qed.

Lemma no_digit_rstrip (s : string) :
  all (fun c => negb (is_digit c)) (rstrip s)
  = all (fun c => negb (is_digit c)) s.
Proof.
  induction s as [|c r IH]; [reflexivity|]. rewrite rstrip_cons.
  destruct (all_space (String c r)) eqn:Hb.
  - now rewrite (blank_no_digit _ Hb).
  - simpl. now rewrite IH.
Qed.

Lemma search_amount_normalized (text : string) :
  search_amount (normalized text) = None <-> search_amount text = None.
Proof.
  rewrite !search_amount_none. unfold normalized, strip.
  now rewrite no_digit_rstrip, no_digit_lstrip, no_digit_lower.
Qed.

(** *** [float] on a match of the amount pattern *)

Lemma digits_plain (x : string) :
  digits x -> all (fun c => is_digit c || Ascii.eqb c ".") x = true.
Proof.
  intros [_ H]. revert H. apply all_impl. intros c ->. reflexivity.
Qed.

Lemma amount_pattern_plain (m : string) :
  amount_pattern m -> all (fun c => is_digit c || Ascii.eqb c ".") m = true.
Proof.
  intros [H|(ip & fp & Hip & Hfp & ->)]; [now apply digits_plain|].
  rewrite !all_append, (digits_plain ip Hip), (digits_plain fp Hfp).
  reflexivity.
Qed.

Lemma plain_char (c : ascii) :
  is_digit c || Ascii.eqb c "." = true ->
  is_space c = false /\ Ascii.eqb c "_" = false.
Proof.
  rewrite orb_true_iff. intros [H|H].
  - digit_cases c H; split; reflexivity.
  - apply Ascii.eqb_eq in H. subst c. split; reflexivity.
Qed.

Lemma amount_pattern_strip (m : string) : amount_pattern m -> strip m = m.
Proof.
  intros H. apply amount_pattern_plain in H.
  assert (Hns : all (fun c => negb (is_space c)) m = true).
  { revert H. apply all_impl. intros c Hc.
    destruct (plain_char c Hc) as [-> _]. reflexivity. }
  unfold strip. now rewrite (no_space_lstrip m Hns), (no_space_rstrip m Hns).
Qed.

Lemma split_sign_digit (c : ascii) (r : string) :
  is_digit c = true -> Num.split_sign (String c r) = (false, String c r).
Proof. intros H. digit_cases c H; reflexivity. Qed.

Lemma lower_digit_not_a_name (c : ascii) (r : string) :
  is_digit c = true ->
  (lower (String c r) =? "inf")%string = false /\
  (lower (String c r) =? "infinity")%string = false /\
  (lower (String c r) =? "nan")%string = false.
Proof. intros H. digit_cases c H; repeat split; reflexivity. Qed.

Lemma drop_underscores_plain (prev : bool) (m : string) :
  all (fun c => is_digit c || Ascii.eqb c ".") m = true ->
  Num.drop_underscores prev m = Some m.
Proof.
  revert prev; induction m as [|c r IH]; intros prev; [reflexivity|].
  simpl. rewrite andb_true_iff. intros [Hc Hr].
  destruct (plain_char c Hc) as [_ ->]. now rewrite (IH _ Hr).
Qed.

Lemma digits_value_from_nonneg (s : string) (acc : Z) :
  all_digits s = true -> 0 <= acc -> 0 <= digits_value_from acc s.
Proof.
  unfold all_digits. revert acc; induction s as [|c r IH]; intros acc;
    cbn [all digits_value_from].
  - auto.
  - rewrite andb_true_iff. intros [Hc Hr] Hacc. apply IH; [exact Hr|].
    pose proof (digit_value_bounds c Hc). lia.
Qed.

Lemma digits_value_nonneg (s : string) :
  all_digits s = true -> 0 <= digits_value s.
Proof. intros H. apply digits_value_from_nonneg; [exact H|lia]. Qed.

Lemma all_digits_append (a b : string) :
  all_digits a = true -> all_digits b = true -> all_digits (a ++ b) = true.
Proof. unfold all_digits. intros Ha Hb. now rewrite all_append, Ha, Hb. Qed.

(** A match of the amount pattern is a decimal literal with a coefficient
    of zero or more. *)
Lemma parse_decimal_amount (m : string) :
  amount_pattern m ->
  exists n e10, Num.parse_decimal m = Some (n, e10) /\ 0 <= n.
Proof.
  intros [[Hne Hall]|(ip & fp & [Hne Hip] & [Hnf Hfp] & ->)];
    unfold Num.parse_decimal.
  - rewrite (span_digits_all m Hall).
    destruct m as [|c r]; [congruence|]. simpl is_empty. simpl andb. cbv iota.
    simpl Num.parse_exponent. cbv iota beta.
    eexists _, _. split; [reflexivity|].
    apply digits_value_nonneg, all_digits_append; auto.
  - rewrite (span_digits_append ip _ Hip).
    change ("." ++ fp) with (String "." fp).
    rewrite span_digits_cons. simpl is_digit. cbv iota. simpl fst. simpl snd.
    rewrite append_nil_r. simpl Ascii.eqb. cbv iota.
    rewrite (span_digits_all fp Hfp).
    destruct ip as [|c r]; [congruence|]. simpl is_empty. simpl andb. cbv iota.
    simpl Num.parse_exponent. cbv iota beta.
    eexists _, _. split; [reflexivity|].
    apply digits_value_nonneg, all_digits_append; auto.
Qed.

(** [float] returns on every match of the amount pattern, and what it
    returns is zero or more. *)
Lemma float_of_amount (m : string) :
  amount_pattern m ->
  exists x, Num.float_of_str m = Returned x /\ Num.le 0 x = true.
Proof.
  intros Hp. unfold Num.float_of_str.
  rewrite (amount_pattern_strip m Hp).
  destruct (amount_pattern_first m Hp) as (c & r & -> & Hc).
  rewrite (split_sign_digit c r Hc).
  destruct (lower_digit_not_a_name c r Hc) as (-> & -> & ->).
  simpl orb. cbv iota.
  rewrite (drop_underscores_plain false _ (amount_pattern_plain _ Hp)).
  destruct (parse_decimal_amount _ Hp) as (n & e10 & -> & Hn).
  eexists. split; [reflexivity|]. simpl Num.signed.
  now apply NumFacts.of_decimal_nonneg.
Qed.

(** *** The vocabulary *)

Lemma detect_category_some (cs : list string) (t c : string) :
  detect_category cs t = Some c -> In c cs /\ occurs c t.
Proof.
  induction cs as [|k rest IH]; simpl; [discriminate|].
  destruct (contains k t) eqn:Hk.
  - intros E. injection E as <-. split; [now left|]. now apply contains_occurs.
  - intros E. destruct (IH E). auto.
Qed.

Lemma detect_category_none (cs : list string) (t : string) :
  detect_category cs t = None <-> forall c, In c cs -> ~ occurs c t.
Proof.
  induction cs as [|k rest IH]; simpl; [tauto|].
  destruct (contains k t) eqn:Hk.
  - split; [discriminate|]. intros H. exfalso.
    apply (H k); [now left|]. now apply contains_occurs.
  - rewrite IH. apply contains_false in Hk. split.
    + intros H c [<-|Hc]; auto.
    + intros H c Hc. apply H. now right.
Qed.

(** The words of the vocabulary have no white space, so trimming does not
    touch their occurrences. *)
Lemma category_occurs_normalized (text c : string) :
  In c categories -> (occurs c (normalized text) <-> occurs c (lower text)).
Proof.
  intros Hc. unfold normalized.
  assert (H : c <> "" /\ all (fun x => negb (is_space x)) c = true).
  { unfold categories in Hc. simpl in Hc.
    repeat (destruct Hc as [<-|Hc]); try contradiction;
      (split; [intros E; discriminate E|reflexivity]). }
  now apply occurs_strip.
Qed.

(** *** The date pattern *)

Lemma substring_prefix (n : nat) (s : string) :
  exists post, s = substring 0 n s ++ post.
Proof.
  revert s; induction n as [|n IH]; intros s.
  - exists s. now destruct s.
  - destruct s as [|c r]; [now exists ""|].
    destruct (IH r) as [post E]. exists post. simpl. congruence.
Qed.

Lemma substring_append (m post : string) :
  substring 0 (String.length m) (m ++ post) = m.
Proof.
  induction m as [|c r IH]; simpl; [now destruct post|congruence].
Qed.

Lemma iso_shape_length (m : string) :
  iso_shape m = true -> String.length m = 10%nat.
Proof.
  intros H.
  do 10 (destruct m as [|? m]; [simpl in H; discriminate H|]).
  destruct m; [reflexivity|simpl in H; discriminate H].
Qed.

Lemma search_date_unfold (t : string) :
  search_date t
  = if iso_shape (substring 0 10 t) then Some (substring 0 10 t)
    else match t with
         | EmptyString => None
         | String _ r => search_date r
         end.
Proof. destruct t; reflexivity. Qed.

(** A match at the very start of [t] is the first ten characters. *)
Lemma match_at_start (t m post : string) :
  t = m ++ post -> iso_shape m = true -> iso_shape (substring 0 10 t) = true.
Proof.
  intros -> H. rewrite <- (iso_shape_length m H), substring_append. exact H.
Qed.

Lemma search_date_some (t m : string) :
  search_date t = Some m -> first_date_match t m.
Proof.
  induction t as [|c r IH]; rewrite search_date_unfold.
  - discriminate.
  - destruct (iso_shape (substring 0 10 (String c r))) eqn:Hs.
    + intros E. injection E as <-.
      destruct (substring_prefix 10 (String c r)) as [post Hpost].
      exists "", post. repeat split; [exact Hpost|exact Hs|].
      intros; simpl; lia.
    + intros E. destruct (IH E) as (pre & post & Hr & Hm & Hleft).
      exists (String c pre), post. repeat split; [simpl; congruence|exact Hm|].
      intros [|c' p'] m' post' Ht Hm'.
      * rewrite (match_at_start _ m' post' Ht Hm') in Hs. discriminate Hs.
      * injection Ht as _ Ht. simpl. apply le_n_S. eapply Hleft; eauto.
Qed.

Lemma search_date_none (t : string) :
  search_date t = None -> ~ exists m, iso_shape m = true /\ occurs m t.
Proof.
  induction t as [|c r IH]; rewrite search_date_unfold.
  - intros _ (m & Hm & [|? ?] & post & E).
    + apply iso_shape_length in Hm. destruct m; discriminate.
    + discriminate E.
  - destruct (iso_shape (substring 0 10 (String c r))) eqn:Hs; [discriminate|].
    intros E (m & Hm & [|c' p'] & post & Ht).
    + rewrite (match_at_start _ m post Ht Hm) in Hs. discriminate Hs.
    + injection Ht as _ Ht. apply (IH E). exists m. split; [exact Hm|].
      now exists p', post.
Qed.

Lemma first_date_match_unique (t m m' : string) :
  first_date_match t m -> first_date_match t m' -> m = m'.
Proof.
  intros (pre & post & E & Hm & Hleft) (pre' & post' & E' & Hm' & Hleft').
  pose proof (Hleft _ _ _ E' Hm'). pose proof (Hleft' _ _ _ E Hm).
  assert (Hlen : String.length pre = String.length pre') by lia.
  rewrite E in E'.
  destruct (append_inj_length _ _ _ _ E' Hlen) as [_ E2].
  apply append_inj_length in E2; [tauto|].
  now rewrite (iso_shape_length m Hm), (iso_shape_length m' Hm').
Qed.

(** The search returns the first match, and fails only when there is
    none. *)
Lemma search_date_first (t m : string) :
  first_date_match t m -> search_date t = Some m.
Proof.
  intros H. destruct (search_date t) as [m'|] eqn:E.
  - f_equal. apply search_date_some in E. eapply first_date_match_unique; eauto.
  - exfalso. apply (search_date_none t E).
    destruct H as (pre & post & Ht & Hm & _). exists m. split; [exact Hm|].
    now exists pre, post.
Qed.

(** *** The date pattern under lower-casing and trimming *)

Lemma iso_shape_chars (m : string) :
  iso_shape m = true ->
  all (fun c => is_digit c || Ascii.eqb c "-") m = true.
Proof.
  intros H.
  do 10 (destruct m as [|? m]; [simpl in H; discriminate H|]).
  destruct m; [|simpl in H; discriminate H].
  unfold iso_shape in H. rewrite !andb_true_iff in H.
  destruct H as (((((((((H1 & H2) & H3) & H4) & H5) & H6) & H7) & H8) & H9) & H10).
  simpl. rewrite H1, H2, H3, H4, H5, H6, H7, H8, H9, H10.
  now rewrite !orb_true_r.
Qed.

Lemma date_char (c : ascii) :
  is_digit c || Ascii.eqb c "-" = true ->
  is_space c = false /\ lower_char c = c.
Proof.
  rewrite orb_true_iff. intros [H|H].
  - digit_cases c H; split; reflexivity.
  - apply Ascii.eqb_eq in H. subst c. split; reflexivity.
Qed.

Lemma lower_char_hyphen (c : ascii) :
  Ascii.eqb (lower_char c) "-" = Ascii.eqb c "-".
Proof. destruct c as [[] [] [] [] [] [] [] []]; reflexivity. Qed.

Lemma iso_shape_lower (x : string) : iso_shape (lower x) = iso_shape x.
Proof.
  do 10 (destruct x as [|? x]; [reflexivity|]).
  destruct x; [|reflexivity].
  cbn [iso_shape lower].
  now rewrite !lower_char_digit, !lower_char_hyphen.
Qed.

Lemma substring_lower (n : nat) (s : string) :
  substring 0 n (lower s) = lower (substring 0 n s).
Proof.
  revert s; induction n as [|n IH]; intros [|c r]; simpl; try reflexivity.
  now rewrite IH.
Qed.

Lemma lower_date_chars (x : string) :
  all (fun c => is_digit c || Ascii.eqb c "-") x = true -> lower x = x.
Proof.
  induction x as [|c r IH]; [reflexivity|]. simpl.
  rewrite andb_true_iff. intros [Hc Hr].
  destruct (date_char c Hc) as [_ ->]. now rewrite IH.
Qed.

Lemma search_date_lower (s : string) : search_date (lower s) = search_date s.
Proof.
  induction s as [|c r IH]; [reflexivity|].
  rewrite (search_date_unfold (String c r)), (search_date_unfold (lower _)).
  rewrite substring_lower, iso_shape_lower.
  destruct (iso_shape (substring 0 10 (String c r))) eqn:Hs.
  - f_equal. now apply lower_date_chars, iso_shape_chars.
  - exact IH.
Qed.

(** No match starts at a white-space character. *)
Lemma no_match_at_space (c : ascii) (r : string) :
  is_space c = true -> iso_shape (substring 0 10 (String c r)) = false.
Proof.
  intros Hc. destruct (iso_shape _) eqn:Hs; [|reflexivity].
  apply iso_shape_chars in Hs. simpl in Hs. apply andb_true_iff in Hs.
  destruct (date_char c (proj1 Hs)). congruence.
Qed.

Lemma search_date_lstrip (s : string) : search_date (lstrip s) = search_date s.
Proof.
  induction s as [|c r IH]; [reflexivity|]. simpl lstrip.
  destruct (is_space c) eqn:Hc; [|reflexivity].
  now rewrite (search_date_unfold (String c r)), (no_match_at_space c r Hc).
Qed.

Lemma search_date_blank (s : string) : all_space s = true -> search_date s = None.
Proof.
  induction s as [|c r IH]; [reflexivity|].
  rewrite all_space_cons, andb_true_iff. intros [Hc Hr].
  now rewrite search_date_unfold, (no_match_at_space c r Hc), IH.
Qed.

Lemma length_substring (n : nat) (s : string) :
  String.length (substring 0 n s) = n -> (n <= String.length s)%nat.
Proof.
  revert s; induction n as [|n IH]; intros [|c r]; simpl; try lia.
  intros H. injection H as H. apply IH in H. lia.
Qed.

Lemma substring_within (n : nat) (u b : string) :
  (n <= String.length u)%nat -> substring 0 n (u ++ b) = substring 0 n u.
Proof.
  revert u; induction n as [|n IH]; intros [|c r]; simpl; try lia.
  - now destruct b.
  - reflexivity.
  - intros H. rewrite IH; [reflexivity|lia].
Qed.

(** The first ten characters of a string and of the string trimmed on the
    right agree as soon as either has the shape of a date. *)
Lemma date_prefix_rstrip (s : string) :
  iso_shape (substring 0 10 (rstrip s)) = true \/
  iso_shape (substring 0 10 s) = true ->
  substring 0 10 (rstrip s) = substring 0 10 s.
Proof.
  intros [H|H].
  - apply iso_shape_length, length_substring in H.
    destruct (rstrip_prefix s) as [b Hb]. rewrite Hb at 2.
    now rewrite substring_within.
  - pose proof (iso_shape_length _ H) as Hlen.
    assert (Hns : all (fun c => negb (is_space c)) (substring 0 10 s) = true).
    { apply iso_shape_chars in H. revert H. apply all_impl. intros c Hc.
      destruct (date_char c Hc) as [-> _]. reflexivity. }
    assert (Hne : substring 0 10 s <> "")
      by (intros E; rewrite E in Hlen; discriminate Hlen).
    destruct (substring_prefix 10 s) as [post Hpost].
    set (y := substring 0 10 s) in *.
    assert (Hr : exists post', rstrip s = y ++ post').
    { rewrite Hpost, rstrip_append. destruct (all_space post).
      - exists "". now rewrite no_space_rstrip, append_nil_r.
      - eauto. }
    destruct Hr as [post' ->]. rewrite <- Hlen. apply substring_append.
Qed.

Lemma search_date_rstrip (s : string) : search_date (rstrip s) = search_date s.
Proof.
  induction s as [|c r IH]; [reflexivity|].
  pose proof (date_prefix_rstrip (String c r)) as Hp.
  rewrite rstrip_cons in *.
  destruct (all_space (String c r)) eqn:Hb.
  - now rewrite (search_date_blank _ Hb).
  - rewrite (search_date_unfold (String c r)), (search_date_unfold (String c (rstrip r))).
    destruct (iso_shape (substring 0 10 (String c (rstrip r)))) eqn:Hx;
      destruct (iso_shape (substring 0 10 (String c r))) eqn:Hy;
      try (rewrite Hp in * by auto; congruence).
    exact IH.
Qed.

(** The parser finds the same date match in the normalised text as in
    the text it was given. *)
Lemma search_date_normalized (text : string) :
  search_date (normalized text) = search_date text.
Proof.
  unfold normalized, strip.
  now rewrite search_date_rstrip, search_date_lstrip, search_date_lower.
Qed.

(** "today" and "yesterday" have no white space either. *)
Lemma word_occurs_normalized (text w : string) :
  w = "today" \/ w = "yesterday" ->
  (occurs w (normalized text) <-> occurs w (lower text)).
Proof.
  intros H. unfold normalized.
  assert (Hw : w <> "" /\ all (fun x => negb (is_space x)) w = true)
    by (destruct H as [->| ->]; split; (discriminate || reflexivity)).
  now apply occurs_strip.
Qed.

(** *** Dates *)

Lemma fromisoformat_valid (s : string) (d : datetime) :
  fromisoformat s = Returned d -> valid d = true.
Proof.
  unfold fromisoformat. destruct (iso_shape s); [|discriminate].
  destruct (valid_date _ _ _) eqn:Hv; [|discriminate].
  intros E. injection E as <-. unfold valid. simpl. now rewrite Hv.
Qed.

(** One day back is the day whose number is one less, at the same time
    of day. *)
Lemma sub_one_day_previous (t d : datetime) :
  valid t = true -> sub_one_day t = Returned d ->
  toordinal d = toordinal t - 1 /\ tod d = tod t.
Proof.
  intros Hv. pose proof (AppFacts.valid_fields t Hv) as (Hyear & Hm & Hd & Ht).
  unfold sub_one_day, toordinal.
  destruct (Z.ltb_spec 1 (day t)).
  { intros E. injection E as <-. simpl. lia. }
  destruct (Z.ltb_spec 1 (month t)).
  { intros E. injection E as <-. simpl. split; [|reflexivity].
    assert (Hcase : month t = 2 \/ month t = 3 \/ month t = 4 \/ month t = 5 \/
              month t = 6 \/ month t = 7 \/ month t = 8 \/ month t = 9 \/
              month t = 10 \/ month t = 11 \/ month t = 12) by lia.
    unfold days_before_month, days_in_month.
    repeat (destruct Hcase as [->|Hcase]); try rewrite Hcase; simpl;
      destruct (is_leap (year t)); simpl; lia. }
  destruct (Z.ltb_spec 1 (year t)); [|discriminate].
  intros E. injection E as <-. simpl. split; [|reflexivity].
  replace (month t) with 1 by lia. replace (day t) with 1 by lia.
  unfold days_before_month, days_before_year, is_leap. simpl.
  destruct (Z.eqb_spec ((year t - 1) mod 4) 0);
    destruct (Z.eqb_spec ((year t - 1) mod 100) 0);
    destruct (Z.eqb_spec ((year t - 1) mod 400) 0); simpl;
    Z.to_euclidean_division_equations; lia.
Qed.

Lemma sub_one_day_valid (t : datetime) :
  valid t = true -> 1 < year t ->
  exists d, sub_one_day t = Returned d /\ valid d = true.
Proof.
  intros Hv Hy. pose proof (AppFacts.valid_fields t Hv) as (Hyear & Hm & Hd & Ht).
  unfold sub_one_day.
  assert (Hvalid : forall y m d, 1 <= y <= 9999 -> 1 <= m <= 12 ->
            1 <= d <= days_in_month y m ->
            valid (mk_datetime y m d (tod t)) = true).
  { intros y m d Hy' Hm' Hd'. unfold valid, valid_date. simpl.
    rewrite !andb_true_iff. repeat split; lia. }
  destruct (Z.ltb_spec 1 (day t)).
  - eexists; split; [reflexivity|]. apply Hvalid; simpl; lia.
  - destruct (Z.ltb_spec 1 (month t)).
    + eexists; split; [reflexivity|].
      pose proof (AppFacts.days_in_month_bounds (year t) (month t - 1)).
      apply Hvalid; lia.
    + destruct (Z.ltb_spec 1 (year t)); [|lia].
      eexists; split; [reflexivity|]. apply Hvalid; try lia.
      change (days_in_month (year t - 1) 12) with 31. lia.
Qed.

(** *** The parser *)

(** The date the parser settles on is returned, and is a calendar date,
    when the clock shows one after year 1. *)
Lemma date_detection_returns (now : datetime) (t : string) :
  valid now = true -> 1 < year now ->
  exists dt,
    (if contains "today" t then Returned now
     else if contains "yesterday" t then sub_one_day now
     else match search_date t with
          | Some date_match => Returned (try_except (fromisoformat date_match) now)
          | None => Returned now
          end) = Returned dt /\
    valid dt = true.
Proof.
  intros Hv Hy.
  destruct (contains "today" t); [eauto|].
  destruct (contains "yesterday" t); [now apply sub_one_day_valid|].
  destruct (search_date t) as [m|]; [|eauto].
  eexists; split; [reflexivity|].
  destruct (fromisoformat m) as [d|e] eqn:E; simpl; [|exact Hv].
  now apply fromisoformat_valid in E.
Qed.


(** The parts of a successful parse. *)
Lemma parse_nl_expense_parts (now : datetime) (text : string)
    (a : float) (c : string) (d : datetime) :
  parse_nl_expense now text = Returned (Some (a, c, d)) ->
  let t := normalized text in
  (exists m, search_amount t = Some m /\ Num.float_of_str m = Returned a) /\
  detect_category categories t = Some c /\
  (if contains "today" t then Returned now
   else if contains "yesterday" t then sub_one_day now
   else match search_date t with
        | Some date_match => Returned (try_except (fromisoformat date_match) now)
        | None => Returned now
        end) = Returned d.
Proof.
  unfold parse_nl_expense. rewrite empty_or_blank.
  change (strip (lower text)) with (normalized text).
  destruct (all_space text); [discriminate|].
  destruct (search_amount (normalized text)) as [m|]; [|discriminate].
  destruct (Num.float_of_str m) as [x|] eqn:Hx; cbn [bind]; [|discriminate].
  destruct (detect_category categories (normalized text)) as [cat|];
    [|discriminate].
  match goal with
  | |- context [bind ?o _] => destruct o as [dt|]; cbn [bind]; [|discriminate]
  end.
  intros E. injection E as -> -> ->. cbv zeta.
  split; [exists m; split; [reflexivity|exact Hx]|]. split; reflexivity.
Qed.


(** C10: the amount of a successful parse is zero or more; the pattern
    takes digits only, so a minus sign in front of them is not read. *)
Theorem parse_nl_expense_amount_nonneg (now : datetime) (text : string)
    (a : float) (c : string) (d : datetime) :
  parse_nl_expense now text = Returned (Some (a, c, d)) ->
  Num.le 0 a = true.
Proof.
  intros H. apply parse_nl_expense_parts in H. cbv zeta in H.
  destruct H as ((m & Hm & Hf) & _).
  apply search_amount_some in Hm. destruct Hm as [Hp _].
  destruct (float_of_amount m Hp) as (x & Hx & Hle). congruence.
Qed.



(** The amount read from "-50" is 50.0. *)
Lemma parse_nl_expense_amount_nonneg_witness :
  parse_nl_expense Demo.clock "-50 food"
    = Returned (Some (50%float, "food", Demo.clock)) /\
  Num.le 0 50 = true.
Proof.
  split; [vm_compute; reflexivity|].
  apply (parse_nl_expense_amount_nonneg Demo.clock "-50 food"
           50%float "food" Demo.clock).
  vm_compute. reflexivity.
Defined.

End ParserFacts.

(** ** More on comparisons: the order the sums are sorted by *)

Module OrderFacts.

Import Num Frame NumFacts.

Local Open Scope float_scope.

Lemma SFleb_trans (x y z : spec_float) :
  SFleb x y = true -> SFleb y z = true -> SFleb x z = true.
Proof.
  unfold SFleb.
  destruct x as [sx|sx| |sx mx ex], y as [sy|sy| |sy my ey],
           z as [sz|sz| |sz mz ez];
    try destruct sx; try destruct sy; try destruct sz; simpl; intros H1 H2;
    try discriminate H1; try discriminate H2; try reflexivity; sf_order.
Qed.

Lemma SFleb_total (x y : spec_float) :
  x <> S754_nan -> y <> S754_nan -> SFleb x y = false -> SFleb y x = true.
Proof.
  unfold SFleb.
  destruct x as [sx|sx| |sx mx ex], y as [sy|sy| |sy my ey];
    try destruct sx; try destruct sy; simpl; intros Hx Hy H;
    try congruence; sf_order.
Qed.

Lemma SFleb_refl (x : spec_float) : x <> S754_nan -> SFleb x x = true.
Proof.
  unfold SFleb. destruct x as [s|[]| |[] m e]; simpl; intros H;
    try congruence; now rewrite Z.compare_refl, Pos.compare_cont_refl.
Qed.

Lemma SFleb_not_SFltb (x y : spec_float) :
  SFleb x y = true -> SFltb y x = false.
Proof.
  intros H. destruct (SFltb y x) eqn:E; [|reflexivity].
  apply SFltb_SFleb_false in E. congruence.
Qed.

(** NaN is the one number that is not equal to itself. *)
Lemma is_nan_spec (x : float) : is_nan x = true <-> Prim2SF x = S754_nan.
Proof.
  unfold is_nan. rewrite eqb_spec. unfold SFeqb.
  destruct (Prim2SF x) as [s|[]| |[] m e]; simpl;
    try rewrite Z.compare_refl, Pos.compare_cont_refl; simpl;
    split; congruence.
Qed.

Lemma not_nan_spec (x : float) : is_nan x = false <-> Prim2SF x <> S754_nan.
Proof.
  rewrite <- is_nan_spec. destruct (is_nan x); split; congruence.
Qed.

Lemma precedes_refl (x : float) : precedes x x = true.
Proof.
  unfold precedes, ge. destruct (is_nan x) eqn:E; [reflexivity|].
  rewrite leb_spec. now apply SFleb_refl, not_nan_spec.
Qed.

Lemma precedes_total (x y : float) :
  precedes x y = false -> precedes y x = true.
Proof.
  unfold precedes, ge.
  destruct (is_nan y) eqn:Ey; [discriminate|].
  destruct (is_nan x) eqn:Ex; [reflexivity|].
  rewrite !leb_spec. apply SFleb_total; now apply not_nan_spec.
Qed.

Lemma precedes_trans (x y z : float) :
  precedes x y = true -> precedes y z = true -> precedes x z = true.
Proof.
  unfold precedes, ge.
  destruct (is_nan z) eqn:Ez; [reflexivity|].
  destruct (is_nan y) eqn:Ey; [discriminate|].
  destruct (is_nan x) eqn:Ex; [discriminate|].
  rewrite !leb_spec. intros H1 H2. eapply SFleb_trans; eauto.
Qed.

(** What goes first is not exceeded by what follows. *)
Lemma precedes_not_gt (x y : float) : precedes x y = true -> gt y x = false.
Proof.
  unfold precedes, ge, gt. rewrite ltb_spec.
  destruct (is_nan y) eqn:Ey.
  - apply is_nan_spec in Ey. rewrite Ey. intros _.
    unfold SFltb. now destruct (Prim2SF x).
  - destruct (is_nan x); [discriminate|].
    rewrite leb_spec. apply SFleb_not_SFltb.
Qed.

Lemma In_insert_desc (x e : string * float) (l : list (string * float)) :
  In x (insert_desc e l) <-> x = e \/ In x l.
Proof.
  induction l as [|e' rest IH]; simpl; [intuition|].
  destruct (precedes (snd e) (snd e')); simpl; [intuition|].
  rewrite IH. intuition.
Qed.

Lemma In_sort_values_desc (x : string * float) (l : list (string * float)) :
  In x (sort_values_desc l) <-> In x l.
Proof.
  induction l as [|e rest IH]; simpl; [tauto|].
  unfold sort_values_desc in *. simpl. rewrite In_insert_desc, IH. intuition.
Qed.

(** The first entry of the sorted series precedes every entry. *)
Lemma sort_values_desc_head (l : list (string * float)) (h : string * float)
    (t : list (string * float)) :
  sort_values_desc l = h :: t ->
  forall x, In x l -> precedes (snd h) (snd x) = true.
Proof.
  revert h t. induction l as [|e rest IH]; intros h t; [discriminate|].
  unfold sort_values_desc in *. simpl.
  destruct (fold_right insert_desc [] rest) as [|h' t'] eqn:Hs.
  - simpl. intros E. injection E as <- <-.
    assert (rest = []) by (destruct rest; [reflexivity|];
      simpl in Hs; now apply AnalysisFacts.insert_desc_not_nil in Hs).
    subst rest. intros x [<-|[]]. apply precedes_refl.
  - simpl. destruct (precedes (snd e) (snd h')) eqn:Hp.
    + intros E. injection E as <- <-. intros x [<-|Hx].
      * apply precedes_refl.
      * eapply precedes_trans; [exact Hp|]. eapply IH; eauto.
    + intros E. injection E as <- <-. intros x [<-|Hx].
      * now apply precedes_total.
      * eapply IH; eauto.
Qed.

End OrderFacts.

(** ** More on strings: lower-casing and trimming twice *)

Module NormalFacts.

Import Str Spec StrFacts.

Lemma lower_char_space (c : ascii) : is_space (lower_char c) = is_space c.
Proof. destruct c as [[] [] [] [] [] [] [] []]; reflexivity. Qed.

Lemma lower_char_idem (c : ascii) : lower_char (lower_char c) = lower_char c.
Proof. destruct c as [[] [] [] [] [] [] [] []]; reflexivity. Qed.

Lemma lower_idem (s : string) : lower (lower s) = lower s.
Proof.
  induction s as [|c r IH]; simpl; [reflexivity|].
  now rewrite lower_char_idem, IH.
Qed.

Lemma all_space_lower (s : string) : all_space (lower s) = all_space s.
Proof.
  induction s as [|c r IH]; [reflexivity|].
  simpl lower. rewrite !all_space_cons, lower_char_space, IH. reflexivity.
Qed.

Lemma lower_lstrip (s : string) : lower (lstrip s) = lstrip (lower s).
Proof.
  induction s as [|c r IH]; [reflexivity|]. simpl.
  rewrite lower_char_space. destruct (is_space c); [exact IH|reflexivity].
Qed.

Lemma lower_rstrip (s : string) : lower (rstrip s) = rstrip (lower s).
Proof.
  induction s as [|c r IH]; [reflexivity|].
  simpl lower at 2. rewrite !rstrip_cons.
  change (String (lower_char c) (lower r)) with (lower (String c r)).
  rewrite all_space_lower. destruct (all_space (String c r)); [reflexivity|].
  simpl. now rewrite IH.
Qed.

Lemma lower_strip (s : string) : lower (strip s) = strip (lower s).
Proof. unfold strip. now rewrite lower_rstrip, lower_lstrip. Qed.

Lemma all_space_rstrip (s : string) : all_space (rstrip s) = all_space s.
Proof.
  induction s as [|c r IH]; [reflexivity|].
  rewrite rstrip_cons. destruct (all_space (String c r)) eqn:E; [reflexivity|].
  rewrite all_space_cons in *. rewrite IH. exact E.
Qed.

Lemma rstrip_idem (s : string) : rstrip (rstrip s) = rstrip s.
Proof.
  induction s as [|c r IH]; [reflexivity|].
  rewrite rstrip_cons. destruct (all_space (String c r)) eqn:E; [reflexivity|].
  rewrite rstrip_cons, all_space_cons, all_space_rstrip.
  rewrite all_space_cons in E. now rewrite E, IH.
Qed.

(** A string that does not start with white space. *)
Lemma lstrip_starts (s : string) :
  match lstrip s with
  | String c _ => is_space c = false
  | EmptyString => True
  end.
Proof.
  induction s as [|c r IH]; simpl; [exact I|].
  destruct (is_space c) eqn:E; [exact IH|exact E].
Qed.

Lemma lstrip_rstrip_lstrip (s : string) :
  lstrip (rstrip (lstrip s)) = rstrip (lstrip s).
Proof.
  pose proof (lstrip_starts s) as H.
  destruct (lstrip s) as [|c r]; [reflexivity|].
  rewrite rstrip_cons. destruct (all_space (String c r)); [reflexivity|].
  simpl. now rewrite H.
Qed.

Lemma strip_idem (s : string) : strip (strip s) = strip s.
Proof.
  unfold strip. now rewrite lstrip_rstrip_lstrip, rstrip_idem.
Qed.

(** The normal form of a text is its own normal form. *)
Lemma normalized_idem (s : string) : normalized (normalized s) = normalized s.
Proof.
  unfold normalized. now rewrite lower_strip, lower_idem, strip_idem.
Qed.

Lemma normalized_lower (s : string) : normalized (lower s) = normalized s.
Proof. unfold normalized. now rewrite lower_idem. Qed.

Lemma normalized_strip (s : string) : normalized (strip s) = normalized s.
Proof. unfold normalized. now rewrite lower_strip, strip_idem. Qed.

Lemma lower_normalized (s : string) : lower (normalized s) = normalized s.
Proof. unfold normalized. now rewrite lower_strip, lower_idem. Qed.

(** A text is blank exactly when its normal form is empty. *)
Lemma all_space_normalized (s : string) :
  all_space s = is_empty (normalized s).
Proof.
  unfold normalized. now rewrite is_empty_strip, all_space_lower.
Qed.

End NormalFacts.

(** ** More on the timeframe filter *)

Module FilterFacts.

Import Time Frame App Spec AppFacts.

(** The start of each window that has one. *)
Lemma bounded_window (now : datetime) (df : DataFrame) (tf : string) :
  In tf bounded_timeframes ->
  exists keep : option datetime -> bool,
    keep None = false /\
    filter_by_timeframe now df tf = filter (fun r => keep (date r)) df.
Proof.
  intros Htf.
  assert (Hf : forall p : row -> bool,
            (if empty df then df else filter p df) = filter p df)
    by (intros p; now destruct df).
  unfold filter_by_timeframe. simpl in Htf.
  destruct Htf as [<-|[<-|[<-|[<-|[]]]]]; simpl; rewrite Hf.
  - now exists (fun d => date_ge d (replace_day now 1)).
  - now exists (fun d =>
      date_ge d (replace_day (sub_months now 1) 1)
      && date_le d (month_end_0 (replace_day (sub_months now 1) 1))).
  - now exists (fun d => date_ge d (replace_day (sub_months now 3) 1)).
  - now exists (fun d => date_ge d (replace_month_day now 1 1)).
Qed.

Lemma other_timeframe (now : datetime) (df : DataFrame) (tf : string) :
  ~ In tf bounded_timeframes -> filter_by_timeframe now df tf = df.
Proof.
  intros Htf. unfold filter_by_timeframe.
  destruct (empty df); [reflexivity|].
  destruct (String.eqb_spec tf "This Month") as [->|_];
    [exfalso; apply Htf; simpl; tauto|].
  destruct (String.eqb_spec tf "Last Month") as [->|_];
    [exfalso; apply Htf; simpl; tauto|].
  destruct (String.eqb_spec tf "Last 3 Months") as [->|_];
    [exfalso; apply Htf; simpl; tauto|].
  destruct (String.eqb_spec tf "This Year") as [->|_];
    [exfalso; apply Htf; simpl; tauto|].
  destruct (tf =? "All Time")%string; reflexivity.
Qed.

Lemma filter_idem {A} (p : A -> bool) (l : list A) :
  filter p (filter p l) = filter p l.
Proof.
  induction l as [|x r IH]; simpl; [reflexivity|].
  destruct (p x) eqn:E; simpl; [rewrite E|]; congruence.
Qed.

(** Whatever the timeframe, the filter selects rows by their date alone. *)
Lemma selects_by_date (now : datetime) (df : DataFrame) (tf : string) :
  exists keep : option datetime -> bool,
    filter_by_timeframe now df tf = filter (fun r => keep (date r)) df.
Proof.
  destruct (in_dec string_dec tf bounded_timeframes) as [Hin|Hout].
  - destruct (bounded_window now df tf Hin) as (keep & _ & E). eauto.
  - exists (fun _ => true). rewrite (other_timeframe now df tf Hout).
    induction df as [|x r IH]; simpl; congruence.
Qed.

End FilterFacts.

(** ** More on the analyser *)

Module AnalysisMore.

Import Time Frame Analysis App Spec AnalysisFacts OrderFacts.

Local Open Scope float_scope.

(** *** Groups *)

Lemma In_insert_key (x k : string) (keys : list string) :
  In x (insert_key k keys) <-> x = k \/ In x keys.
Proof.
  induction keys as [|k' rest IH]; simpl; [intuition|].
  destruct (String.compare k k') eqn:E; simpl.
  - apply String.compare_eq_iff in E. subst k'. intuition.
  - intuition.
  - rewrite IH. intuition.
Qed.

(** The keys of the groups are the categories of the rows. *)
Lemma In_group_keys (k : string) (df : DataFrame) :
  In k (group_keys df) <-> exists r, In r df /\ category r = Some k.
Proof.
  induction df as [|x rest IH]; simpl.
  - split; [tauto|]. now intros (r & [] & _).
  - destruct (category x) as [kx|] eqn:Ex.
    + rewrite In_insert_key, IH. split.
      * intros [->|(r & Hr & Hk)]; [exists x|exists r]; auto.
      * intros (r & [<-|Hr] & Hk); [left; congruence|right; eauto].
    + rewrite IH. split.
      * intros (r & Hr & Hk). eauto.
      * intros (r & [<-|Hr] & Hk); [congruence|eauto].
Qed.

Lemma In_groupby_sum (k : string) (v : float) (df : DataFrame) :
  In (k, v) (groupby_sum df) ->
  (exists r, In r df /\ category r = Some k) /\
  v = Num.series_sum (map amount (filter (in_group k) df)).
Proof.
  unfold groupby_sum. rewrite in_map_iff. intros (k' & E & Hk).
  injection E as -> <-. split; [now apply In_group_keys|reflexivity].
Qed.

(** *** The analysis depends on the amounts and categories only *)

Lemma group_keys_ext (df1 df2 : DataFrame) :
  map category df1 = map category df2 -> group_keys df1 = group_keys df2.
Proof.
  revert df2; induction df1 as [|x r IH]; intros [|y r']; simpl;
    try discriminate; [reflexivity|].
  intros E. injection E as -> E. now rewrite (IH _ E).
Qed.

Lemma group_amounts_ext (k : string) (df1 df2 : DataFrame) :
  map (fun r => (amount r, category r)) df1
  = map (fun r => (amount r, category r)) df2 ->
  map amount (filter (in_group k) df1) = map amount (filter (in_group k) df2).
Proof.
  revert df2; induction df1 as [|x r IH]; intros [|y r']; simpl;
    try discriminate; [reflexivity|].
  intros E. injection E as Ea Ec E.
  assert (Eg : in_group k x = in_group k y) by (unfold in_group; now rewrite Ec).
  rewrite Eg. destruct (in_group k y); simpl; [rewrite Ea; f_equal|];
    now apply IH.
Qed.

Lemma columns_ext (df1 df2 : DataFrame) :
  map (fun r => (amount r, category r)) df1
  = map (fun r => (amount r, category r)) df2 ->
  map amount df1 = map amount df2 /\ map category df1 = map category df2 /\
  List.length df1 = List.length df2.
Proof.
  intros E. repeat split.
  - apply (f_equal (map fst)) in E. now rewrite !map_map in E.
  - apply (f_equal (map snd)) in E. now rewrite !map_map in E.
  - apply (f_equal (@List.length _)) in E. now rewrite !length_map in E.
Qed.

Lemma groupby_sum_ext (df1 df2 : DataFrame) :
  map (fun r => (amount r, category r)) df1
  = map (fun r => (amount r, category r)) df2 ->
  groupby_sum df1 = groupby_sum df2.
Proof.
  intros E. destruct (columns_ext _ _ E) as (_ & Ec & _).
  unfold groupby_sum. rewrite (group_keys_ext _ _ Ec).
  apply map_ext. intros k. now rewrite (group_amounts_ext k _ _ E).
Qed.

Section Columns.

Variables (f_amount : amount_cell -> float)
          (f_date : nat -> option datetime)
          (f_category : option string -> option string).

Lemma assign_columns_columns i rows :
  map (fun r => (amount r, category r))
      (assign_columns f_amount f_date f_category i rows)
  = map (fun raw => (f_amount (raw_amount raw), f_category (raw_category raw)))
        rows.
Proof.
  revert i; induction rows as [|x rest IH]; intros i; simpl; [reflexivity|].
  now rewrite IH.
Qed.

Lemma assign_columns_ids i rows :
  map id (assign_columns f_amount f_date f_category i rows) = map raw_id rows.
Proof.
  revert i; induction rows as [|x rest IH]; intros i; simpl; [reflexivity|].
  now rewrite IH.
Qed.

End Columns.

(** *** The illustration *)

Lemma load_awareness_filename_cases (dir : string) (path_exists : string -> bool)
    (category : string) :
  let path := load_awareness_filename dir path_exists category in
  path = path_join dir "default.png" \/
  (path_exists path = true /\ In (Str.lower category) categories /\
   path = path_join dir (Str.lower category ++ ".png")).
Proof.
  unfold load_awareness_filename. cbv zeta. cbn [dict_get].
  destruct (String.eqb_spec "food" (Str.lower category)) as [<-|_];
    [|destruct (String.eqb_spec "shopping" (Str.lower category)) as [<-|_];
      [|destruct (String.eqb_spec "travel" (Str.lower category)) as [<-|_];
        [|destruct (String.eqb_spec "bills" (Str.lower category)) as [<-|_]]]];
    match goal with
    | |- context [if path_exists ?p then _ else _] =>
        destruct (path_exists p) eqn:E
    end; auto;
    right; (split; [exact E|]); (split; [simpl; tauto|reflexivity]).
Qed.

Section Environment.

Variable str_to_numeric : string -> option float.
Variable column_to_datetime : list date_cell -> nat -> option datetime.

Abbreviation rows_to_df := (rows_to_df str_to_numeric column_to_datetime).
Abbreviation table_total := (table_total str_to_numeric column_to_datetime).

Lemma rows_to_df_columns rows :
  map (fun r => (amount r, category r)) (rows_to_df rows)
  = map (fun raw =>
           (Num.fillna0 (to_numeric str_to_numeric (raw_amount raw)),
            str_strip (str_lower (fillna_empty (raw_category raw)))))
        rows.
Proof.
  destruct rows as [|x rest]; [reflexivity|].
  unfold Analysis.rows_to_df. apply assign_columns_columns.
Qed.

(** A category of the normalised table is in normal form. *)
Lemma rows_to_df_category_normal rows r k :
  In r (rows_to_df rows) -> category r = Some k -> Str.lower k = k.
Proof.
  intros Hr Hk.
  apply (rows_to_df_In str_to_numeric column_to_datetime) in Hr.
  destruct Hr as (raw & _ & _ & Hc & _). rewrite Hc in Hk.
  destruct (raw_category raw) as [s|]; simpl in Hk; injection Hk as <-;
    [apply NormalFacts.lower_normalized|reflexivity].
Qed.

Variable AWARENESS_DIR : string.
Variable path_exists : string -> bool.

Abbreviation analyze_spending :=
  (analyze_spending AWARENESS_DIR path_exists str_to_numeric column_to_datetime).

(** The three ways the analyser ends. *)
Lemma analyze_spending_cases rows timeframe :
  let default_image := path_join AWARENESS_DIR "default.png" in
  let n := Z.of_nat (List.length rows) in
  (rows = [] /\
   analyze_spending rows timeframe
   = Returned (mk_analysis "No expenses yet." None 0 0 0 default_image)) \/
  (rows <> [] /\ Num.le (table_total rows) 0 = true /\
   analyze_spending rows timeframe
   = Returned (mk_analysis "No expenses added in this timeframe." None 0
                           (table_total rows) n default_image)) \/
  (rows <> [] /\ Num.le (table_total rows) 0 = false /\
   exists top top_amt others severity,
     sort_values_desc (groupby_sum (rows_to_df rows)) = (top, top_amt) :: others /\
     analyze_spending rows timeframe
     = Returned (mk_analysis (Str.join newline [severity; tip_line top])
                             (Some top) (top_amt / table_total rows * 100)
                             (table_total rows) n
                             (load_awareness_filename AWARENESS_DIR path_exists top))).
Proof.
  cbv zeta. unfold Analysis.analyze_spending, Spec.table_total.
  destruct (empty (rows_to_df rows)) eqn:He.
  { left. apply empty_rows_to_df in He. auto. }
  assert (Hne : rows <> []) by (intros ->; discriminate He).
  rewrite rows_to_df_length. right.
  destruct (Num.le _ 0) eqn:Hle; [left; auto|]. right.
  split; [exact Hne|]. split; [reflexivity|].
  destruct (sort_values_desc (groupby_sum (rows_to_df rows)))
    as [|[top top_amt] others] eqn:Hsort.
  { exfalso. now apply (cat_totals_not_nil str_to_numeric column_to_datetime rows). }
  exists top, top_amt, others. eexists. split; reflexivity.
Qed.



(** X3: the illustration of an analysis is the default one, or a file that
    exists and is named after the top category, one of the four known
    ones. *)
Theorem analyze_spending_image (rows : list raw_row) (timeframe : string)
    (res : analysis) :
  analyze_spending rows timeframe = Returned res ->
  image_path res = path_join AWARENESS_DIR "default.png" \/
  (path_exists (image_path res) = true /\
   exists top, top_category res = Some top /\ In top categories /\
               image_path res = path_join AWARENESS_DIR (top ++ ".png")).
Proof.
  intros Hres.
  destruct (analyze_spending_cases rows timeframe)
    as [[_ E]|[(_ & _ & E)|(_ & _ & top & top_amt & others & sev & Hsort & E)]];
    rewrite E in Hres; injection Hres as <-; simpl; auto.
  assert (Hin : In (top, top_amt) (groupby_sum (rows_to_df rows))).
  { apply In_sort_values_desc. rewrite Hsort. now left. }
  destruct (In_groupby_sum _ _ _ Hin) as [(r & Hr & Hk) _].
  pose proof (rows_to_df_category_normal rows r top Hr Hk) as Hnormal.
  destruct (load_awareness_filename_cases AWARENESS_DIR path_exists top)
    as [Hd|(He & Hc & Hp)]; [now left|right].
  rewrite Hnormal in Hc, Hp. split; [exact He|]. exists top. auto.
Qed.

(** Two row sets whose normalised amounts and categories agree get the same
    analysis. *)
Lemma analyze_spending_same_columns rows1 rows2 timeframe :
  map (fun r => (amount r, category r)) (rows_to_df rows1)
  = map (fun r => (amount r, category r)) (rows_to_df rows2) ->
  analyze_spending rows1 timeframe = analyze_spending rows2 timeframe.
Proof.
  intros E. unfold Analysis.analyze_spending.
  destruct (columns_ext _ _ E) as (Ea & _ & El).
  rewrite (groupby_sum_ext _ _ E), Ea, El.
  assert (Hempty : empty (rows_to_df rows1) = empty (rows_to_df rows2))
    by (destruct (rows_to_df rows1), (rows_to_df rows2); try discriminate El;
        reflexivity).
  now rewrite Hempty.
Qed.

Variable column_to_datetime_mixed : list date_cell -> nat -> option datetime.

Abbreviation df_from_rows := (df_from_rows str_to_numeric column_to_datetime_mixed).
Abbreviation page_analysis :=
  (Page.analysis AWARENESS_DIR path_exists str_to_numeric column_to_datetime
                 column_to_datetime_mixed).

Lemma df_from_rows_columns rows :
  map (fun r => (amount r, category r)) (df_from_rows rows)
  = map (fun raw =>
           (to_numeric str_to_numeric (raw_amount raw),
            str_strip (str_lower (raw_category raw))))
        rows.
Proof.
  destruct rows as [|x rest]; [reflexivity|].
  unfold App.df_from_rows. apply assign_columns_columns.
Qed.

Lemma df_from_rows_length rows :
  List.length (df_from_rows rows) = List.length rows.
Proof.
  destruct rows as [|x rest]; [reflexivity|].
  unfold App.df_from_rows. apply assign_columns_length.
Qed.

(** Normalising the records of a table of the page gives the columns the
    analyser's own normaliser gives on the stored rows. *)
Lemma renormalized_columns rows :
  map (fun r => (amount r, category r))
      (rows_to_df (Page.to_records (df_from_rows rows)))
  = map (fun r => (amount r, category r)) (rows_to_df rows).
Proof.
  rewrite !rows_to_df_columns. unfold Page.to_records. rewrite map_map.
  cbn [raw_amount raw_category].
  change (fun x : row => (Num.fillna0 (to_numeric str_to_numeric (ANum (amount x))),
                          str_strip (str_lower (fillna_empty (category x)))))
    with (fun x : row => (fun p : float * option string =>
            (Num.fillna0 (fst p), str_strip (str_lower (fillna_empty (snd p)))))
            (amount x, category x)).
  rewrite <- (map_map (fun r => (amount r, category r))).
  rewrite df_from_rows_columns, map_map. apply map_ext. intros raw. simpl.
  f_equal. destruct (raw_category raw) as [c|]; simpl; [|reflexivity].
  f_equal. apply NormalFacts.normalized_idem.
Qed.

(** X5: under "All Time", and under any timeframe name the filter does not
    know, the summary of the page is the analysis of the stored rows:
    normalising them a second time changes nothing the analyser reads. *)
Theorem page_analysis_unfiltered (now : datetime) (rows : list raw_row)
    (timeframe : string) :
  ~ In timeframe bounded_timeframes ->
  page_analysis now rows timeframe = analyze_spending rows timeframe.
Proof.
  intros Htf. unfold Page.analysis.
  rewrite (FilterFacts.other_timeframe now _ timeframe Htf).
  apply analyze_spending_same_columns, renormalized_columns.
Qed.

(** X6: the summary of the page is returned for every timeframe, and counts
    the rows the filter keeps, never more than are stored. *)
Theorem page_analysis_returns (now : datetime) (rows : list raw_row)
    (timeframe : string) :
  exists res,
    page_analysis now rows timeframe = Returned res /\
    count res
    = Z.of_nat (List.length (filter_by_timeframe now (df_from_rows rows) timeframe)) /\
    (count res <= Z.of_nat (List.length rows))%Z.
Proof.
  unfold Page.analysis.
  set (kept := filter_by_timeframe now (df_from_rows rows) timeframe).
  assert (Hlen : (List.length kept <= List.length rows)%nat).
  { unfold kept.
    destruct (FilterFacts.selects_by_date now (df_from_rows rows) timeframe)
      as [keep ->].
    rewrite <- (df_from_rows_length rows). apply filter_length_le. }
  assert (Hrec : List.length (Page.to_records kept) = List.length kept)
    by apply length_map.
  destruct (analyze_spending_cases (Page.to_records kept) timeframe)
    as [[Hnil E]|[(_ & _ & E)|(_ & _ & top & top_amt & others & sev & _ & E)]];
    rewrite E; eexists; (split; [reflexivity|]); cbn [count];
    try rewrite Hrec; try (split; [reflexivity|lia]).
  rewrite Hnil in Hrec. simpl in Hrec. rewrite <- Hrec. simpl. split; lia.
Qed.

End Environment.



Lemma analyze_spending_image_witness :
  image_path Examples.food_and_shopping_analysis
  = path_join Demo.awareness_dir "default.png" \/
  (Demo.every_file_exists (image_path Examples.food_and_shopping_analysis) = true /\
   exists top,
     top_category Examples.food_and_shopping_analysis = Some top /\
     In top categories /\
     image_path Examples.food_and_shopping_analysis
     = path_join Demo.awareness_dir (top ++ ".png")).
Proof.
  apply (analyze_spending_image
           Demo.numeric_of_text Demo.datetime_of_text
           Demo.awareness_dir Demo.every_file_exists
           Demo.food_and_shopping "This Month"
           Examples.food_and_shopping_analysis).
  vm_compute; reflexivity.
Defined.

Lemma page_analysis_unfiltered_witness :
  Page.analysis Demo.awareness_dir Demo.every_file_exists
    Demo.numeric_of_text Demo.datetime_of_text Demo.datetime_of_text
    Demo.clock Demo.food_and_shopping "All Time"
  = Analysis.analyze_spending Demo.awareness_dir Demo.every_file_exists
      Demo.numeric_of_text Demo.datetime_of_text
      Demo.food_and_shopping "All Time".
Proof.
  apply (page_analysis_unfiltered
           Demo.numeric_of_text Demo.datetime_of_text
           Demo.awareness_dir Demo.every_file_exists Demo.datetime_of_text
           Demo.clock Demo.food_and_shopping "All Time").
  unfold bounded_timeframes. simpl. intuition discriminate.
Defined.

End AnalysisMore.

(** ** More on the parser *)

Module ParserMore.

Import Str Time Analysis Spec StrFacts ParserFacts NormalFacts.

(** *** The first vocabulary word wins *)

Lemma detect_category_first (cs : list string) (t c : string) :
  detect_category cs t = Some c ->
  exists before after,
    cs = (before ++ c :: after)%list /\ occurs c t /\
    forall k, In k before -> ~ occurs k t.
Proof.
  induction cs as [|k rest IH]; simpl; [discriminate|].
  destruct (contains k t) eqn:Hk.
  - intros E. injection E as <-. exists [], rest.
    split; [reflexivity|]. split; [now apply contains_occurs|]. intros ? [].
  - intros E. destruct (IH E) as (before & after & -> & Hc & Hb).
    exists (k :: before), after. split; [reflexivity|]. split; [exact Hc|].
    intros k' [<-|Hk']; [now apply contains_false|auto].
Qed.

(** *** The first number wins, as long as it goes *)

Lemma search_amount_split (s m : string) :
  search_amount s = Some m ->
  exists pre c r,
    s = pre ++ String c r /\ all (fun x => negb (is_digit x)) pre = true /\
    is_digit c = true /\ m = amount_at (String c r).
Proof.
  induction s as [|a r IH]; simpl; [discriminate|].
  destruct (is_digit a) eqn:Ha.
  - intros E. injection E as <-. exists "", a, r. auto.
  - intros E. destruct (IH E) as (pre & c & r' & -> & Hpre & Hc & ->).
    exists (String a pre), c, r'. simpl. rewrite Ha. auto.
Qed.

Lemma digit_prefix_length (x y : string) :
  all_digits x = true ->
  (String.length x <= String.length (fst (span_digits (x ++ y))))%nat.
Proof.
  intros H. rewrite (span_digits_append x y H). simpl.
  rewrite length_append. lia.
Qed.

Lemma digit_run (x y : string) (d : ascii) :
  all_digits x = true -> is_digit d = false ->
  span_digits (x ++ String d y) = (x, String d y).
Proof.
  intros Hx Hd. rewrite (span_digits_append x _ Hx), span_digits_cons, Hd.
  simpl. now rewrite append_nil_r.
Qed.

Lemma amount_at_length (s : string) :
  (String.length (fst (span_digits s)) <= String.length (amount_at s))%nat.
Proof.
  unfold amount_at. destruct (span_digits s) as [ip r1]. simpl.
  destruct r1 as [|c r2]; [lia|].
  destruct (Ascii.eqb c "."); [|lia].
  destruct (span_digits r2) as [fp r3].
  destruct (is_empty fp); [lia|]. rewrite length_append. lia.
Qed.

(** No match of the pattern that starts where the parser's match starts
    is longer. *)
Lemma amount_at_greedy (s m' post' : string) :
  amount_pattern m' -> s = m' ++ post' ->
  (String.length m' <= String.length (amount_at s))%nat.
Proof.
  intros [[_ Hall]|(ip & fp & [_ Hip] & [Hne Hfp] & ->)] ->.
  - pose proof (digit_prefix_length m' post' Hall).
    pose proof (amount_at_length (m' ++ post')). lia.
  - rewrite !append_assoc. change ("." ++ fp ++ post') with (String "." (fp ++ post')).
    unfold amount_at. rewrite (digit_run ip _ "." Hip eq_refl).
    simpl Ascii.eqb. cbv iota.
    pose proof (digit_prefix_length fp post' Hfp) as Hlen.
    destruct (span_digits (fp ++ post')) as [fp2 r3]. simpl in Hlen.
    destruct fp2 as [|c2 f2]; simpl is_empty; cbv iota.
    + destruct fp; [congruence|simpl in Hlen; lia].
    + rewrite !length_append. simpl in *. lia.
Qed.

(** *** The parser *)

(** X7: the parser reads its text through the lower-cased, trimmed form only:
    two texts with the same normal form are parsed alike, so neither the
    case of the letters nor white space around the text matters. *)
Theorem parse_nl_expense_normal_form (now : datetime) (text1 text2 : string) :
  normalized text1 = normalized text2 ->
  parse_nl_expense now text1 = parse_nl_expense now text2.
Proof.
  intros E. unfold parse_nl_expense.
  rewrite !empty_or_blank, !all_space_normalized.
  change (strip (lower text1)) with (normalized text1).
  change (strip (lower text2)) with (normalized text2).
  now rewrite E.
Qed.

Lemma parse_nl_expense_normal_form_witness :
  normalized "  200 FOOD Today " = normalized "200 food today" /\
  parse_nl_expense Demo.clock "  200 FOOD Today "
  = parse_nl_expense Demo.clock "200 food today".
Proof.
  split; [reflexivity|].
  apply (parse_nl_expense_normal_form Demo.clock "  200 FOOD Today " "200 food today").
  reflexivity.
Defined.

(** X8: the category of a parsed expense is the first word of the vocabulary,
    in the order food, shopping, travel, bills, that occurs in the
    lower-cased text: no word before it in that order occurs. *)
Theorem parse_nl_expense_category_priority (now : datetime) (text : string)
    (a : float) (c : string) (d : datetime) :
  parse_nl_expense now text = Returned (Some (a, c, d)) ->
  exists before after,
    categories = (before ++ c :: after)%list /\
    occurs c (lower text) /\
    forall k, In k before -> ~ occurs k (lower text).
Proof.
  intros H. apply parse_nl_expense_parts in H. cbv zeta in H.
  destruct H as (_ & Hc & _).
  destruct (detect_category_first _ _ _ Hc) as (before & after & E & Ho & Hb).
  exists before, after. split; [exact E|].
  assert (Hin : forall k, In k (before ++ c :: after)%list -> In k categories)
    by (intros k Hk; now rewrite E).
  split.
  - apply category_occurs_normalized; [|exact Ho].
    apply Hin, in_or_app. right. now left.
  - intros k Hk Hocc. apply (Hb k Hk).
    apply category_occurs_normalized; [|exact Hocc].
    apply Hin, in_or_app. now left.
Qed.

Lemma parse_nl_expense_category_priority_witness :
  parse_nl_expense Demo.clock "40 travel food"
  = Returned (Some (40%float, "food", Demo.clock)) /\
  exists before after,
    categories = (before ++ "food" :: after)%list /\
    occurs "food" (lower "40 travel food") /\
    forall k, In k before -> ~ occurs k (lower "40 travel food").
Proof.
  split; [vm_compute; reflexivity|].
  apply (parse_nl_expense_category_priority Demo.clock "40 travel food"
           40%float "food" Demo.clock).
  vm_compute. reflexivity.
Defined.



End ParserMore.

(** ** More on the windows of the filter *)

Module WindowFacts.

Import Time Frame App Spec AppFacts FilterFacts.

Lemma leb_trans (a b c : datetime) :
  leb a b = true -> leb b c = true -> leb a c = true.
Proof. rewrite !leb_fields. lia. Qed.

Lemma last_3_months_keeps now df r :
  In r (filter_by_timeframe now df "Last 3 Months") <->
  In r df /\ date_ge (date r) (replace_day (sub_months now 3) 1) = true.
Proof.
  unfold filter_by_timeframe. simpl.
  destruct df as [|x rest]; simpl empty; cbv iota.
  - simpl; tauto.
  - apply filter_In.
Qed.

Lemma this_year_keeps now df r :
  In r (filter_by_timeframe now df "This Year") <->
  In r df /\ date_ge (date r) (replace_month_day now 1 1) = true.
Proof.
  unfold filter_by_timeframe. simpl.
  destruct df as [|x rest]; simpl empty; cbv iota.
  - simpl; tauto.
  - apply filter_In.
Qed.

(** Months counted from year 0: going back [n] months takes [n] off. *)
Lemma sub_months_index (t : datetime) (n : Z) :
  year (sub_months t n) * 12 + (month (sub_months t n) - 1)
  = year t * 12 + (month t - 1) - n /\
  1 <= month (sub_months t n) <= 12.
Proof.
  unfold sub_months. simpl. Z.to_euclidean_division_equations. lia.
Qed.

Lemma date_ge_trans (d : option datetime) (a b : datetime) :
  leb a b = true -> date_ge d b = true -> date_ge d a = true.
Proof.
  destruct d as [t|]; simpl; [|auto]. intros H1 H2. eapply leb_trans; eauto.
Qed.

(** X10: the windows are nested: whatever "This Month" keeps, "This Year" and
    "Last 3 Months" keep too; whatever "Last Month" keeps, "Last 3 Months"
    keeps too; and no row is kept by both "This Month" and "Last
    Month". *)
Theorem filter_by_timeframe_nested (now : datetime) (df : DataFrame) (r : row) :
  valid now = true ->
  (In r (filter_by_timeframe now df "This Month") ->
   In r (filter_by_timeframe now df "This Year") /\
   In r (filter_by_timeframe now df "Last 3 Months")) /\
  (In r (filter_by_timeframe now df "Last Month") ->
   In r (filter_by_timeframe now df "Last 3 Months")) /\
  ~ (In r (filter_by_timeframe now df "This Month") /\
     In r (filter_by_timeframe now df "Last Month")).
Proof.
  intros Hv. apply valid_fields in Hv. destruct Hv as (_ & Hm & _ & _).
  destruct (sub_months_index now 1) as [H1 M1].
  destruct (sub_months_index now 3) as [H3 M3].
  rewrite this_month_keeps, last_month_keeps, this_year_keeps,
    last_3_months_keeps.
  unfold replace_day, replace_month_day. rewrite month_end_0_first.
  revert H1 M1 H3 M3.
  generalize (sub_months now 1) (sub_months now 3). intros p1 p3 H1 M1 H3 M3.
  repeat split.
  - tauto.
  - destruct H as [_ H]. revert H. apply date_ge_trans.
    apply leb_fields. simpl. lia.
  - tauto.
  - destruct H as [_ H]. revert H. apply date_ge_trans.
    apply leb_fields. simpl. lia.
  - tauto.
  - destruct H as (_ & H & _). revert H. apply date_ge_trans.
    apply leb_fields. simpl. lia.
  - intros [[_ Hthis] (_ & _ & Hlast)].
    destruct (date r) as [d|]; [|discriminate Hthis]. simpl in Hthis, Hlast.
    apply leb_fields in Hthis, Hlast. simpl in Hthis, Hlast. lia.
Qed.

Lemma filter_by_timeframe_nested_witness :
  valid Demo.clock = true /\
  (In Demo.christmas (filter_by_timeframe Demo.clock Demo.expenses "This Month") ->
   In Demo.christmas (filter_by_timeframe Demo.clock Demo.expenses "This Year") /\
   In Demo.christmas (filter_by_timeframe Demo.clock Demo.expenses "Last 3 Months")).
Proof.
  split; [reflexivity|].
  exact (proj1 (filter_by_timeframe_nested
                  Demo.clock Demo.expenses Demo.christmas eq_refl)).
Defined.

(** X11: whatever the timeframe, the filter returns the rows of the table that
    pass a test on their date, in their order, and filtering its result
    again changes nothing. *)
Theorem filter_by_timeframe_selects (now : datetime) (df : DataFrame)
    (timeframe : string) :
  (exists keep : option datetime -> bool,
     filter_by_timeframe now df timeframe = filter (fun r => keep (date r)) df) /\
  filter_by_timeframe now (filter_by_timeframe now df timeframe) timeframe
  = filter_by_timeframe now df timeframe.
Proof.
  split; [apply selects_by_date|].
  destruct (in_dec string_dec timeframe bounded_timeframes) as [Hin|Hout].
  - destruct (bounded_window now df timeframe Hin) as (keep & _ & E).
    destruct (bounded_window now (filter_by_timeframe now df timeframe)
                timeframe Hin) as (keep' & _ & E').
    unfold filter_by_timeframe in *. simpl in Hin.
    destruct Hin as [<-|[<-|[<-|[<-|[]]]]]; simpl;
      (destruct df as [|x rest]; [reflexivity|]);
      change (empty (x :: rest)) with false; cbv iota;
      match goal with
      | |- (if empty ?l then _ else _) = _ => destruct l eqn:El; [reflexivity|]
      end; change (empty (_ :: _)) with false; cbv iota;
      rewrite <- El; apply filter_idem.
  - now rewrite !(other_timeframe now _ timeframe Hout).
Qed.

(** X12: a timeframe name that is none of the four windows, "All Time"
    included, leaves the table as it is. *)
Theorem filter_by_timeframe_unknown (now : datetime) (df : DataFrame)
    (timeframe : string) :
  timeframe <> "This Month" -> timeframe <> "Last Month" ->
  timeframe <> "Last 3 Months" -> timeframe <> "This Year" ->
  filter_by_timeframe now df timeframe = df.
Proof.
  intros H1 H2 H3 H4. unfold filter_by_timeframe.
  apply String.eqb_neq in H1, H2, H3, H4. rewrite H1, H2, H3, H4.
  destruct (empty df); [reflexivity|].
  destruct (timeframe =? "All Time")%string; reflexivity.
Qed.

Lemma filter_by_timeframe_unknown_witness :
  filter_by_timeframe Demo.clock Demo.expenses "Last Week" = Demo.expenses.
Proof.
  apply (filter_by_timeframe_unknown Demo.clock Demo.expenses "Last Week");
    discriminate.
Defined.

End WindowFacts.

(** ** The store *)

Module DbFacts.

Import Frame Db.

Local Open Scope float_scope.

Lemma largest_rowid_bounds (rows : list expense) :
  (0 <= largest_rowid rows)%Z /\
  forall e, In e rows -> (id e <= largest_rowid rows)%Z.
Proof.
  induction rows as [|x rest [IH0 IH]]; simpl; [split; [lia|tauto]|].
  split; [lia|]. intros e [<-|He]; [lia|]. specialize (IH e He). lia.
Qed.

Lemma largest_rowid_app (l l' : list expense) :
  largest_rowid (l ++ l') = Z.max (largest_rowid l) (largest_rowid l').
Proof.
  destruct (largest_rowid_bounds l') as [H0 _].
  induction l as [|x r IH]; simpl; [lia|]. rewrite IH. lia.
Qed.

Lemma largest_ever_bounds (t : tables) :
  (0 <= largest_ever t)%Z /\
  (forall e, In e (expenses t) -> (id e <= largest_ever t)%Z) /\
  (forall s, sequence t = Some s -> (s <= largest_ever t)%Z).
Proof.
  unfold largest_ever.
  destruct (largest_rowid_bounds (expenses t)) as [H0 H].
  repeat split; [lia| |].
  - intros e He. specialize (H e He). lia.
  - intros s ->. lia.
Qed.

(** What a successful insertion does. *)
Lemma add_expense_ok (db db' : database) (a : float) (c d : string) :
  add_expense db a c d = Ok db' ->
  exists t,
    db = Some t /\ largest_ever t <> max_rowid /\ is_nan a = false /\
    db' = Some (mk_tables
                  (expenses t ++ [mk_expense (largest_ever t + 1) (real a) c d])
                  (Some (largest_ever t + 1)%Z)).
Proof.
  unfold add_expense. destruct db as [t|]; [|discriminate].
  destruct (Z.eqb_spec (largest_ever t) max_rowid) as [|Hmax]; [discriminate|].
  destruct (is_nan a) eqn:Ha; [discriminate|].
  intros E. injection E as <-. exists t. auto.
Qed.

Lemma real_not_nan (a : float) : is_nan a = false -> is_nan (real a) = false.
Proof. unfold real. intros H. destruct (a =? 0); [reflexivity|exact H]. Qed.

(** What holds of every table the program can come to hold. *)
Lemma reachable_tables (db : database) :
  reachable db ->
  forall t, db = Some t ->
    NoDup (map id (expenses t)) /\
    (largest_ever t <= max_rowid)%Z /\
    (forall e, In e (expenses t) ->
       (1 <= id e)%Z /\ is_nan (amount e) = false /\
       exists s, sequence t = Some s /\ (id e <= s)%Z).
Proof.
  induction 1 as [|db Hr IH|db a c d db' Hr IH Hadd|db db' Hr IH Hclear].
  - discriminate.
  - intros t. destruct db as [t0|]; simpl.
    + intros E. injection E as <-. now apply IH.
    + intros E. injection E as <-. simpl. repeat split.
      * constructor.
      * vm_compute. discriminate.
      * contradiction.
      * contradiction.
      * contradiction.
  - intros t' E. apply add_expense_ok in Hadd.
    destruct Hadd as (t & -> & Hmax & Ha & ->). injection E as <-.
    destruct (IH t eq_refl) as (Hnd & Hle & Hrows).
    destruct (largest_ever_bounds t) as (H0 & Hids & _).
    simpl. repeat split.
    + rewrite map_app. simpl. apply NoDup_app; [exact Hnd|repeat constructor; tauto|].
      intros x Hx [<-|[]]. apply in_map_iff in Hx.
      destruct Hx as (e & Ee & He). specialize (Hids e He). lia.
    + unfold largest_ever. simpl. rewrite largest_rowid_app. simpl.
      unfold largest_ever in *. lia.
    + apply in_app_or in H. destruct H as [He|[<-|[]]].
      * specialize (Hrows _ He). tauto.
      * simpl. lia.
    + apply in_app_or in H. destruct H as [He|[<-|[]]].
      * specialize (Hrows _ He). tauto.
      * simpl. now apply real_not_nan.
    + apply in_app_or in H. destruct H as [He|[<-|[]]].
      * exists (largest_ever t + 1)%Z. split; [reflexivity|].
        specialize (Hids e He). lia.
      * exists (largest_ever t + 1)%Z. simpl. split; [reflexivity|lia].
  - intros t E. destruct db as [t0|]; [|discriminate]. simpl in Hclear.
    injection Hclear as <-. injection E as <-. simpl. repeat split.
    + constructor.
    + vm_compute. discriminate.
    + contradiction.
    + contradiction.
    + contradiction.
Qed.

(** *** The order of the rows read *)

Lemma insert_by_date_perm (e : expense) (l : list expense) :
  Permutation (insert_by_date e l) (e :: l).
Proof.
  induction l as [|x r IH]; simpl; [reflexivity|].
  destruct (String.leb (date x) (date e)); [reflexivity|].
  rewrite IH. apply perm_swap.
Qed.

Lemma order_by_date_desc_perm (l : list expense) :
  Permutation (order_by_date_desc l) l.
Proof.
  induction l as [|x r IH]; simpl; [reflexivity|].
  unfold order_by_date_desc in *. simpl.
  rewrite insert_by_date_perm. now constructor.
Qed.

Lemma insert_by_date_sorted (e : expense) (l : list expense) :
  Sorted (fun e1 e2 => String.leb (date e2) (date e1) = true) l ->
  Sorted (fun e1 e2 => String.leb (date e2) (date e1) = true)
         (insert_by_date e l).
Proof.
  induction l as [|x r IH]; simpl; intros Hs.
  - repeat constructor.
  - destruct (String.leb (date x) (date e)) eqn:E.
    + constructor; [exact Hs|]. now constructor.
    + inversion Hs as [|? ? Hr Hhd]; subst. constructor; [now apply IH|].
      destruct r as [|y r']; simpl.
      * constructor. destruct (String.leb_total (date e) (date x)); congruence.
      * destruct (String.leb (date y) (date e)).
        -- constructor. destruct (String.leb_total (date e) (date x)); congruence.
        -- inversion Hhd; subst. now constructor.
Qed.

Lemma order_by_date_desc_sorted (l : list expense) :
  Sorted (fun e1 e2 => String.leb (date e2) (date e1) = true)
         (order_by_date_desc l).
Proof.
  induction l as [|x r IH]; simpl; [constructor|].
  unfold order_by_date_desc in *. simpl. now apply insert_by_date_sorted.
Qed.

(** *** The operations *)

(** X13: the rows of every table the program can come to hold have distinct
    ids, from 1 up, and amounts that are numbers. *)
Theorem reachable_ids_and_amounts (db : database) (t : tables) :
  reachable db -> db = Some t ->
  NoDup (map id (expenses t)) /\
  forall e, In e (expenses t) ->
    (1 <= id e <= max_rowid)%Z /\ is_nan (amount e) = false.
Proof.
  intros Hr E. destruct (reachable_tables db Hr t E) as (Hnd & Hmax & Hrows).
  split; [exact Hnd|]. intros e He.
  destruct (Hrows e He) as (H1 & Hnan & _).
  destruct (largest_ever_bounds t) as (_ & Hids & _). specialize (Hids e He).
  repeat split; [exact H1|lia|exact Hnan].
Qed.

Lemma ledger_reachable : reachable Examples.ledger.
Proof.
  apply (reach_add (init_db new_file) 200 "food" "2026-11-03T12:00:00").
  - apply reach_init, reach_new.
  - vm_compute. reflexivity.
Qed.

Lemma reachable_ids_and_amounts_witness :
  NoDup (map id [mk_expense 1 200 "food" "2026-11-03T12:00:00"]) /\
  forall e, In e [mk_expense 1 200 "food" "2026-11-03T12:00:00"] ->
    (1 <= id e <= max_rowid)%Z /\ is_nan (amount e) = false.
Proof.
  exact (reachable_ids_and_amounts Examples.ledger
           (mk_tables [mk_expense 1 200 "food" "2026-11-03T12:00:00"] (Some 1%Z))
           ledger_reachable eq_refl).
Defined.

(** X14: a successful insertion appends one row that holds what was given, the
    sign of a zero amount dropped, under an id larger than every id in the
    table and every id handed out since the sequence was last reset; and
    it succeeds only for an amount that is a number. *)
Theorem add_expense_fresh_id (db db' : database) (a : float) (c d : string) :
  add_expense db a c d = Ok db' ->
  exists t e,
    db = Some t /\
    db' = Some (mk_tables (expenses t ++ [e]) (Some (id e))) /\
    amount e = real a /\ category e = c /\ date e = d /\
    is_nan a = false /\
    (forall e0, In e0 (expenses t) -> (id e0 < id e)%Z) /\
    (forall s, sequence t = Some s -> (s < id e)%Z).
Proof.
  intros H. apply add_expense_ok in H. destruct H as (t & -> & _ & Ha & ->).
  destruct (largest_ever_bounds t) as (_ & Hids & Hseq).
  exists t, (mk_expense (largest_ever t + 1) (real a) c d).
  split; [reflexivity|]. split; [reflexivity|]. simpl.
  repeat split; auto.
  - intros e0 He0. specialize (Hids e0 He0). lia.
  - intros s Hs. specialize (Hseq s Hs). lia.
Qed.

Lemma add_expense_fresh_id_witness :
  exists t e,
    Examples.ledger = Some t /\
    Some (mk_tables [mk_expense 1 200 "food" "2026-11-03T12:00:00";
                     mk_expense 2 35.5 "travel" "2026-11-04"] (Some 2%Z))
    = Some (mk_tables (expenses t ++ [e]) (Some (id e))) /\
    amount e = real 35.5 /\ category e = "travel" /\ date e = "2026-11-04" /\
    is_nan 35.5 = false /\
    (forall e0, In e0 (expenses t) -> (id e0 < id e)%Z) /\
    (forall s, sequence t = Some s -> (s < id e)%Z).
Proof.
  apply (add_expense_fresh_id Examples.ledger _ 35.5 "travel" "2026-11-04").
  vm_compute. reflexivity.
Defined.

(** X15: clearing empties the table and resets the sequence: nothing is read
    back, clearing again changes nothing, and the next expense gets the
    id 1. *)
Theorem clear_all_resets (db db0 : database) :
  clear_all db = Ok db0 ->
  get_expenses db0 = Ok [] /\
  clear_all db0 = Ok db0 /\
  forall a c d, is_nan a = false ->
    exists db1,
      add_expense db0 a c d = Ok db1 /\
      get_expenses db1 = Ok [mk_raw 1 (ANum (real a)) (Some c) (DStr d)].
Proof.
  destruct db as [t|]; [|discriminate]. simpl. intros E. injection E as <-.
  repeat split. intros a c d Ha. unfold add_expense.
  change (largest_ever (mk_tables [] None) =? max_rowid)%Z with false.
  cbv iota. rewrite Ha. eexists. split; reflexivity.
Qed.

Lemma clear_all_resets_witness :
  get_expenses (Some (mk_tables [] None)) = Ok [] /\
  clear_all (Some (mk_tables [] None)) = Ok (Some (mk_tables [] None)) /\
  forall a c d, is_nan a = false ->
    exists db1,
      add_expense (Some (mk_tables [] None)) a c d = Ok db1 /\
      get_expenses db1 = Ok [mk_raw 1 (ANum (real a)) (Some c) (DStr d)].
Proof.
  apply (clear_all_resets Examples.ledger (Some (mk_tables [] None))).
  reflexivity.
Defined.

(** X16: what is read back is every stored row, once, the row with the larger
    date text first. *)
Theorem get_expenses_newest_first (db : database) (rows : list raw_row) :
  get_expenses db = Ok rows ->
  exists t sorted,
    db = Some t /\ rows = map fetched sorted /\
    Permutation sorted (expenses t) /\
    Sorted (fun e1 e2 => String.leb (date e2) (date e1) = true) sorted.
Proof.
  destruct db as [t|]; [|discriminate]. simpl. intros E. injection E as <-.
  exists t, (order_by_date_desc (expenses t)).
  split; [reflexivity|]. split; [reflexivity|].
  split; [apply order_by_date_desc_perm|apply order_by_date_desc_sorted].
Qed.

Lemma get_expenses_newest_first_witness :
  exists t sorted,
    Examples.ledger = Some t /\
    [mk_raw 1 (ANum 200) (Some "food") (DStr "2026-11-03T12:00:00")]
    = map fetched sorted /\
    Permutation sorted (expenses t) /\
    Sorted (fun e1 e2 => String.leb (date e2) (date e1) = true) sorted.
Proof.
  apply (get_expenses_newest_first Examples.ledger). reflexivity.
Defined.

End DbFacts.

(** ** The page and the store together *)

Module PageFacts.

Import Str Time Frame Analysis App Spec StrFacts ParserFacts NumFacts.

Local Open Scope float_scope.

(** *** Numbers kept by the store *)

Lemma gt_0_number (x : float) :
  Num.gt x 0 = true -> is_nan x = false /\ Db.real x = x.
Proof.
  unfold Num.gt, is_nan, Db.real. rewrite ltb_spec, !eqb_spec.
  change (Prim2SF 0) with (S754_zero false).
  unfold SFltb, SFeqb.
  destruct (Prim2SF x) as [s|[]| |[] m e]; simpl; try discriminate; intros _;
    try rewrite Z.compare_refl, Pos.compare_cont_refl; auto.
Qed.

Lemma real_nonneg (x : float) : Num.le 0 x = true -> Num.le 0 (Db.real x) = true.
Proof. unfold Db.real. intros H. destruct (x =? 0); [reflexivity|exact H]. Qed.

Lemma lower_category (c : string) : In c categories -> lower c = c.
Proof.
  unfold categories. simpl.
  intros H. repeat (destruct H as [<-|H]); try contradiction; reflexivity.
Qed.

(** *** The parser never raises *)

Lemma parse_nl_expense_outcome (now : datetime) (text : string) :
  valid now = true -> (1 < year now)%Z ->
  parse_nl_expense now text = Returned None \/
  exists a c d,
    parse_nl_expense now text = Returned (Some (a, c, d)) /\
    Num.le 0 a = true /\ In c categories.
Proof.
  intros Hv Hy. unfold parse_nl_expense. rewrite empty_or_blank.
  destruct (all_space text); [now left|].
  destruct (search_amount (strip (lower text))) as [m|] eqn:Hm; [|now left].
  apply search_amount_some in Hm. destruct Hm as [Hp _].
  destruct (float_of_amount m Hp) as (x & -> & Hx). cbn [bind].
  destruct (detect_category categories (strip (lower text))) as [cat|] eqn:Hc;
    [|now left].
  apply detect_category_some in Hc. destruct Hc as [Hin _].
  destruct (date_detection_returns now (strip (lower text)) Hv Hy)
    as (dt & -> & _).
  cbn [bind]. right. exists x, cat, dt. auto.
Qed.

(** *** The two buttons *)

(** X18: "Parse & Add from text", on a store whose table exists and whose ids
    are not used up, with a clock that shows a date after year 1: the text
    is refused when the parser fails, and otherwise one row is appended
    under the next id, with the parsed category, one of the vocabulary, the
    parsed date in ISO form and the parsed amount, which is zero or more.
    No exception comes out of the parser or of the store. *)
Theorem quick_add_saves_or_refuses (t : Db.tables) (now : datetime)
    (text : string) :
  valid now = true -> (1 < year now)%Z ->
  Db.largest_ever t <> Db.max_rowid ->
  (parse_nl_expense now text = Returned None /\
   Page.quick_add (Some t) now text
   = Page.Refused "Could not parse text. Try: 200 food today") \/
  (exists a c d,
     parse_nl_expense now text = Returned (Some (a, c, d)) /\
     Page.quick_add (Some t) now text
     = Page.Saved
         (Some (Db.mk_tables
                  (Db.expenses t ++
                   [Db.mk_expense (Db.largest_ever t + 1) (Db.real a) c
                                  (Page.isoformat d)])
                  (Some (Db.largest_ever t + 1)%Z))) /\
     In c categories /\ Num.le 0 (Db.real a) = true).
Proof.
  intros Hv Hy Hmax. unfold Page.quick_add.
  destruct (parse_nl_expense_outcome now text Hv Hy)
    as [->|(a & c & d & -> & Ha & Hc)]; [now left|right].
  exists a, c, d. split; [reflexivity|].
  split; [|split; [exact Hc|now apply real_nonneg]].
  unfold Db.add_expense. apply Z.eqb_neq in Hmax. rewrite Hmax.
  rewrite (le_0_not_nan a Ha), (lower_category c Hc). reflexivity.
Qed.

(** X19: the form: an amount above zero is saved as it is, under the next id,
    with the lower-cased category and the day in ISO form; any other
    amount, NaN included, is refused. *)
Theorem save_form_saves_positive (t : Db.tables) (amt : float) (cat : string)
    (y m d : Z) :
  Db.largest_ever t <> Db.max_rowid ->
  (Num.gt amt 0 = true ->
   Page.save_form (Some t) amt cat y m d
   = Page.Saved
       (Some (Db.mk_tables
                (Db.expenses t ++
                 [Db.mk_expense (Db.largest_ever t + 1) amt (lower cat)
                                (Page.date_isoformat y m d)])
                (Some (Db.largest_ever t + 1)%Z)))) /\
  (Num.gt amt 0 = false ->
   Page.save_form (Some t) amt cat y m d = Page.Refused "Enter valid amount.").
Proof.
  intros Hmax. unfold Page.save_form. split; intros H; rewrite H;
    [|reflexivity].
  destruct (gt_0_number amt H) as [Hn Hr].
  unfold Db.add_expense. apply Z.eqb_neq in Hmax.
  rewrite Hmax, Hn, Hr. reflexivity.
Qed.

Lemma quick_add_saves_or_refuses_witness :
  (parse_nl_expense Demo.clock "200 food today" = Returned None /\
   Page.quick_add
     (Some (Db.mk_tables [Db.mk_expense 1 200 "food" "2026-11-03T12:00:00"]
                         (Some 1%Z)))
     Demo.clock "200 food today"
   = Page.Refused "Could not parse text. Try: 200 food today") \/
  (exists a c d,
     parse_nl_expense Demo.clock "200 food today" = Returned (Some (a, c, d)) /\
     Page.quick_add
       (Some (Db.mk_tables [Db.mk_expense 1 200 "food" "2026-11-03T12:00:00"]
                           (Some 1%Z)))
       Demo.clock "200 food today"
     = Page.Saved
         (Some (Db.mk_tables
                  (Db.expenses
                     (Db.mk_tables
                        [Db.mk_expense 1 200 "food" "2026-11-03T12:00:00"]
                        (Some 1%Z)) ++
                   [Db.mk_expense
                      (Db.largest_ever
                         (Db.mk_tables
                            [Db.mk_expense 1 200 "food" "2026-11-03T12:00:00"]
                            (Some 1%Z)) + 1)
                      (Db.real a) c (Page.isoformat d)])
                  (Some (Db.largest_ever
                           (Db.mk_tables
                              [Db.mk_expense 1 200 "food" "2026-11-03T12:00:00"]
                              (Some 1%Z)) + 1)%Z))) /\
     In c categories /\ Num.le 0 (Db.real a) = true).
Proof.
  apply (quick_add_saves_or_refuses
           (Db.mk_tables [Db.mk_expense 1 200 "food" "2026-11-03T12:00:00"]
                         (Some 1%Z))
           Demo.clock "200 food today").
  - vm_compute; reflexivity.
  - vm_compute; reflexivity.
  - vm_compute; discriminate.
Defined.

Lemma save_form_saves_positive_witness :
  (Num.gt 35.5 0 = true ->
   Page.save_form (Some (Db.mk_tables [] None)) 35.5 "Travel" 2026 11 4
   = Page.Saved
       (Some (Db.mk_tables
                (Db.expenses (Db.mk_tables [] None) ++
                 [Db.mk_expense (Db.largest_ever (Db.mk_tables [] None) + 1) 35.5
                                (lower "Travel")
                                (Page.date_isoformat 2026 11 4)])
                (Some (Db.largest_ever (Db.mk_tables [] None) + 1)%Z)))) /\
  (Num.gt 35.5 0 = false ->
   Page.save_form (Some (Db.mk_tables [] None)) 35.5 "Travel" 2026 11 4
   = Page.Refused "Enter valid amount.").
Proof.
  apply (save_form_saves_positive (Db.mk_tables [] None) 35.5 "Travel" 2026 11 4).
  vm_compute; discriminate.
Defined.

(** *** Stored rows and the two normalisers *)

Section Store.

Variable str_to_numeric : string -> option float.
Variable column_to_datetime : list date_cell -> nat -> option datetime.
Variable column_to_datetime_mixed : list date_cell -> nat -> option datetime.

(** X17: on the rows read from a store the program has filled, the normaliser
    of the page and the normaliser of the analyser give the same amounts
    and categories, and the table of the page holds no NaN amount and no
    null category: the store keeps numbers and text only. *)
Theorem stored_rows_normalize_alike (db : Db.database) (rows : list raw_row) :
  Db.reachable db -> Db.get_expenses db = Db.Ok rows ->
  map (fun r => (amount r, category r))
      (df_from_rows str_to_numeric column_to_datetime_mixed rows)
  = map (fun r => (amount r, category r))
        (Analysis.rows_to_df str_to_numeric column_to_datetime rows) /\
  forall r, In r (df_from_rows str_to_numeric column_to_datetime_mixed rows) ->
    is_nan (amount r) = false /\ category r <> None.
Proof.
  intros Hr Hg. destruct db as [t|]; [|discriminate Hg].
  simpl in Hg. injection Hg as <-.
  destruct (DbFacts.reachable_tables _ Hr t eq_refl) as (_ & _ & Hrows).
  assert (Hcells : forall raw,
            In raw (map Db.fetched (Db.order_by_date_desc (Db.expenses t))) ->
            exists a c, raw_amount raw = ANum a /\ is_nan a = false /\
                        raw_category raw = Some c).
  { intros raw Hin. apply in_map_iff in Hin. destruct Hin as (e & <- & He).
    apply (Permutation_in _ (DbFacts.order_by_date_desc_perm _)) in He.
    exists (Db.amount e), (Db.category e). simpl.
    split; [reflexivity|]. split; [apply (Hrows e He)|reflexivity]. }
  split.
  - rewrite AnalysisMore.df_from_rows_columns, AnalysisMore.rows_to_df_columns.
    apply map_ext_in. intros raw Hin.
    destruct (Hcells raw Hin) as (a & c & -> & Ha & ->). simpl.
    unfold Num.fillna0. now rewrite Ha.
  - intros r Hin.
    apply (in_map (fun r => (amount r, category r))) in Hin.
    rewrite AnalysisMore.df_from_rows_columns in Hin.
    apply in_map_iff in Hin. destruct Hin as (raw & E & Hraw).
    destruct (Hcells raw Hraw) as (a & c & Ea & Ha & Ec).
    rewrite Ea, Ec in E. simpl in E. injection E as <- <-.
    split; [exact Ha|discriminate].
Qed.

End Store.

Lemma stored_rows_normalize_alike_witness :
  map (fun r => (amount r, category r))
      (df_from_rows Demo.numeric_of_text Demo.datetime_of_text
         [mk_raw 1 (ANum 200) (Some "food") (DStr "2026-11-03T12:00:00")])
  = map (fun r => (amount r, category r))
        (Analysis.rows_to_df Demo.numeric_of_text Demo.datetime_of_text
           [mk_raw 1 (ANum 200) (Some "food") (DStr "2026-11-03T12:00:00")]) /\
  forall r,
    In r (df_from_rows Demo.numeric_of_text Demo.datetime_of_text
            [mk_raw 1 (ANum 200) (Some "food") (DStr "2026-11-03T12:00:00")]) ->
    is_nan (amount r) = false /\ category r <> None.
Proof.
  apply (stored_rows_normalize_alike
           Demo.numeric_of_text Demo.datetime_of_text Demo.datetime_of_text
           Examples.ledger
           [mk_raw 1 (ANum 200) (Some "food") (DStr "2026-11-03T12:00:00")]
           DbFacts.ledger_reachable).
  reflexivity.
Defined.

(** *** Dates as text *)

Local Open Scope Z_scope.

Lemma digit_code (n : Z) :
  Z.of_N (code (Page.digit n)) = (48 + n mod 10)%Z.
Proof.
  unfold Page.digit, code.
  assert (H : (0 <= n mod 10 < 10)%Z) by (apply Z.mod_pos_bound; lia).
  rewrite N_ascii_embedding by lia. lia.
Qed.

Lemma digit_is_digit (n : Z) : is_digit (Page.digit n) = true.
Proof.
  pose proof (digit_code n) as H.
  assert (Hn : (0 <= n mod 10 < 10)%Z) by (apply Z.mod_pos_bound; lia).
  unfold is_digit. apply andb_true_intro. split; apply N.leb_le; lia.
Qed.

Lemma pad2_value (n : Z) :
  (0 <= n < 100)%Z -> digits_value (Page.pad2 n) = n.
Proof.
  intros H. unfold digits_value, Page.pad2. cbn [digits_value_from].
  rewrite !digit_code. Z.to_euclidean_division_equations. lia.
Qed.

Lemma pad4_value (n : Z) :
  (0 <= n < 10000)%Z -> digits_value (Page.pad4 n) = n.
Proof.
  intros H. unfold digits_value, Page.pad4, Page.pad2. cbn [digits_value_from].
  rewrite !digit_code. Z.to_euclidean_division_equations. lia.
Qed.

Lemma valid_date_bounds (y m d : Z) :
  valid_date y m d = true ->
  (1 <= y <= 9999 /\ 1 <= m <= 12 /\ 1 <= d <= 31)%Z.
Proof.
  unfold valid_date. intros H.
  repeat (apply andb_prop in H; destruct H as [H ?]).
  pose proof (AppFacts.days_in_month_bounds y m).
  repeat match goal with
         | H : (_ <=? _)%Z = true |- _ => apply Z.leb_le in H
         end.
  lia.
Qed.

(** X20: the day the form saves is written as a text [fromisoformat] reads back
    as midnight of the same day. *)
Theorem date_isoformat_round_trip (y m d : Z) :
  valid_date y m d = true ->
  fromisoformat (Page.date_isoformat y m d) = Returned (mk_datetime y m d 0%Z).
Proof.
  intros Hv. pose proof (valid_date_bounds y m d Hv) as (Hy & Hm & Hd).
  unfold fromisoformat, Page.date_isoformat.
  pose proof (pad4_value y ltac:(lia)) as Ey.
  pose proof (pad2_value m ltac:(lia)) as Em.
  pose proof (pad2_value d ltac:(lia)) as Ed.
  unfold Page.pad4, Page.pad2 in *. cbn [append iso_shape substring].
  rewrite !digit_is_digit. cbn [Ascii.eqb Bool.eqb andb].
  rewrite Ey, Em, Ed, Hv. reflexivity.
Qed.

Lemma date_isoformat_round_trip_witness :
  fromisoformat (Page.date_isoformat 2026 11 4)
  = Returned (mk_datetime 2026 11 4 0%Z).
Proof.
  apply (date_isoformat_round_trip 2026 11 4). reflexivity.
Defined.

Lemma compare_digit (a b : Z) (r r' : string) :
  String.compare (String (Page.digit a) r) (String (Page.digit b) r')
  = match a mod 10 ?= b mod 10 with
    | Eq => String.compare r r'
    | c => c
    end.
Proof.
  cbn [String.compare]. unfold Ascii.compare.
  change N_of_ascii with code.
  rewrite <- N2Z.inj_compare. rewrite !digit_code, Z.add_compare_mono_l. reflexivity.
Qed.

Lemma compare_pad2 (n n' : Z) (r r' : string) :
  0 <= n < 100 -> 0 <= n' < 100 ->
  String.compare (Page.pad2 n ++ r) (Page.pad2 n' ++ r')
  = match n ?= n' with
    | Eq => String.compare r r'
    | c => c
    end.
Proof.
  intros H H'. unfold Page.pad2. cbn [append]. rewrite !compare_digit.
  destruct (Z.compare_spec ((n / 10) mod 10) ((n' / 10) mod 10));
    [destruct (Z.compare_spec (n mod 10) (n' mod 10))| |];
    destruct (Z.compare_spec n n'); try reflexivity; exfalso;
    Z.to_euclidean_division_equations; lia.
Qed.

Lemma compare_pad4 (n n' : Z) (r r' : string) :
  0 <= n < 10000 -> 0 <= n' < 10000 ->
  String.compare (Page.pad4 n ++ r) (Page.pad4 n' ++ r')
  = match n ?= n' with
    | Eq => String.compare r r'
    | c => c
    end.
Proof.
  intros H H'. unfold Page.pad4, Page.pad2. cbn [append]. rewrite !compare_digit.
  destruct (Z.compare_spec ((n / 1000) mod 10) ((n' / 1000) mod 10));
    [destruct (Z.compare_spec ((n / 100) mod 10) ((n' / 100) mod 10));
     [destruct (Z.compare_spec ((n / 10) mod 10) ((n' / 10) mod 10));
      [destruct (Z.compare_spec (n mod 10) (n' mod 10))| |]| |]| |];
    destruct (Z.compare_spec n n'); try reflexivity; exfalso;
    Z.to_euclidean_division_equations; lia.
Qed.

Lemma date_isoformat_compare (y m d y' m' d' : Z) :
  valid_date y m d = true -> valid_date y' m' d' = true ->
  String.compare (Page.date_isoformat y m d) (Page.date_isoformat y' m' d')
  = Time.compare (mk_datetime y m d 0) (mk_datetime y' m' d' 0).
Proof.
  intros Hv Hv'.
  pose proof (valid_date_bounds y m d Hv) as (Hy & Hm & Hd).
  pose proof (valid_date_bounds y' m' d' Hv') as (Hy' & Hm' & Hd').
  unfold Page.date_isoformat, Time.compare. cbn [year month day tod].
  rewrite compare_pad4 by lia.
  destruct (y ?= y'); try reflexivity.
  change (String.compare ("-" ++ Page.pad2 m ++ "-" ++ Page.pad2 d)
                         ("-" ++ Page.pad2 m' ++ "-" ++ Page.pad2 d'))
    with (String.compare (Page.pad2 m ++ "-" ++ Page.pad2 d)
                         (Page.pad2 m' ++ "-" ++ Page.pad2 d')).
  rewrite compare_pad2 by lia.
  destruct (m ?= m'); try reflexivity.
  change (String.compare ("-" ++ Page.pad2 d) ("-" ++ Page.pad2 d'))
    with (String.compare (Page.pad2 d ++ "") (Page.pad2 d' ++ "")).
  rewrite compare_pad2 by lia.
  destruct (d ?= d'); reflexivity.
Qed.

(** X21: the texts the form saves for two days compare as the days do: sorting
    the stored rows by their date text, as the store does, puts such rows
    in the order of the calendar. *)
Theorem date_isoformat_order (y m d y' m' d' : Z) :
  valid_date y m d = true -> valid_date y' m' d' = true ->
  String.leb (Page.date_isoformat y m d) (Page.date_isoformat y' m' d')
  = Time.leb (mk_datetime y m d 0%Z) (mk_datetime y' m' d' 0%Z).
Proof.
  intros Hv Hv'. unfold String.leb, Time.leb.
  now rewrite date_isoformat_compare.
Qed.

Lemma date_isoformat_order_witness :
  String.leb (Page.date_isoformat 2026 11 4) (Page.date_isoformat 2026 12 25)
  = Time.leb (mk_datetime 2026 11 4 0%Z) (mk_datetime 2026 12 25 0%Z).
Proof.
  apply (date_isoformat_order 2026 11 4 2026 12 25); reflexivity.
Defined.

End PageFacts.

(** ** The line chart *)

Module ChartFacts.

Import Time Frame Charts.

Local Open Scope float_scope.

Lemma In_insert_month (x p : period) (keys : list period) :
  In x (insert_month p keys) <-> x = p \/ In x keys.
Proof.
  induction keys as [|q rest IH]; simpl; [intuition|].
  destruct (Z.compare_spec p q) as [->| |]; simpl.
  - intuition.
  - intuition.
  - rewrite IH. intuition.
Qed.

Lemma In_month_keys (p : period) (df : DataFrame) :
  In p (month_keys df) <-> exists r, In r df /\ in_month p r = true.
Proof.
  unfold in_month. induction df as [|x rest IH]; simpl.
  - split; [tauto|]. now intros (r & [] & _).
  - destruct (date x) as [t|] eqn:Ex.
    + rewrite In_insert_month, IH. split.
      * intros [->|(r & Hr & Hk)]; [exists x|exists r]; auto.
        split; [now left|]. rewrite Ex. apply Z.eqb_refl.
      * intros (r & [<-|Hr] & Hk); [left|right; eauto].
        rewrite Ex in Hk. apply Z.eqb_eq in Hk. auto.
    + rewrite IH. split.
      * intros (r & Hr & Hk). eauto.
      * intros (r & [<-|Hr] & Hk); [|eauto]. rewrite Ex in Hk. discriminate.
Qed.

Lemma filter_nil_iff {A} (f : A -> bool) (l : list A) :
  (forall x, In x l -> f x = false) -> filter f l = [].
Proof.
  induction l as [|x r IH]; simpl; intros H; [reflexivity|].
  rewrite (H x) by auto. apply IH. auto.
Qed.

(** The value the reindexed series holds for a month is the sum of the
    rows of that month, whether the month has rows or not. *)
Lemma reindex_groupby_month_sum (months : list period) (df : DataFrame) :
  map snd (reindex months 0 (groupby_month_sum df))
  = map (fun p => Num.series_sum (map amount (filter (in_month p) df))) months.
Proof.
  unfold reindex. rewrite map_map. apply map_ext. intros p. cbn [snd].
  unfold groupby_month_sum.
  destruct (find _ _) as [[q v]|] eqn:E.
  - apply find_some in E. destruct E as [Hin Hq]. cbn [fst] in Hq.
    apply Z.eqb_eq in Hq. subst q. apply in_map_iff in Hin.
    destruct Hin as (p' & Ep & _). injection Ep as -> <-. reflexivity.
  - assert (Hnot : ~ In p (month_keys df)).
    { intros Hin.
      assert (Hp : In (p, Num.series_sum (map amount (filter (in_month p) df)))
                      (map (fun p => (p, Num.series_sum
                                           (map amount (filter (in_month p) df))))
                           (month_keys df)))
        by (apply in_map_iff; exists p; auto).
      apply (find_none _ _ E) in Hp. cbn [fst] in Hp.
      rewrite Z.eqb_refl in Hp. discriminate. }
    rewrite filter_nil_iff; [reflexivity|].
    intros r Hr. destruct (in_month p r) eqn:Er; [|reflexivity].
    exfalso. apply Hnot, In_month_keys. eauto.
Qed.

Lemma filter_month_window (first p : period) (df : DataFrame) :
  (first <= p)%Z ->
  filter (in_month p) (filter (month_ge first) df) = filter (in_month p) df.
Proof.
  intros Hp. induction df as [|x r IH]; simpl; [reflexivity|].
  unfold month_ge at 1, in_month at 2.
  destruct (date x) as [t|] eqn:Ex.
  - destruct (Z.leb_spec first (to_period t)); simpl.
    + unfold in_month at 1. rewrite Ex. now rewrite IH.
    + destruct (Z.eqb_spec (to_period t) p); [lia|]. exact IH.
  - exact IH.
Qed.

Lemma to_period_sub_months (t : datetime) (n : Z) :
  to_period (sub_months t n) = (to_period t - n)%Z.
Proof.
  unfold to_period, sub_months. simpl. Z.to_euclidean_division_equations. lia.
Qed.

Lemma assign_columns_ext_in (f : amount_cell -> float)
    (fd : nat -> option datetime) (fc gc : option string -> option string)
    (i : nat) (rows : list raw_row) :
  (forall raw, In raw rows -> fc (raw_category raw) = gc (raw_category raw)) ->
  assign_columns f fd fc i rows = assign_columns f fd gc i rows.
Proof.
  revert i; induction rows as [|x rest IH]; intros i H; simpl; [reflexivity|].
  rewrite (H x) by now left. f_equal. apply IH. intros raw Hin. apply H.
  now right.
Qed.

Section Pandas.

Variable str_to_numeric : string -> option float.
Variable column_to_datetime : list date_cell -> nat -> option datetime.
Variable null_text : string.

Abbreviation rows_to_df := (rows_to_df str_to_numeric column_to_datetime null_text).
Abbreviation line_chart := (line_chart str_to_numeric column_to_datetime null_text).

(** The points of the chart before the window is taken into account. *)
Lemma line_chart_values (now : datetime) (rows : list raw_row) :
  rows <> [] ->
  let first := (to_period now - 11)%Z in
  let months := map (fun i => (first + Z.of_nat i)%Z) (seq 0 12) in
  line_chart now rows
  = LinePlot
      (map period_str months)
      (map (fun p => Num.series_sum
                       (map amount
                            (filter (in_month p)
                                    (filter (month_ge first) (rows_to_df rows)))))
           months).
Proof.
  intros Hne. cbv zeta. unfold Charts.line_chart.
  assert (He : empty (rows_to_df rows) = false).
  { destruct rows as [|x rest]; [contradiction|reflexivity]. }
  rewrite He, to_period_sub_months.
  set (first := (to_period now - 11)%Z).
  assert (Hrange : period_range first (to_period now)
                   = map (fun i => (first + Z.of_nat i)%Z) (seq 0 12)).
  { unfold period_range.
    replace (to_period now - first + 1)%Z with 12%Z by (unfold first; lia).
    reflexivity. }
  rewrite Hrange, reindex_groupby_month_sum.
  unfold reindex. rewrite !map_map. reflexivity.
Qed.


(** X23: on rows that all have a category, the normaliser of the charts gives
    the table the normaliser of the analyser gives: the two differ only in
    what they put in place of a missing category. *)
Theorem rows_to_df_agrees (rows : list raw_row) :
  (forall raw, In raw rows -> raw_category raw <> None) ->
  rows_to_df rows = Analysis.rows_to_df str_to_numeric column_to_datetime rows.
Proof.
  intros Hc. destruct rows as [|x rest]; [reflexivity|].
  unfold Charts.rows_to_df, Analysis.rows_to_df.
  apply assign_columns_ext_in. intros raw Hin.
  specialize (Hc raw Hin). destruct (raw_category raw); [reflexivity|contradiction].
Qed.

End Pandas.


Lemma rows_to_df_agrees_witness :
  rows_to_df Demo.numeric_of_text Demo.datetime_of_text "None"
             Demo.food_and_shopping
  = Analysis.rows_to_df Demo.numeric_of_text Demo.datetime_of_text
      Demo.food_and_shopping.
Proof.
  apply (rows_to_df_agrees Demo.numeric_of_text Demo.datetime_of_text "None"
           Demo.food_and_shopping).
  intros raw [<-|[<-|[]]]; discriminate.
Defined.

(** *** The bar chart *)

Local Open Scope Z_scope.

Lemma toordinal_first_day (t : datetime) :
  valid t = true -> 1 < toordinal t ->
  1 < day t \/ 1 < month t \/ 1 < year t.
Proof.
  intros Hv. pose proof (AppFacts.valid_fields t Hv) as (Hy & Hm & Hd & _).
  unfold toordinal, days_before_year, days_before_month. intros H.
  destruct (Z.eq_dec (year t) 1) as [Ey|]; [|lia].
  destruct (Z.eq_dec (month t) 1) as [Em|]; [|lia].
  rewrite Ey, Em in H. simpl in H. lia.
Qed.

Lemma sub_one_day_returns (t : datetime) :
  valid t = true -> 1 < toordinal t ->
  exists d, sub_one_day t = Returned d /\ valid d = true.
Proof.
  intros Hv Ho. pose proof (AppFacts.valid_fields t Hv) as (Hyear & Hm & Hd & Ht).
  pose proof (toordinal_first_day t Hv Ho) as Hfirst.
  unfold sub_one_day.
  assert (Hvalid : forall y m d, 1 <= y <= 9999 -> 1 <= m <= 12 ->
            1 <= d <= days_in_month y m ->
            valid (mk_datetime y m d (tod t)) = true).
  { intros y m d Hy' Hm' Hd'. unfold valid, valid_date. simpl.
    rewrite !andb_true_iff. repeat split; lia. }
  destruct (Z.ltb_spec 1 (day t)).
  - eexists; split; [reflexivity|]. apply Hvalid; simpl; lia.
  - destruct (Z.ltb_spec 1 (month t)).
    + eexists; split; [reflexivity|].
      pose proof (AppFacts.days_in_month_bounds (year t) (month t - 1)).
      apply Hvalid; lia.
    + destruct (Z.ltb_spec 1 (year t)); [|lia].
      eexists; split; [reflexivity|]. apply Hvalid; try lia.
      unfold days_in_month. simpl. lia.
Qed.

Lemma sub_days_returns (n : nat) (t : datetime) :
  valid t = true -> Z.of_nat n < toordinal t ->
  exists d, sub_days n t = Returned d /\ valid d = true /\
            toordinal d = toordinal t - Z.of_nat n /\ tod d = tod t.
Proof.
  revert t; induction n as [|n IH]; intros t Hv Ho.
  - exists t. simpl. repeat split; auto. lia.
  - destruct (sub_one_day_returns t Hv ltac:(lia)) as (d1 & E1 & Hv1).
    destruct (ParserFacts.sub_one_day_previous t d1 Hv E1) as [Ho1 Ht1].
    destruct (IH d1 Hv1 ltac:(lia)) as (d & E & Hvd & Hod & Htd).
    exists d. cbn [sub_days]. rewrite E1. cbn [bind]. rewrite E.
    repeat split; auto; lia.
Qed.

Lemma toordinal_after_year_1 (t : datetime) :
  valid t = true -> 1 < year t -> 365 < toordinal t.
Proof.
  intros Hv Hy. pose proof (AppFacts.valid_fields t Hv) as (Hyear & Hm & Hd & _).
  unfold toordinal, days_before_year.
  assert (0 <= days_before_month (year t) (month t)).
  { unfold days_before_month.
    repeat match goal with
           | |- context [if ?b then _ else _] => destruct b
           end; lia. }
  Z.to_euclidean_division_equations. lia.
Qed.

Local Close Scope Z_scope.

Lemma combine_fst_snd {A B} (l : list (A * B)) :
  combine (map fst l) (map snd l) = l.
Proof.
  induction l as [|[a b] r IH]; simpl; [reflexivity|]. now rewrite IH.
Qed.

Section Bars.

Variable str_to_numeric : string -> option float.
Variable column_to_datetime : list date_cell -> nat -> option datetime.
Variable null_text : string.


End Bars.


(** *** The trend chart of the page *)

Lemma assign_columns_dates (f : amount_cell -> float)
    (fd : nat -> option datetime) (fc : option string -> option string)
    (i : nat) (rows : list raw_row) :
  map date (assign_columns f fd fc i rows) = map fd (seq i (List.length rows)).
Proof.
  revert i; induction rows as [|x rest IH]; intros i; simpl; [reflexivity|].
  now rewrite IH.
Qed.

Lemma map_positions {A B} (g : A -> B) (h : nat -> B) (l : list A) :
  (forall j x, nth_error l j = Some x -> h j = g x) ->
  map h (seq 0 (List.length l)) = map g l.
Proof.
  revert h; induction l as [|x r IH]; intros h H; simpl; [reflexivity|].
  rewrite (H 0%nat x eq_refl). f_equal.
  rewrite <- seq_shift, map_map. apply IH. intros j y Hj. now apply (H (S j)).
Qed.

Section OnPage.

Variable str_to_numeric : string -> option float.
Variable column_to_datetime : list date_cell -> nat -> option datetime.
Variable null_text : string.

(** The records of a table keep their dates when the charts normalise
    them. *)
Lemma rows_to_df_records_dates (df : DataFrame) :
  map date (rows_to_df str_to_numeric column_to_datetime null_text
              (Page.to_records df))
  = map date df.
Proof.
  destruct df as [|x rest]; [reflexivity|].
  set (recs := Page.to_records (x :: rest)).
  assert (E : rows_to_df str_to_numeric column_to_datetime null_text recs
              = assign_columns
                  (fun c => Num.fillna0 (to_numeric str_to_numeric c))
                  (to_datetime column_to_datetime (map raw_date recs))
                  (fun c => Some (Str.strip (Str.lower (astype_str null_text c))))
                  0 recs) by reflexivity.
  rewrite E, assign_columns_dates.
  replace (List.length recs) with (List.length (x :: rest))
    by (unfold recs, Page.to_records; now rewrite length_map).
  apply map_positions. intros j r Hj. unfold to_datetime, recs, Page.to_records.
  rewrite !nth_error_map, Hj. simpl. destruct (date r); reflexivity.
Qed.

Variable column_to_datetime_mixed : list date_cell -> nat -> option datetime.

(** X24: under "This Month" the trend chart of the page is flat before the
    current month: the table it is given holds no row of an earlier month,
    so the eleven earlier points are zero. *)
Theorem page_line_chart_this_month (now : datetime) (rows : list raw_row) :
  valid now = true ->
  (forall r t,
     In r (App.df_from_rows str_to_numeric column_to_datetime_mixed rows) ->
     date r = Some t -> valid t = true) ->
  let chart :=
    page_line_chart str_to_numeric column_to_datetime null_text
                    column_to_datetime_mixed now rows "This Month" in
  chart = Message "No data" \/
  exists current,
    chart
    = LinePlot
        (map (fun i => period_str (to_period now - 11 + Z.of_nat i)%Z) (seq 0 12))
        (repeat 0 11 ++ [current]).
Proof.
  intros Hnow Hvalid. cbv zeta. unfold page_line_chart.
  set (kept := App.filter_by_timeframe now _ "This Month").
  destruct kept as [|k rest] eqn:Ek; [now left|right].
  rewrite <- Ek.
  assert (Hne : Page.to_records kept <> []) by (rewrite Ek; discriminate).
  rewrite (line_chart_values _ _ _ now _ Hne). cbv zeta.
  set (df := rows_to_df _ _ _ _).
  assert (Hlate : forall r, In r df -> forall p, (p < to_period now)%Z ->
                                             in_month p r = false).
  { intros r Hr p Hp.
    apply (in_map date) in Hr. unfold df in Hr.
    rewrite rows_to_df_records_dates in Hr. apply in_map_iff in Hr.
    destruct Hr as (k0 & Ed & Hk0). unfold in_month. rewrite <- Ed.
    unfold kept in Hk0. apply AppFacts.this_month_keeps in Hk0.
    destruct Hk0 as [Hin Hge].
    destruct (date k0) as [t|] eqn:Et; [|reflexivity].
    specialize (Hvalid k0 t Hin Et).
    apply AppFacts.valid_fields in Hvalid, Hnow. simpl in Hge.
    apply AppFacts.leb_fields in Hge. unfold replace_day in Hge. simpl in Hge.
    apply Z.eqb_neq. unfold to_period in *. lia. }
  eexists.
  change (seq 0 12) with (seq 0 11 ++ [11%nat])%list.
  rewrite !map_app. f_equal. f_equal; [|reflexivity].
  change (repeat 0 11) with (map (fun _ : nat => 0) (seq 0 11)).
  rewrite map_map. apply map_ext_in. intros i Hi. apply in_seq in Hi.
  rewrite filter_nil_iff; [reflexivity|].
  intros r Hr. apply filter_In in Hr. destruct Hr as [Hr _].
  apply Hlate; [exact Hr|lia].
Qed.

End OnPage.

Lemma page_line_chart_this_month_witness :
  let chart :=
    page_line_chart Demo.numeric_of_text Demo.datetime_of_text "None"
                    Demo.datetime_of_text Demo.clock Demo.food_and_shopping
                    "This Month" in
  chart = Message "No data" \/
  exists current,
    chart
    = LinePlot
        (map (fun i => period_str (to_period Demo.clock - 11 + Z.of_nat i)%Z)
             (seq 0 12))
        (repeat 0 11 ++ [current]).
Proof.
  apply (page_line_chart_this_month Demo.numeric_of_text Demo.datetime_of_text
           "None" Demo.datetime_of_text Demo.clock Demo.food_and_shopping).
  - reflexivity.
  - intros r t Hin E. vm_compute in Hin.
    destruct Hin as [<-|[<-|[]]]; injection E as <-; reflexivity.
Defined.

End ChartFacts.
